(** * The managed DataHub sub-controller (operator/controllers/managed-dh/controller.go)

    A shallow embedding of the dynamically created controller that manages a
    single DataHub namespace on behalf of an SdiObserver resource:
    its construction ([NewManagedDhController], [manageDhNamespace]), its life
    cycle ([Start], [startFactories], [Stop]), the notification hand-off
    ([ReconcileObs]) and the reconcile function ([Reconcile]).

    Go state is passed explicitly: a [World] holds the channels, the cancellable
    contexts and the trace of calls made to the controller-runtime and
    client-go libraries.  Goroutine interleavings are schedules over the atomic
    channel and cancel steps of the methods. *)

From Stdlib Require Import ZArith Bool Lia.
From stdpp Require Import base option list gmap strings.

Local Open Scope string_scope.

(** ** time.Duration and the resync constants *)

Module GoTime.

(** [time.Duration] is an int64 count of nanoseconds. *)
Definition Duration := Z.

Definition Nanosecond : Duration := 1%Z.
Definition Microsecond : Duration := (1000 * Nanosecond)%Z.
Definition Millisecond : Duration := (1000 * Microsecond)%Z.
Definition Second : Duration := (1000 * Millisecond)%Z.
Definition Minute : Duration := (60 * Second)%Z.

Definition maxInt64 : Z := (2 ^ 63 - 1)%Z.

End GoTime.
Import GoTime.

Definition defaultSyncTime : Duration := Minute.
Definition dhSyncTime : Duration := (Minute * 3)%Z.
Definition routeSyncTime : Duration := (Minute * 10)%Z.
Definition coreSyncTime : Duration := (Minute * 10)%Z.

(** ** Errors (k8s.io/apimachinery/pkg/api/errors) *)

Inductive StatusReason :=
| StatusReasonUnknown
| StatusReasonNotFound
| StatusReasonConflict
| StatusReasonTimeout
| StatusReasonInternalError.

(** A non-nil Go [error]; the nil error is [None : option error]. *)
Record error := mkError { errReason : StatusReason; errMessage : string }.

Definition IsNotFound (err : error) : bool :=
  match errReason err with
  | StatusReasonNotFound => true
  | _ => false
  end.

(** ** API objects *)

Record ObjectMeta := mkObjectMeta {
  Name : string;
  Namespace : string;
  Labels : gmap string string;
  Generation : Z
}.

Record NamespacedName := mkNamespacedName { nnNamespace : string; nnName : string }.

Record GroupVersionResource := mkGvr {
  gvrGroup : string; gvrVersion : string; gvrResource : string
}.

(** [SDIObserverSpecRoute]: the management state is a Go string type, so its
    zero value is the empty string (the default [Managed] is applied by the
    API server, not by the Go type). *)
Record SDIObserverSpecRoute := mkSpecRoute {
  ManagementState : string;
  Hostname : string
}.

Record SDIObserverSpec := mkSpec {
  SDINamespace : string;
  SLCBNamespace : string;
  SLCBRoute : SDIObserverSpecRoute;
  VsystemRoute : SDIObserverSpecRoute
}.

Record Condition := mkCondition {
  condType : string;
  condStatus : string;
  condReason : string;
  condMessage : string;
  condObservedGeneration : Z
}.

Record SDIObserverStatus := mkStatus {
  Conditions : list Condition;
  SLCBRouteConditions : list Condition;
  VsystemRouteConditions : list Condition
}.

Record SdiObserver := mkSdiObserver {
  Meta : ObjectMeta;
  Spec : SDIObserverSpec;
  Status : SDIObserverStatus
}.

(** [&sdiv1alpha1.SdiObserver{}]: every field at its zero value. *)
Definition zeroSpecRoute : SDIObserverSpecRoute := mkSpecRoute "" "".

Definition zeroSdiObserver : SdiObserver :=
  mkSdiObserver (mkObjectMeta "" "" ∅ 0%Z)
                (mkSpec "" "" zeroSpecRoute zeroSpecRoute)
                (mkStatus [] [] []).

(** [event.GenericEvent{Object: obs}] *)
Record GenericEvent := mkGenericEvent { Object : SdiObserver }.

(** ** Informer factories, sources, predicates and watches *)

(** The three concrete [informerFactory] implementations the controller
    creates, each with its default resync period and namespace scope. *)
Inductive informerFactory :=
| DynamicSharedInformerFactory (resync : Duration) (ns : string)
| KubeSharedInformerFactory (resync : Duration) (ns : string)
| RouteSharedInformerFactory (resync : Duration) (ns : string).

Definition factoryResync (f : informerFactory) : Duration :=
  match f with
  | DynamicSharedInformerFactory r _
  | KubeSharedInformerFactory r _
  | RouteSharedInformerFactory r _ => r
  end.

Definition factoryNamespace (f : informerFactory) : string :=
  match f with
  | DynamicSharedInformerFactory _ ns
  | KubeSharedInformerFactory _ ns
  | RouteSharedInformerFactory _ ns => ns
  end.

Inductive Resource :=
| ResDynamic (gvr : GroupVersionResource)   (* factory.ForResource(gvr) *)
| ResServices                               (* Core().V1().Services() *)
| ResSecrets                                (* Core().V1().Secrets() *)
| ResRoutes.                                (* Route().V1().Routes() *)

(** An informer obtained from a factory; it inherits the factory's resync
    period and namespace. *)
Record Informer := mkInformer { infFactory : informerFactory; infResource : Resource }.

Definition ctxId := nat.
Definition chanId := nat.

Inductive Source :=
| SourceChannel (src : chanId) (stop : ctxId)   (* source.Channel + InjectStopChannel *)
| SourceInformer (inf : Informer).              (* source.Informer *)

(** Predicates, defunctionalised: the label selector predicate and the
    closure [func(object) bool { return object.GetName() == name }]. *)
Inductive Predicate :=
| LabelSelectorPredicate (matchLabels : gmap string string)
| NameEqualsPredicate (name : string).

Definition labelsMatch (sel labels : gmap string string) : bool :=
  bool_decide (map_Forall (fun k v => labels !! k = Some v) sel).

Definition evalPredicate (p : Predicate) (o : ObjectMeta) : bool :=
  match p with
  | LabelSelectorPredicate sel => labelsMatch sel (Labels o)
  | NameEqualsPredicate n => bool_decide (Name o = n)
  end.

(** The arguments of one [c.Watch(src, &handler.EnqueueRequestForObject{}, preds...)]
    call; the handler is the same in every call. *)
Record WatchBinding := mkWatch { wSource : Source; wPredicates : list Predicate }.

Definition isInformerWatch (wt : WatchBinding) : bool :=
  match wSource wt with
  | SourceInformer _ => true
  | SourceChannel _ _ => false
  end.

Definition watchInformer (wt : WatchBinding) : option Informer :=
  match wSource wt with
  | SourceInformer i => Some i
  | SourceChannel _ _ => None
  end.

Definition watchResync (wt : WatchBinding) : option Duration :=
  (fun i => factoryResync (infFactory i)) <$> watchInformer wt.

Definition watchNamespace (wt : WatchBinding) : option string :=
  (fun i => factoryNamespace (infFactory i)) <$> watchInformer wt.

#[global] Instance GroupVersionResource_eq_dec : EqDecision GroupVersionResource.
Proof. solve_decision. Defined.
#[global] Instance informerFactory_eq_dec : EqDecision informerFactory.
Proof. solve_decision. Defined.

(** ** The Go world: channels, contexts, trace *)

(** A channel.  [chConsumer] says that a goroutine sits in a receive loop on
    the channel (for the notification channel: the sync loop of the
    controller's channel source, which runs once the controller has started
    its sources). *)
Record Chan := mkChan {
  chCap : nat;
  chBuf : list GenericEvent;
  chClosed : bool;
  chConsumer : bool;
  chDelivered : list GenericEvent
}.

Inductive LogLevel := LogInfo | LogError.

Inductive Event :=
| EvLog (lvl : LogLevel) (msg : string) (err : option error)
| EvWatch (wt : WatchBinding)                               (* a Watch call that succeeded *)
| EvFactoryStart (f : informerFactory) (stop : ctxId) (* f.Start(ch) *)
| EvGoControllerStart (ctx : ctxId)                  (* go func() { c.Controller.Start(ctx_) ... }() *)
| EvClose (ch : chanId)                              (* a close(ch) that succeeded *)
| EvCancel (ctx : ctxId)                             (* a CancelFunc call *)
| EvQueueReady (ctx : ctxId)         (* the run loop under ctx has made its work queue *)
| EvSourceStart (wt : WatchBinding). (* the run loop has started the source of a watch *)

Record World := mkWorld {
  chans : list Chan;
  ctxs : list bool;          (* cancellable contexts; true = cancelled *)
  trace : list Event
}.

Definition emptyWorld : World := mkWorld [] [] [].

Inductive PanicValue :=
| PanicSendOnClosed      (* "send on closed channel" *)
| PanicCloseOfClosed     (* "close of closed channel" *)
| PanicCloseOfNil        (* "close of nil channel" *)
| PanicError (err : error).  (* panic(err) *)

(** Outcome of running a piece of Go code in a world. *)
Inductive Outcome (A : Type) :=
| Ret (a : A) (w : World)
| Panic (p : PanicValue)
| Blocked.
Arguments Ret {A} a w.
Arguments Panic {A} p.
Arguments Blocked {A}.

Definition M (A : Type) := World -> Outcome A.

Definition ret {A} (a : A) : M A := fun w => Ret a w.

Definition bind {A B} (m : M A) (k : A -> M B) : M B :=
  fun w =>
    match m w with
    | Ret a w' => k a w'
    | Panic p => Panic p
    | Blocked => Blocked
    end.

Notation "'let*' x ':=' m 'in' k" := (bind m (fun x => k))
  (at level 10, x pattern, m at level 100, k at level 200).
Notation "m ;;; k" := (bind m (fun _ => k))
  (at level 100, k at level 200, right associativity).

Definition panic {A} (p : PanicValue) : M A := fun _ => Panic p.

Definition emit (e : Event) : M unit :=
  fun w => Ret tt (mkWorld (chans w) (ctxs w) (trace w ++ [e])).

Fixpoint forEach {A} (l : list A) (f : A -> M unit) : M unit :=
  match l with
  | [] => ret tt
  | x :: l' => f x ;;; forEach l' f
  end.

(** [context.WithCancel(context.Background())]: a fresh context, named by
    its index; the returned [CancelFunc] cancels that context. *)
Definition CancelFunc := ctxId.

Definition WithCancel : M ctxId :=
  fun w => Ret (length (ctxs w)) (mkWorld (chans w) (ctxs w ++ [false]) (trace w)).

(** Calling a [CancelFunc]; calling it again is harmless. *)
Definition callCancel (k : CancelFunc) : M unit :=
  fun w => Ret tt (mkWorld (chans w) (<[k := true]> (ctxs w)) (trace w ++ [EvCancel k])).

(** [make(chan event.GenericEvent, cap)] *)
Definition makeChan (cap : nat) : M chanId :=
  fun w => Ret (length (chans w))
               (mkWorld (chans w ++ [mkChan cap [] false false []]) (ctxs w) (trace w)).

(** [ch <- ev].  On a closed channel the send panics.  Otherwise the event
    is handed to a waiting receiver, or stored when the buffer has room
    (never, for capacity 0), or the sender blocks.  A nil or unknown channel
    blocks forever as well. *)
Definition chanSend (ch : chanId) (ev : GenericEvent) : M unit :=
  fun w =>
    match chans w !! ch with
    | None => Blocked
    | Some c =>
        if chClosed c then Panic PanicSendOnClosed
        else if chConsumer c then
          Ret tt (mkWorld (<[ch := mkChan (chCap c) (chBuf c) false true (chDelivered c ++ [ev])]> (chans w))
                          (ctxs w) (trace w))
        else if bool_decide (length (chBuf c) < chCap c) then
          Ret tt (mkWorld (<[ch := mkChan (chCap c) (chBuf c ++ [ev]) false false (chDelivered c)]> (chans w))
                          (ctxs w) (trace w))
        else Blocked
    end.

(** [close(ch)]: panics on an already closed channel (and on a channel that
    was never made). *)
Definition chanClose (ch : chanId) : M unit :=
  fun w =>
    match chans w !! ch with
    | None => Panic PanicCloseOfNil
    | Some c =>
        if chClosed c then Panic PanicCloseOfClosed
        else
          Ret tt (mkWorld (<[ch := mkChan (chCap c) (chBuf c) true (chConsumer c) (chDelivered c)]> (chans w))
                          (ctxs w) (trace w ++ [EvClose ch]))
    end.

(** The receiving goroutine arriving at (or leaving) its receive loop. *)
Definition setConsumer (ch : chanId) (b : bool) : M unit :=
  fun w =>
    match chans w !! ch with
    | None => Ret tt w
    | Some c =>
        Ret tt (mkWorld (<[ch := mkChan (chCap c) (chBuf c) (chClosed c) b (chDelivered c)]> (chans w))
                        (ctxs w) (trace w))
    end.

(** ** Atomic steps of goroutines and their interleavings *)

(** [watch.src.Start(ctx, handler, queue, predicates...)], as the run loop
    of controller-runtime's controller calls it under the context [k] for a
    watch it has kept.  A channel source launches its sync loop, which
    receives from the channel until its stop channel or the context is done
    (a loop that finds one of them done already is not a receiver); an
    informer source adds its event handler to the informer. *)
Definition startSource (k : ctxId) (wt : WatchBinding) : M unit :=
  (match wSource wt with
   | SourceChannel ch stop =>
       fun w =>
         match ctxs w !! k, ctxs w !! stop with
         | Some false, Some false => setConsumer ch true w
         | _, _ => Ret tt w
         end
   | SourceInformer _ => ret tt
   end) ;;;
  emit (EvSourceStart wt).

(** [<-ctx.Done()] *)
Definition awaitDone (k : ctxId) : M unit :=
  fun w =>
    match ctxs w !! k with
    | Some true => Ret tt w
    | _ => Blocked
    end.

(** The steps of the straight-line methods [ReconcileObs] and [Stop], and
    those of the run loop that [Start] launches; Go channel operations and
    cancel calls are atomic with respect to each other. *)
Inductive Step :=
| StepSend (ch : chanId) (ev : GenericEvent)
| StepClose (ch : chanId)
| StepCancel (k : CancelFunc)
| StepMakeQueue (k : ctxId)                       (* c.Queue = c.MakeQueue() *)
| StepStartSource (k : ctxId) (wt : WatchBinding) (* watch.src.Start(ctx, ...) *)
| StepAwaitDone (k : ctxId).                      (* <-ctx.Done() *)

Definition execStep (s : Step) : M unit :=
  match s with
  | StepSend ch ev => chanSend ch ev
  | StepClose ch => chanClose ch
  | StepCancel k => callCancel k
  | StepMakeQueue k => emit (EvQueueReady k)
  | StepStartSource k wt => startSource k wt
  | StepAwaitDone k => awaitDone k
  end.

(** Running the steps of one goroutine in program order. *)
Fixpoint runSteps (l : list Step) : M unit :=
  match l with
  | [] => ret tt
  | s :: l' => execStep s ;;; runSteps l'
  end.

(** The world in which a goroutine that runs [l] in program order comes to
    rest: the world after the last step, or the one in which a step found
    itself blocked or panicked. *)
Fixpoint stepsReach (l : list Step) (w : World) : World :=
  match l with
  | [] => w
  | s :: l' =>
      match execStep s w with
      | Ret _ w' => stepsReach l' w'
      | _ => w
      end
  end.

(** A pool of goroutines, each with the steps it still has to run. *)
Record Pool := mkPool { threads : list (list Step); world : World }.

Inductive PoolStatus :=
| Running (p : Pool)
| Crashed (v : PanicValue).   (* an unrecovered panic ends the process *)

(** The scheduler picks goroutine [i].  A finished or unknown goroutine and a
    goroutine whose next step blocks leave the pool as it is. *)
Definition schedule1 (i : nat) (p : Pool) : PoolStatus :=
  match threads p !! i with
  | Some (s :: rest) =>
      match execStep s (world p) with
      | Ret _ w' => Running (mkPool (<[i := rest]> (threads p)) w')
      | Blocked => Running p
      | Panic v => Crashed v
      end
  | _ => Running p
  end.

Fixpoint runSchedule (sched : list nat) (p : Pool) : PoolStatus :=
  match sched with
  | [] => Running p
  | i :: sched' =>
      match schedule1 i p with
      | Running p' => runSchedule sched' p'
      | Crashed v => Crashed v
      end
  end.

(** Goroutine [i] has returned from its method. *)
Definition finished (i : nat) (st : PoolStatus) : bool :=
  match st with
  | Running p => match threads p !! i with Some [] => true | _ => false end
  | Crashed _ => false
  end.

(** ** The external libraries *)

(** [*rest.Config], as far as this package looks at it. *)
Record Config := mkConfig { Host : string }.

(** [manager.Manager] *)
Record Manager := mkManager { GetConfig : Config }.

(** [*runtime.Scheme]: the registered kinds. *)
Definition Scheme := list string.

(** What the calls into controller-runtime, client-go and the OpenShift
    client return: [None] is a nil error.  The clients themselves are not
    represented, only whether their construction fails. *)
Record Library := mkLibrary {
  controller_NewUnmanaged : string -> Manager -> option error;
  controller_Watch : WatchBinding -> option error;
  kubernetes_NewForConfig : Config -> option error;
  csroute_NewForConfig : Config -> option error;
  dynamic_NewForConfig : Config -> option error
}.

(** [NewForConfigOrDie(c)]: [NewForConfig] that panics on an error. *)
Definition NewForConfigOrDie (newForConfig : Config -> option error) (cfg : Config) : M unit :=
  match newForConfig cfg with
  | Some err => panic (PanicError err)
  | None => ret tt
  end.

(** [reconcile.Request] and [reconcile.Result] *)
Record Request := mkRequest { reqNamespacedName : NamespacedName }.

Record Result := mkResult { Requeue : bool; RequeueAfter : Duration }.

Definition zeroResult : Result := mkResult false 0%Z.

(** The work queue's reading of what a reconciler returns: the request is
    queued again on an error or when the result asks for it. *)
Definition requeues (res : Result * option error) : bool :=
  match res with
  | (_, Some _) => true
  | (rs, None) => Requeue rs || bool_decide (0 < RequeueAfter rs)%Z
  end.

(** ** The package managed_dh *)

Section ManagedDh.

(** The state of the cluster behind the API server. *)
Context {Cluster : Type}.

(** [client.Client], the part the reconciler uses.  [Get] either fills the
    object or fails and leaves the object it was given untouched. *)
Record Client := mkClient {
  Get : NamespacedName -> Cluster -> SdiObserver + error
}.

Record managedDhReconciler := mkReconciler {
  client : Client;
  scheme : Scheme;
  namespacedName : NamespacedName;
  (* Namespace where the managed DataHub resource lives. *)
  dhNamespace : string
}.

(** The controller made by [controller.NewUnmanaged]: its name, its
    reconciler and the watches registered so far. *)
Record UnmanagedController := mkUnmanaged {
  ctrlName : string;
  ctrlReconciler : managedDhReconciler;
  startWatches : list WatchBinding
}.

Record dhController := mkDhController {
  Controller : UnmanagedController;
  mgr : Manager;
  unstartedFactories : list informerFactory;
  cancels : list CancelFunc;
  (* get notified from the parent controller when SdiObserver changes *)
  chanReconcileObs : chanId;
  isStarted : bool
}.

(** Package-level names of this repository that live in other files. *)
Variable vsystemCaBundleSecretName : string.
Variable MkDataHubGvr : GroupVersionResource.
Variable manageVsystemRoute :
  Scheme -> Client -> SdiObserver -> SDIObserverSpecRoute -> string ->
  Cluster -> Cluster * option error.

Variable lib : Library.

(** [c.Watch(...)] of the embedded controller: an accepted watch is kept
    by the controller until it starts. *)
Definition Watch (c : dhController) (wt : WatchBinding) : M (option error * dhController) :=
  match controller_Watch lib wt with
  | Some err => ret (Some err, c)
  | None =>
      emit (EvWatch wt) ;;;
      ret (None,
           mkDhController
             (mkUnmanaged (ctrlName (Controller c)) (ctrlReconciler (Controller c))
                          (startWatches (Controller c) ++ [wt]))
             (mgr c) (unstartedFactories c) (cancels c) (chanReconcileObs c) (isStarted c))
  end.

Definition appendFactory (c : dhController) (f : informerFactory) : dhController :=
  mkDhController (Controller c) (mgr c) (unstartedFactories c ++ [f]) (cancels c)
                 (chanReconcileObs c) (isStarted c).

Definition appendCancel (c : dhController) (k : CancelFunc) : dhController :=
  mkDhController (Controller c) (mgr c) (unstartedFactories c) (cancels c ++ [k])
                 (chanReconcileObs c) (isStarted c).

Definition startFactories (c : dhController) (chCancel : ctxId) : M dhController :=
  if negb (isStarted c) then
    (* we don't want to miss the intial list of objects produced by each
       informer once started *)
    ret c
  else
    forEach (unstartedFactories c) (fun f => emit (EvFactoryStart f chCancel)) ;;;
    ret (mkDhController (Controller c) (mgr c) [] (cancels c) (chanReconcileObs c) (isStarted c)).

Definition ReconcileObsSteps (c : dhController) (obs : SdiObserver) : list Step :=
  [StepSend (chanReconcileObs c) (mkGenericEvent obs)].

Definition ReconcileObs (c : dhController) (obs : SdiObserver) : M unit :=
  runSteps (ReconcileObsSteps c obs).

Definition vsystemLabels : gmap string string :=
  {[ "datahub.sap.com/app-component" := "vsystem";
     "datahub.sap.com/app" := "vsystem" ]}.

Definition manageDhNamespace (c : dhController) (ctx : ctxId) (dhNamespace : string)
  : M (option error * dhController) :=
  let cfg := GetConfig (mgr c) in
  match kubernetes_NewForConfig lib cfg with
  | Some err => ret (Some err, c)
  | None =>
    NewForConfigOrDie (csroute_NewForConfig lib) cfg ;;;
    NewForConfigOrDie (dynamic_NewForConfig lib) cfg ;;;
    (* the second [if err != nil] tests the nil error of
       kubernetes.NewForConfig again and never returns *)
    emit (EvLog LogInfo "(*dhController).manageDhNamespace: setting up watches for DH instance" None) ;;;
    let factory := DynamicSharedInformerFactory dhSyncTime dhNamespace in
    let informer := mkInformer factory (ResDynamic MkDataHubGvr) in
    let c := appendFactory c factory in
    let* (err, c) := Watch c (mkWatch (SourceInformer informer) []) in
    match err with
    | Some err => ret (Some err, c)
    | None =>
      let kubeInformerFactory := KubeSharedInformerFactory coreSyncTime dhNamespace in
      let c := appendFactory c kubeInformerFactory in
      (* the error of LabelSelectorPredicate is never looked at; the
         selector is a constant and well formed *)
      let lsPred := LabelSelectorPredicate vsystemLabels in
      let* (err, c) := Watch c (mkWatch (SourceInformer (mkInformer kubeInformerFactory ResServices))
                                        [lsPred]) in
      match err with
      | Some err => ret (Some err, c)
      | None =>
        let* (err, c) := Watch c (mkWatch (SourceInformer (mkInformer kubeInformerFactory ResSecrets))
                                          [NameEqualsPredicate vsystemCaBundleSecretName]) in
        match err with
        | Some err => ret (Some err, c)
        | None =>
          let routeInformerFactory := RouteSharedInformerFactory routeSyncTime dhNamespace in
          let c := appendFactory c routeInformerFactory in
          let* (err, c) := Watch c (mkWatch (SourceInformer (mkInformer routeInformerFactory ResRoutes))
                                            []) in
          match err with
          | Some err => ret (Some err, c)
          | None =>
            let* c := startFactories c ctx in
            ret (None, c)
          end
        end
      end
    end
  end.

Definition controllerName (nmName : NamespacedName) : string :=
  "ManagedObs" ++ "-" ++ nnNamespace nmName ++ "-" ++ nnName nmName.

(** The result is the controller ([inl]) or the error ([inr]), as the Go
    function returns either [(ctrl, nil)] or [(nil, err)]. *)
Definition NewManagedDhController
    (client : Client) (scheme : Scheme) (nmName : NamespacedName)
    (dhNamespace : string) (mgr : Manager) : M (dhController + error) :=
  let r := mkReconciler client scheme nmName dhNamespace in
  let ctrlName := controllerName nmName in
  match controller_NewUnmanaged lib ctrlName mgr with
  | Some err => ret (inr err)
  | None =>
    let unmanagedCtrl := mkUnmanaged ctrlName r [] in
    let* ch := makeChan 0 in
    let ctrl := mkDhController unmanagedCtrl mgr [] [] ch false in
    let* obsContext := WithCancel in
    let obsWatchCancel : CancelFunc := obsContext in
    let sc := SourceChannel (chanReconcileObs ctrl) obsContext in
    let* (err, ctrl) := Watch ctrl (mkWatch sc []) in
    match err with
    | Some err => callCancel obsWatchCancel ;;; ret (inr err)
    | None =>
      let ctrl := appendCancel ctrl obsWatchCancel in
      let* (err, ctrl) := manageDhNamespace ctrl obsContext dhNamespace in
      match err with
      | Some err => callCancel obsWatchCancel ;;; ret (inr err)
      | None => ret (inl ctrl)
      end
    end
  end.

(** The body of the goroutine that [Start] launches, given what the
    embedded controller's [Start] eventually returns. *)
Definition controllerGoroutine (runResult : option error) : M unit :=
  match runResult with
  | Some err => emit (EvLog LogError "(*dhController).manageDhs: controller terminated" (Some err))
  | None => ret tt
  end.

(** [Start] as its caller runs it: the go statement is recorded, the
    goroutine it launches runs on its own (see [controllerRun] and
    [firstStart] below) and [Start] does not wait for it. *)
Definition Start (c : dhController) (ctx : ctxId) : M (option error * dhController) :=
  let* ctx_ := WithCancel in
  let cancel : CancelFunc := ctx_ in
  emit (EvGoControllerStart ctx_) ;;;
  let c := mkDhController (Controller c) (mgr c) (unstartedFactories c) (cancels c)
                          (chanReconcileObs c) true in
  let* c := startFactories c ctx_ in
  let c := appendCancel c cancel in
  ret (None, c).

(** What the goroutine of the go statement runs when [Start] is called for
    the first time: [c.Controller.Start(ctx_)] of controller-runtime on a
    controller that has not been started, whose sources start without an
    error.  The run loop makes its work queue, starts the source of every
    watch registered so far, and serves the queue until the context is done;
    it then returns nil and the goroutine logs nothing. *)
Definition controllerRun (c : dhController) (ctx_ : ctxId) : list Step :=
  (StepMakeQueue ctx_ :: map (StepStartSource ctx_) (startWatches (Controller c))
   ++ [StepAwaitDone ctx_])%list.

(** The goroutines after goroutine 0 has called [Start] for the first time
    on [c] and goes on with the steps [next]: the go statement has added
    goroutine 1, which has not taken a step when [Start] returns.  (A later
    [Start] finds the embedded controller started: its run returns an error
    at once, which the goroutine logs, see [controllerGoroutine].) *)
Definition firstStart (c : dhController) (ctx : ctxId) (next : list Step) (w : World)
  : option (dhController * Pool) :=
  if isStarted c then None
  else
    match Start c ctx w with
    | Ret (_, c') w' => Some (c', mkPool [next; controllerRun c (length (ctxs w))] w')
    | _ => None
    end.

Definition StopSteps (c : dhController) : list Step :=
  StepClose (chanReconcileObs c) :: map StepCancel (cancels c).

Definition Stop (c : dhController) : M unit := runSteps (StopSteps c).

Definition Reconcile (r : managedDhReconciler) (req : Request) (cl : Cluster)
  : (Result * option error) * Cluster * list Event :=
  let logs := [EvLog LogInfo ("(*ManagedObsReconciler).Reconcile: running for "
                              ++ nnNamespace (reqNamespacedName req) ++ "/"
                              ++ nnName (reqNamespacedName req)) None] in
  let rs := zeroResult in
  let obs := zeroSdiObserver in
  let '(obs, err) :=
    match Get (client r) (namespacedName r) cl with
    | inl fetched => (fetched, None)
    | inr e => (obs, Some e)
    end in
  if match err with Some e => negb (IsNotFound e) | None => false end
  then ((rs, err), cl, logs)
  else
    let '(cl', err) :=
      manageVsystemRoute (scheme r) (client r) obs (VsystemRoute (Spec obs)) (dhNamespace r) cl in
    ((rs, err), cl',
     (logs ++ match err with
              | Some e => [EvLog LogError "failed to reconcile vsystem route" (Some e)]
              | None => []
              end)%list).

End ManagedDh.


(** ** Observations on controllers and traces *)

(** The watches of a controller that are backed by an informer, in
    registration order. *)
Definition informerWatches {Cluster : Type} (c : @dhController Cluster) : list WatchBinding :=
  List.filter isInformerWatch (startWatches (Controller c)).

Fixpoint countEvents (p : Event -> bool) (tr : list Event) : nat :=
  match tr with
  | [] => 0
  | e :: tr' => (if p e then 1 else 0) + countEvents p tr'
  end.

Definition isStartOf (f : informerFactory) (e : Event) : bool :=
  match e with
  | EvFactoryStart f' _ => bool_decide (f' = f)
  | _ => false
  end.

Definition isFactoryStart (e : Event) : bool :=
  match e with
  | EvFactoryStart _ _ => true
  | _ => false
  end.

Definition isQueueReady (e : Event) : bool :=
  match e with
  | EvQueueReady _ => true
  | _ => false
  end.

Definition isCloseOf (ch : chanId) (e : Event) : bool :=
  match e with
  | EvClose ch' => bool_decide (ch' = ch)
  | _ => false
  end.

(** The contexts after the cancel functions [ks] have been called. *)
Definition cancelAll (ks : list CancelFunc) (cs : list bool) : list bool :=
  foldl (fun cs k => <[k := true]> cs) cs ks.

(** The channel after a successful [close]. *)
Definition closedChan (c : Chan) : Chan :=
  mkChan (chCap c) (chBuf c) true (chConsumer c) (chDelivered c).

(** The channel after a receiver has taken [ev] from a sender. *)
Definition handedOff (c : Chan) (ev : GenericEvent) : Chan :=
  mkChan (chCap c) (chBuf c) false true (chDelivered c ++ [ev]).

(** In a pool whose goroutine 0 runs [ReconcileObs] and whose goroutine 1
    runs [Stop]: the scheduler picks goroutine 1 (whose first step is the
    close) before a pick of goroutine 0 that performs the send.  With a
    consumer the first pick of goroutine 0 performs the send; without one,
    earlier picks of goroutine 0 find it blocked. *)
Definition closeBeforeSend (consumer : bool) (sched : list nat) : Prop :=
  exists s1 s2 : list nat, sched = (s1 ++ 0 :: s2)%list /\ 1 ∈ s1 /\ (consumer = true -> 0 ∉ s1).

(** The events a world has recorded beyond those of an earlier world. *)
Definition eventsSince (w0 w : World) : list Event :=
  drop (length (trace w0)) (trace w).

(** [n] calls of [Start] in a row on the same controller. *)
Fixpoint StartTimes {Cluster : Type} (n : nat) (c : @dhController Cluster) (ctx : ctxId)
  : M dhController :=
  match n with
  | 0 => ret c
  | S n' => let* (_, c') := Start c ctx in StartTimes n' c' ctx
  end.

(** [n] calls of [Stop] in a row on the same controller. *)
Fixpoint StopTimes {Cluster : Type} (n : nat) (c : @dhController Cluster) : M unit :=
  match n with
  | 0 => ret tt
  | S n' => Stop c ;;; StopTimes n' c
  end.

(** The channel [ch] of world [w] is in the given state. *)
Definition chanIs (w : World) (ch : chanId) (closed consumer : bool) : Prop :=
  exists c, chans w !! ch = Some c /\ chClosed c = closed /\ chConsumer c = consumer.

(** The construction events of a sub-controller for namespace [ns]. *)
Definition dhFactories (ns : string) : list informerFactory :=
  [DynamicSharedInformerFactory dhSyncTime ns;
   KubeSharedInformerFactory coreSyncTime ns;
   RouteSharedInformerFactory routeSyncTime ns].

Definition dhInformerWatches (caName : string) (gvr : GroupVersionResource) (ns : string)
  : list WatchBinding :=
  [mkWatch (SourceInformer (mkInformer (DynamicSharedInformerFactory dhSyncTime ns) (ResDynamic gvr))) [];
   mkWatch (SourceInformer (mkInformer (KubeSharedInformerFactory coreSyncTime ns) ResServices))
           [LabelSelectorPredicate vsystemLabels];
   mkWatch (SourceInformer (mkInformer (KubeSharedInformerFactory coreSyncTime ns) ResSecrets))
           [NameEqualsPredicate caName];
   mkWatch (SourceInformer (mkInformer (RouteSharedInformerFactory routeSyncTime ns) ResRoutes)) []].

Definition manageDhNamespaceLog : Event :=
  EvLog LogInfo "(*dhController).manageDhNamespace: setting up watches for DH instance" None.

(** ** Concrete inputs *)

Module Examples.

Definition caName : string := "ca-bundle".
Definition gvr : GroupVersionResource := mkGvr "installers.datahub.sap.com" "v1alpha1" "datahubs".
Definition notFound : error := mkError StatusReasonNotFound "sdiobservers not found".
Definition brokenConfig : error := mkError StatusReasonInternalError "unable to load client certificate".

(** Every library call succeeds. *)
Definition okLib : Library :=
  mkLibrary (fun _ _ => None) (fun _ => None) (fun _ => None) (fun _ => None) (fun _ => None).

(** The route client cannot be built, everything else works. *)
Definition routeClientFails : Library :=
  mkLibrary (fun _ _ => None) (fun _ => None) (fun _ => None) (fun _ => Some brokenConfig) (fun _ => None).

(** The kubernetes client cannot be built. *)
Definition kubeClientFails : Library :=
  mkLibrary (fun _ _ => None) (fun _ => None) (fun _ => Some brokenConfig) (fun _ => None) (fun _ => None).

(** A cluster without the observer: the state is the list of routes. *)
Definition emptyClient : @Client (list string) :=
  mkClient (fun _ _ => inr notFound).

Definition routeOk (_ : Scheme) (_ : @Client (list string)) (_ : SdiObserver)
    (_ : SDIObserverSpecRoute) (ns : string) (cl : list string) : list string * option error :=
  (ns :: cl, None).

Definition theManager : Manager := mkManager (mkConfig "https://api.cluster:6443").
Definition obsKey : NamespacedName := mkNamespacedName "sdi-observer" "sdi".
Definition theReconciler : @managedDhReconciler (list string) :=
  mkReconciler emptyClient [] obsKey "sdi".

(** The controller for namespace "sdi" right after its construction, in a
    world that had nothing before. *)
Definition newC : @dhController (list string) :=
  mkDhController
    (mkUnmanaged "ManagedObs-sdi-observer-sdi" theReconciler
                 (mkWatch (SourceChannel 0 0) [] :: dhInformerWatches caName gvr "sdi"))
    theManager (dhFactories "sdi") [0] 0 false.

Definition newW : World :=
  mkWorld [mkChan 0 [] false false []] [false]
          (EvWatch (mkWatch (SourceChannel 0 0) []) :: manageDhNamespaceLog
           :: map EvWatch (dhInformerWatches caName gvr "sdi")).

(** The controller and the world after one call of [Start]: the run loop
    of the embedded controller has been launched, nobody receives from the
    notification channel yet. *)
Definition startedC : @dhController (list string) :=
  mkDhController (Controller newC) theManager [] [0; 1] 0 true.

Definition startedW : World :=
  mkWorld [mkChan 0 [] false false []] [false; false]
          (trace newW ++ EvGoControllerStart 1
                      :: map (fun f => EvFactoryStart f 1) (dhFactories "sdi"))%list.

(** The same world once the channel source's loop is receiving. *)
Definition runningW : World :=
  mkWorld [mkChan 0 [] false true []] [false; false] (trace startedW).

Definition theRequest : Request := mkRequest obsKey.

End Examples.


(** ** Further observations on the sub-controller *)

(** One [ReconcileObs] call per observer, in order, on the same controller. *)
Definition ReconcileObsAll {Cluster : Type} (c : @dhController Cluster) (objs : list SdiObserver)
  : M unit :=
  forEach objs (ReconcileObs c).

(** Every call into the libraries that a construction in world [w] makes
    returns without an error. *)
Definition constructionCallsSucceed (caName : string) (gvr : GroupVersionResource)
    (lib : Library) (nmName : NamespacedName) (dhNamespace : string) (mgr : Manager)
    (w : World) : Prop :=
  controller_NewUnmanaged lib (controllerName nmName) mgr = None
  /\ controller_Watch lib (mkWatch (SourceChannel (length (chans w)) (length (ctxs w))) []) = None
  /\ kubernetes_NewForConfig lib (GetConfig mgr) = None
  /\ csroute_NewForConfig lib (GetConfig mgr) = None
  /\ dynamic_NewForConfig lib (GetConfig mgr) = None
  /\ Forall (fun wt => controller_Watch lib wt = None) (dhInformerWatches caName gvr dhNamespace).

(** An error that some call of the construction into the libraries returns. *)
Definition libraryError (caName : string) (gvr : GroupVersionResource)
    (lib : Library) (nmName : NamespacedName) (dhNamespace : string) (mgr : Manager)
    (w : World) (err : error) : Prop :=
  controller_NewUnmanaged lib (controllerName nmName) mgr = Some err
  \/ controller_Watch lib (mkWatch (SourceChannel (length (chans w)) (length (ctxs w))) [])
     = Some err
  \/ kubernetes_NewForConfig lib (GetConfig mgr) = Some err
  \/ Exists (fun wt => controller_Watch lib wt = Some err)
            (dhInformerWatches caName gvr dhNamespace).

(** ** The operator's entry point (operator/main.go) *)

Module OperatorMain.

Definition namespaceEnvVar : string := "NAMESPACE".
Definition sdiNamespaceEnvVar : string := "SDI_NAMESPACE".
Definition slcbNamespaceEnvVar : string := "SLCB_NAMESPACE".

Definition mkOverride (varName : string) : string :=
  "Overrides " ++ varName ++ " environment variable.".

(** [os.Getenv]: the empty string for a variable that is not set. *)
Definition Getenv (env : gmap string string) (key : string) : string :=
  default "" (env !! key).

(** The command line as [flag.Parse] has read it: for every flag the value
    given on the command line, if the flag was given. *)
Record CommandLine := mkCommandLine {
  argMetricsBindAddress : option string;
  argHealthProbeBindAddress : option string;
  argLeaderElect : option bool;
  argNamespace : option string;
  argSdiNamespace : option string;
  argSlcbNamespace : option string
}.

(** A flag variable after [flag.Parse]: the value given, else the default
    the flag was declared with. *)
Definition flagVar {A : Type} (given : option A) (dflt : A) : A := default dflt given.

(** [cache.NewCacheFunc]; the only one made here is the multi-namespace
    cache builder. *)
Inductive NewCacheFunc :=
| MultiNamespacedCacheBuilder (namespaces : list string).

(** [ctrl.Options], the fields that [main] sets. *)
Record Options := mkOptions {
  MetricsBindAddress : string;
  Port : Z;
  HealthProbeBindAddress : string;
  LeaderElection : bool;
  LeaderElectionID : string;
  NewCache : option NewCacheFunc
}.

(** What the calls of [main] into controller-runtime and into the parent
    reconciler return. *)
Record Runtime := mkRuntime {
  ctrl_GetConfig : option error;
  ctrl_NewManager : Options -> option error;
  reconciler_SetupWithManager : option error;
  mgr_AddHealthzCheck : string -> option error;
  mgr_AddReadyzCheck : string -> option error;
  mgr_Start : option error
}.

Inductive Action :=
| LogError (err : error) (msg : string)
| LogInfo (msg : string)
| CallNewManager (opts : Options)
| CallSetupWithManager
| CallAddHealthzCheck (name : string)
| CallAddReadyzCheck (name : string)
| CallStart.

Inductive ExitStatus :=
| Exited (code : Z)     (* os.Exit(code) *)
| Returned.             (* main returns *)

Definition missingNamespace : error :=
  mkError StatusReasonUnknown
          "missing namespace argument, please set at least the NAMESPACE variable".

Definition main (env : gmap string string) (args : CommandLine) (rt : Runtime)
  : list Action * ExitStatus :=
  let metricsAddr := flagVar (argMetricsBindAddress args) ":8080" in
  let probeAddr := flagVar (argHealthProbeBindAddress args) ":8081" in
  let enableLeaderElection := flagVar (argLeaderElect args) false in
  let namespace := flagVar (argNamespace args) (Getenv env namespaceEnvVar) in
  let sdiNamespace := flagVar (argSdiNamespace args) (Getenv env sdiNamespaceEnvVar) in
  let slcbNamespace := flagVar (argSlcbNamespace args) (Getenv env slcbNamespaceEnvVar) in
  if Nat.eqb (String.length namespace) 0 then
    ([LogError missingNamespace "fatal"], Exited 1)
  else
    let mgrCache :=
      if Nat.eqb (String.length sdiNamespace) 0 || Nat.eqb (String.length slcbNamespace) 0
      then Some (MultiNamespacedCacheBuilder [namespace; sdiNamespace; slcbNamespace])
      else None in
    match ctrl_GetConfig rt with
    | Some err => ([LogError err "unable to get kubeconfig"], Exited 1)
    | None =>
      let opts := mkOptions metricsAddr 9443 probeAddr enableLeaderElection
                            "225c8f26.sap-cop.redhat.com" mgrCache in
      match ctrl_NewManager rt opts with
      | Some err => ([CallNewManager opts; LogError err "unable to start manager"], Exited 1)
      | None =>
        match reconciler_SetupWithManager rt with
        | Some err =>
            ([CallNewManager opts; CallSetupWithManager;
              LogError err "unable to create controller"], Exited 1)
        | None =>
          match mgr_AddHealthzCheck rt "healthz" with
          | Some err =>
              ([CallNewManager opts; CallSetupWithManager; CallAddHealthzCheck "healthz";
                LogError err "unable to set up health check"], Exited 1)
          | None =>
            match mgr_AddReadyzCheck rt "readyz" with
            | Some err =>
                ([CallNewManager opts; CallSetupWithManager; CallAddHealthzCheck "healthz";
                  CallAddReadyzCheck "readyz";
                  LogError err "unable to set up ready check"], Exited 1)
            | None =>
              match mgr_Start rt with
              | Some err =>
                  ([CallNewManager opts; CallSetupWithManager; CallAddHealthzCheck "healthz";
                    CallAddReadyzCheck "readyz"; LogInfo "starting manager"; CallStart;
                    LogError err "problem running manager"], Exited 1)
              | None =>
                  ([CallNewManager opts; CallSetupWithManager; CallAddHealthzCheck "healthz";
                    CallAddReadyzCheck "readyz"; LogInfo "starting manager"; CallStart],
                   Returned)
              end
            end
          end
        end
      end
    end.

(** The options of the manager that a run of [main] asks for, if it gets
    that far. *)
Definition managerOptions (run : list Action * ExitStatus) : option Options :=
  match fst run with
  | CallNewManager opts :: _ => Some opts
  | _ => None
  end.

Definition isCall (a : Action) : bool :=
  match a with
  | LogError _ _ | LogInfo _ => false
  | _ => true
  end.

Definition isStartCall (a : Action) : bool :=
  match a with
  | CallStart => true
  | _ => false
  end.

(** The variable values of two environments agree wherever the command
    line leaves the value to the environment. *)
Definition sameWhereUnset (args : CommandLine) (env1 env2 : gmap string string) : Prop :=
  (argNamespace args = None -> Getenv env1 namespaceEnvVar = Getenv env2 namespaceEnvVar)
  /\ (argSdiNamespace args = None ->
      Getenv env1 sdiNamespaceEnvVar = Getenv env2 sdiNamespaceEnvVar)
  /\ (argSlcbNamespace args = None ->
      Getenv env1 slcbNamespaceEnvVar = Getenv env2 slcbNamespaceEnvVar).

End OperatorMain.

(** ** The template runner (observer/run-observer-template.sh) *)

Module ObserverTemplate.
Import Stdlib.Strings.Ascii.

(** *** Shell strings *)

Definition newline : ascii := "010"%char.

Definition isNewline (a : ascii) : bool := Ascii.eqb a newline.

(** The double quote character, as a string. *)
Definition dquote : string := String (ascii_of_nat 34) "".

Definition ampersand : ascii := "&"%char.

Definition backslash : ascii := ascii_of_nat 92.

(** The value of a command substitution [$(...)] whose command prints [s]:
    the trailing newlines are removed. *)
Fixpoint stripTrailingNewlines (s : string) : string :=
  match s with
  | EmptyString => EmptyString
  | String a s' =>
      match stripTrailingNewlines s' with
      | EmptyString => if isNewline a then EmptyString else String a EmptyString
      | r => String a r
      end
  end.

Fixpoint lastChar (s : string) : option ascii :=
  match s with
  | EmptyString => None
  | String a EmptyString => Some a
  | String _ s' => lastChar s'
  end.

Fixpoint allChars (p : ascii -> bool) (s : string) : bool :=
  match s with
  | EmptyString => true
  | String a s' => p a && allChars p s'
  end.

Definition isEchoFlag (a : ascii) : bool :=
  Ascii.eqb a "n"%char || Ascii.eqb a "e"%char || Ascii.eqb a "E"%char.

(** The builtin [echo] takes a first word [-n], [-e], [-E] or a
    combination of these letters as an option. *)
Definition isEchoOption (s : string) : bool :=
  match s with
  | String "-"%char (String a t) => allChars isEchoFlag (String a t)
  | _ => false
  end.

(** What [echo "$s"] prints. *)
Definition echo (s : string) : string :=
  if isEchoOption s then
    if allChars (fun a => negb (Ascii.eqb a "n"%char)) s then String newline "" else ""
  else s ++ String newline "".

(** [function join() { local IFS="$1"; shift; echo "$*"; }]: ["$*"] joins
    the words with the first character of IFS, with nothing when IFS is
    empty. *)
Definition join (ifs : string) (words : list string) : string :=
  echo (String.concat (match ifs with
                       | EmptyString => ""
                       | String a _ => String a ""
                       end) words).

(** [${s#*.}]: without the shortest beginning that ends in a dot. *)
Fixpoint afterFirstDot (s : string) : option string :=
  match s with
  | EmptyString => None
  | String a s' => if Ascii.eqb a "."%char then Some s' else afterFirstDot s'
  end.

Definition stripThroughDot (s : string) : string := default s (afterFirstDot s).

(** [[[ $s =~ ^(http|ftp|https):// ]]] *)
Definition isUrl (s : string) : bool :=
  String.prefix "http://" s || String.prefix "ftp://" s || String.prefix "https://" s.

(** The glob [*pat*] of a [case] pattern: [pat] occurs in [s]. *)
Fixpoint contains (pat s : string) : bool :=
  String.prefix pat s
  || match s with
     | EmptyString => false
     | String _ s' => contains pat s'
     end.

Fixpoint replaceFrom (pat rep : string) (skip : nat) (s : string) : string :=
  match s with
  | EmptyString => EmptyString
  | String a s' =>
      match skip with
      | S k => replaceFrom pat rep k s'
      | 0 =>
          if String.prefix pat s
          then rep ++ replaceFrom pat rep (String.length pat - 1) s'
          else String a (replaceFrom pat rep 0 s')
      end
  end.

(** Every occurrence of [pat] in [s], from the left and not overlapping,
    becomes [rep]. *)
Definition replaceAll (pat rep s : string) : string :=
  match pat with
  | EmptyString => s
  | _ => replaceFrom pat rep 0 s
  end.

(** The replacement text of a pattern substitution under the shell option
    patsub_replacement: [&] stands for the text that matched, a backslash
    before [&] or before a backslash is dropped and makes that character an
    ordinary one, any other backslash stays. *)
Fixpoint expandReplacement (matched rep : string) : string :=
  match rep with
  | EmptyString => EmptyString
  | String a rest =>
      if Ascii.eqb a ampersand then matched ++ expandReplacement matched rest
      else if Ascii.eqb a backslash then
        match rest with
        | String b rest' =>
            if Ascii.eqb b ampersand || Ascii.eqb b backslash
            then String b (expandReplacement matched rest')
            else String a (expandReplacement matched rest)
        | EmptyString => String a EmptyString
        end
      else String a (expandReplacement matched rest)
  end.

(** [${s//pat/$rep}] for a pattern [pat] without glob characters, which
    matches nothing but itself, and a replacement that is expanded outside
    quotes. *)
Definition substituteAll (patsub : bool) (pat rep s : string) : string :=
  replaceAll pat (if patsub then expandReplacement pat rep else rep) s.

(** Neither [&] nor a backslash occurs in the string. *)
Definition isPlain (s : string) : bool :=
  allChars (fun a => negb (Ascii.eqb a ampersand || Ascii.eqb a backslash)) s.

Fixpoint splitLines (s : string) : list string :=
  match s with
  | EmptyString => [EmptyString]
  | String a s' =>
      if isNewline a then EmptyString :: splitLines s'
      else match splitLines s' with
           | l :: ls => String a l :: ls
           | [] => [String a EmptyString]
           end
  end.

(** The lines of a text; a final newline ends the last line. *)
Definition linesOf (s : string) : list string :=
  match List.rev (splitLines s) with
  | EmptyString :: rest => List.rev rest
  | _ => splitLines s
  end.

(** [grep -F -x -q -f patterns]: some line of the input is one of the
    patterns. *)
Definition grepFixedLine (patterns : list string) (input : string) : bool :=
  existsb (fun l => existsb (String.eqb l) patterns) (linesOf input).

(** *** The variables and tables of the script *)

(** [${name:-}]: the value of the variable, nothing if it is unset. *)
Definition param (vars : gmap string string) (name : string) : string :=
  default "" (vars !! name).

Definition gitRepo : string := "https://github.com/redhat-sap/sap-data-intelligence".

Definition commonEnvVars : list string :=
  ["SDI_NAMESPACE"; "NAMESPACE"; "SLCB_NAMESPACE"; "DRY_RUN"; "OCP_MINOR_RELEASE";
   "MANAGE_VSYSTEM_ROUTE"; "VSYSTEM_ROUTE_HOSTNAME"; "SDI_NODE_SELECTOR";
   "INJECT_CABUNDLE"; "CABUNDLE_SECRET_NAME"].

Definition registryEnvVars : list string :=
  ["DEPLOY_SDI_REGISTRY"; "SDI_REGISTRY_STORAGE_CLASS_NAME"; "SDI_REGISTRY_VOLUME_ACCESS_MODE";
   "SDI_REGISTRY_VOLUME_CAPACITY"; "SDI_REGISTRY_ROUTE_HOSTNAME"; "SDI_REGISTRY_AUTHENTICATION";
   "SDI_REGISTRY_USERNAME"; "SDI_REGISTRY_PASSWORD"; "SDI_REGISTRY_HTPASSWD_SECRET_NAME"].

Definition buildEnvVars : list string :=
  ["SDI_OBSERVER_REPOSITORY"; "SDI_OBSERVER_GIT_REVISION"].

Definition rwxStorageClasses : list string := ["ocs-storagecluster-cephfs"].

Definition releaseMacro : string := "%%OCP_MINOR_RELEASE%%".

Definition envVarDefaults : gmap string string :=
  {[ "IMAGE_PULL_SPEC" := "quay.io/miminar/sdi-observer:latest-ocp%%OCP_MINOR_RELEASE%%" ]}.

(** *** The commands the script runs *)

(** A command whose output the script captures: what it printed (as the
    command substitution gives it), or the non-zero status that makes a
    script under [set -e -o pipefail] exit. *)
Inductive CmdResult :=
| CmdOk (stdout : string)
| CmdFailed (status : Z).

Record System := mkSystem {
  (* oc version | awk '... server version ...' *)
  ocServerVersion : CmdResult;
  (* oc version | awk '... client version ...' *)
  ocClientVersion : CmdResult;
  (* bc -l <<< 'define abs(i) {...} abs(a - b)' *)
  bcAbsDiff : string -> string -> CmdResult;
  (* the script as bash names it in its own messages *)
  scriptName : string;
  (* dirname of dirname of the script *)
  scriptRoot : string;
  (* [[ -e path ]] *)
  fileExists : string -> bool;
  (* oc get sc -o go-template=...: the default storage classes, a line each *)
  defaultStorageClasses : string;
  (* shopt patsub_replacement: set in bash from 5.2 on, unknown before *)
  patsubReplacement : bool
}.

Inductive ScriptResult :=
| ScriptExit (status : Z) (stderr : list string)
  (* oc process -f path var=value ... "$@" *)
| OcProcess (templatePath : string) (params : list (string * string)) (extra : list string)
            (stdout stderr : list string).

(** The arguments of [oc process]. *)
Definition renderParam (kv : string * string) : string := fst kv ++ "=" ++ snd kv.

Definition ocProcessArgs (path : string) (params : list (string * string))
    (extra : list string) : list string :=
  ("-f" :: path :: map renderParam params) ++ extra.

(** *** The steps of the script *)

(** [case "${FLAVOUR:-ubi-build}" in ...]: the variables to pass and the
    name of the template. *)
Definition selectFlavour (vars : gmap string string) : option (list string * string) :=
  let flavour := match param vars "FLAVOUR" with
                 | EmptyString => "ubi-build"
                 | f => f
                 end in
  if String.eqb flavour "ubi-build" then
    Some ((commonEnvVars ++ ["REDHAT_REGISTRY_SECRET_NAME"] ++ buildEnvVars ++ registryEnvVars)%list,
          "ocp-template")
  else if String.eqb flavour "ubi-prebuilt" then
    Some ((commonEnvVars ++ ["IMAGE_PULL_SPEC"])%list, "ocp-prebuilt-image-template")
  else if String.eqb flavour "custom-build" then
    Some ((commonEnvVars
           ++ ["SOURCE_IMAGE_PULL_SPEC"; "SOURCE_IMAGESTREAM_NAME"; "SOURCE_IMAGESTREAM_TAG"]
           ++ buildEnvVars ++ registryEnvVars)%list,
          "ocp-custom-source-image-template")
  else None.

Definition unsupportedFlavour (vars : gmap string string) : list string :=
  ["Unsupported FLAVOUR=" ++ dquote ++ param vars "FLAVOUR" ++ dquote
   ++ ", please choose one of: ubi-build, ubi-prebuilt, custom-build"].

Definition noServerVersion : list string :=
  ["Failed to determine the OCP server version!";
   "Please either set the OCP_MINOR_RELEASE variable or ensure that you are";
   "logged in to the cluster and that your user has cluster-reader role."].

(** The variables with OCP_MINOR_RELEASE set: the value given, else the
    release of the server. *)
Definition determineRelease (vars : gmap string string) (sys : System)
  : gmap string string + ScriptResult :=
  if String.eqb (param vars "OCP_MINOR_RELEASE") "" then
    match ocServerVersion sys with
    | CmdFailed status => inr (ScriptExit status [])
    | CmdOk ocpServerVersion =>
        if negb (String.eqb ocpServerVersion "")
        then inl (<["OCP_MINOR_RELEASE" := ocpServerVersion]> vars)
        else inr (ScriptExit 1 noServerVersion)
    end
  else inl vars.

Definition clientWarning (client release : string) : list string :=
  ["WARNING: oc client version does not match the desired OCP server version ("
   ++ client ++ " =! " ++ release ++ ")!"].

Definition clientError (client release : string) : list string :=
  ["ERROR: oc client version does not match the desired server OCP release ("
   ++ client ++ " =! " ++ release ++ ")!";
   "ERROR: Please download and use oc client matching the server minor release "
   ++ release ++ "."].

(** The [case] on the mismatch that bc printed: nothing to say for 0 and
    1, a warning for 2, and for anything else the error and exit status 1. *)
Definition checkClient (minorMismatch client release : string) : list string + ScriptResult :=
  if String.eqb minorMismatch "0" || String.eqb minorMismatch "1" then inl []
  else if String.eqb minorMismatch "2" then inl (clientWarning client release)
  else inr (ScriptExit 1 (clientError client release)).

Definition templateFile (template : string) : string := "observer/" ++ template ++ ".json".

Definition sourceLocation (vars : gmap string string) (sys : System) (template : string)
  : string :=
  if negb (String.eqb (param vars "SDI_OBSERVER_REPOSITORY") "")
  then param vars "SDI_OBSERVER_REPOSITORY"
  else if fileExists sys (scriptRoot sys ++ "/" ++ templateFile template)
       then scriptRoot sys
       else gitRepo.

(** The argument after [-f]. *)
Definition templatePath (vars : gmap string string) (location template : string) : string :=
  if String.prefix "https://" location then
    stripTrailingNewlines
      (join "/" [location;
                 match param vars "SDI_OBSERVER_GIT_REVISION" with
                 | EmptyString => "master"
                 | rev => rev
                 end;
                 templateFile template])
  else
    stripTrailingNewlines (join "/" [location; templateFile template]).

(** The access mode of the registry volume: left as given; otherwise
    ReadWriteMany when the given storage class, or a default storage class of
    the cluster, is known to support it. *)
Definition chooseAccessMode (vars : gmap string string) (sys : System)
  : gmap string string :=
  if String.eqb (param vars "SDI_REGISTRY_VOLUME_ACCESS_MODE") "" then
    let vars :=
      if grepFixedLine rwxStorageClasses
           (param vars "SDI_REGISTRY_STORAGE_CLASS_NAME" ++ String newline "")
      then <["SDI_REGISTRY_VOLUME_ACCESS_MODE" := "ReadWriteMany"]> vars
      else vars in
    if grepFixedLine rwxStorageClasses (defaultStorageClasses sys)
    then <["SDI_REGISTRY_VOLUME_ACCESS_MODE" := "ReadWriteMany"]> vars
    else vars
  else vars.

(** The [case "$var"] of the loop: the value that is passed for [var]. *)
Definition passedValue (sys : System) (vars : gmap string string) (var value : string)
  : string :=
  if String.eqb var "SDI_OBSERVER_REPOSITORY" then
    if negb (isUrl value) then gitRepo else value
  else if contains "IMAGE_PULL_SPEC" var then
    substituteAll (patsubReplacement sys) releaseMacro (param vars "OCP_MINOR_RELEASE") value
  else value.

(** One round of [for var in "${envVars[@]}"]: nothing for a variable that
    has neither a value nor a default. *)
Definition envParam (sys : System) (vars : gmap string string) (var : string)
  : option (string * string) :=
  let value := param vars var in
  if String.eqb value "" then
    if String.eqb (param envVarDefaults var) "" then None
    else Some (var, passedValue sys vars var (param envVarDefaults var))
  else Some (var, passedValue sys vars var value).

Definition printedParam (kv : string * string) : string :=
  fst kv ++ "=" ++ dquote ++ snd kv ++ dquote.

(** Under [set -u], the first of the three namespace variables that is not
    set when the list of projects is made; a variable set to nothing is
    set. *)
Definition unboundNamespace (vars : gmap string string) : option string :=
  List.find (fun name => negb (bool_decide (is_Some (vars !! name))))
            ["NAMESPACE"; "SDI_NAMESPACE"; "SLCB_NAMESPACE"].

(** What bash prints when it expands an unset variable on line 269, before
    it exits with status 1. *)
Definition unboundVariable (sys : System) (name : string) : string :=
  scriptName sys ++ ": line 269: " ++ name ++ ": unbound variable".

(** The script from the end of its configuration block, whose assignments
    and the variables inherited from the environment are [vars], up to its
    [oc process], to which the arguments [extra] of the script are passed
    on.  Making the missing namespaces, just before, does not bear on the
    outcome, apart from the expansion of the three namespace variables. *)
Definition run (vars : gmap string string) (sys : System) (extra : list string)
  : ScriptResult :=
  match selectFlavour vars with
  | None => ScriptExit 1 (unsupportedFlavour vars)
  | Some (envVars, template) =>
    match determineRelease vars sys with
    | inr failure => failure
    | inl vars =>
      match ocClientVersion sys with
      | CmdFailed status => ScriptExit status []
      | CmdOk ocpClientVersion =>
        match bcAbsDiff sys (stripThroughDot (param vars "OCP_MINOR_RELEASE"))
                        (stripThroughDot ocpClientVersion) with
        | CmdFailed status => ScriptExit status []
        | CmdOk minorMismatch =>
          match checkClient minorMismatch ocpClientVersion (param vars "OCP_MINOR_RELEASE") with
          | inr failure => failure
          | inl warnings =>
            let location := sourceLocation vars sys template in
            let path := templatePath vars location template in
            let vars := chooseAccessMode vars sys in
            let params := omap (envParam sys vars) envVars in
            match unboundNamespace vars with
            | Some name => ScriptExit 1 (warnings ++ [unboundVariable sys name])%list
            | None =>
                OcProcess path params extra (map printedParam params ++ [""])%list warnings
            end
          end
        end
      end
    end
  end.

(** *** Observations *)

(** The same system with another answer to the query of the server
    version. *)
Definition withServerVersion (answer : CmdResult) (sys : System) : System :=
  mkSystem answer (ocClientVersion sys) (bcAbsDiff sys) (scriptName sys) (scriptRoot sys)
           (fileExists sys) (defaultStorageClasses sys) (patsubReplacement sys).

(** [${SDI_OBSERVER_GIT_REVISION:-master}] *)
Definition revision (vars : gmap string string) : string :=
  match param vars "SDI_OBSERVER_GIT_REVISION" with
  | EmptyString => "master"
  | rev => rev
  end.

(** *** Examples *)

(** The configuration block as the script has it (lines 8 to 61). *)
Definition shippedConfiguration : gmap string string :=
  list_to_map
    [("SDI_NAMESPACE", "sdi"); ("NAMESPACE", "sdi-observer"); ("SLCB_NAMESPACE", "sap-slcbridge");
     ("DRY_RUN", "false"); ("MANAGE_VSYSTEM_ROUTE", "true");
     ("SDI_NODE_SELECTOR", "node-role.kubernetes.io/sdi="); ("FLAVOUR", "ubi-build");
     ("DEPLOY_SDI_REGISTRY", "false"); ("SDI_REGISTRY_VOLUME_CAPACITY", "120Gi");
     ("SDI_REGISTRY_AUTHENTICATION", "basic"); ("INJECT_CABUNDLE", "false");
     ("CABUNDLE_SECRET_NAME", "openshift-ingress-operator/router-ca");
     ("SDI_OBSERVER_GIT_REVISION", "master")].

(** A workstation with bash 5.2, logged in to an OCP 4.6 cluster with an
    oc client 4.7, the script run from a copy without the templates; the
    cluster's default storage class is ocs-storagecluster-cephfs. *)
Definition loggedIn : System :=
  mkSystem (CmdOk "4.6") (CmdOk "4.7") (fun _ _ => CmdOk "1")
           "./run-observer-template.sh" "." (fun _ => false)
           ("ocs-storagecluster-cephfs" ++ String newline "") true.

(** The same workstation with no access to the cluster. *)
Definition loggedOut : System := withServerVersion (CmdOk "") loggedIn.

Definition prebuiltConfiguration : gmap string string :=
  <["FLAVOUR" := "ubi-prebuilt"]> shippedConfiguration.

(** The shipped configuration with the release left to the user. *)
Definition releaseGiven : gmap string string :=
  <["OCP_MINOR_RELEASE" := "4.6"]> shippedConfiguration.

End ObserverTemplate.

(** ** Further examples *)

Module MoreExamples.
Import Examples.

(** The controller and the world of [newC] between its first watch and
    the call of [manageDhNamespace]. *)
Definition halfC : @dhController (list string) :=
  mkDhController
    (mkUnmanaged "ManagedObs-sdi-observer-sdi" theReconciler [mkWatch (SourceChannel 0 0) []])
    theManager [] [0] 0 false.

Definition halfW : World :=
  mkWorld [mkChan 0 [] false false []] [false] [EvWatch (mkWatch (SourceChannel 0 0) [])].

(** The world that the failed construction with [kubeClientFails] leaves. *)
Definition failedW : World :=
  mkWorld [mkChan 0 [] false false []] [true]
          [EvWatch (mkWatch (SourceChannel 0 0) []); EvCancel 0].

(** A second controller, for the namespace "sdi-test", constructed after
    [newC]. *)
Definition otherKey : NamespacedName := mkNamespacedName "sdi-observer" "sdi-test".

Definition otherC : @dhController (list string) :=
  mkDhController
    (mkUnmanaged "ManagedObs-sdi-observer-sdi-test" (mkReconciler emptyClient [] otherKey "sdi-test")
                 (mkWatch (SourceChannel 1 1) [] :: dhInformerWatches caName gvr "sdi-test"))
    theManager (dhFactories "sdi-test") [1] 1 false.

Definition otherW : World :=
  mkWorld [mkChan 0 [] false false []; mkChan 0 [] false false []] [false; false]
          (trace newW ++ EvWatch (mkWatch (SourceChannel 1 1) []) :: manageDhNamespaceLog
                      :: map EvWatch (dhInformerWatches caName gvr "sdi-test"))%list.

(** The worlds after [Stop] of the started controller. *)
Definition stoppedW : World :=
  mkWorld [mkChan 0 [] true false []] [true; true]
          (trace startedW ++ [EvClose 0; EvCancel 0; EvCancel 1])%list.

(** The started controller after it took on the namespace "sdi-test" as
    well. *)
Definition widenedC : @dhController (list string) :=
  mkDhController
    (mkUnmanaged "ManagedObs-sdi-observer-sdi" theReconciler
                 (startWatches (Controller startedC) ++ dhInformerWatches caName gvr "sdi-test")%list)
    theManager [] [0; 1] 0 true.

Definition widenedW : World :=
  mkWorld (chans startedW) (ctxs startedW)
          (trace startedW ++ manageDhNamespaceLog
                      :: map EvWatch (dhInformerWatches caName gvr "sdi-test")
                      ++ map (fun f => EvFactoryStart f 1) (dhFactories "sdi-test"))%list.

(** The world once the run loop launched by [Start] on [newC] has made its
    queue and started its sources: the sync loop of the channel source is
    receiving. *)
Definition receivingW : World :=
  mkWorld [mkChan 0 [] false true []] [false; false]
          (trace startedW
           ++ EvQueueReady 1 :: map EvSourceStart (startWatches (Controller newC)))%list.

(** The world after [Stop] of the started controller whose run loop was
    receiving. *)
Definition stoppedReceivingW : World :=
  mkWorld [mkChan 0 [] true true []] [true; true]
          (trace receivingW ++ [EvClose 0; EvCancel 0; EvCancel 1])%list.

Definition renamedObserver : SdiObserver :=
  mkSdiObserver (mkObjectMeta "sdi" "sdi-observer" ∅ 2%Z) (Spec zeroSdiObserver)
                (Status zeroSdiObserver).

End MoreExamples.

Module MainExamples.
Import OperatorMain.

(** The deployment sets NAMESPACE and SDI_NAMESPACE and passes no flag. *)
Definition deployedEnv : gmap string string :=
  {[ "NAMESPACE" := "sdi-observer"; "SDI_NAMESPACE" := "sdi" ]}.

Definition noFlags : CommandLine := mkCommandLine None None None None None None.

(** Run by hand with [-namespace sdi-observer], in two environments that
    differ in NAMESPACE only. *)
Definition namespaceFlag : CommandLine :=
  mkCommandLine None None None (Some "sdi-observer") None None.

Definition otherEnv : gmap string string :=
  {[ "NAMESPACE" := "default"; "SDI_NAMESPACE" := "sdi" ]}.

(** Every call returns without an error. *)
Definition okRuntime : Runtime :=
  mkRuntime None (fun _ => None) None (fun _ => None) (fun _ => None) None.

Definition deployedOptions : Options :=
  mkOptions ":8080" 9443 ":8081" false "225c8f26.sap-cop.redhat.com"
            (Some (MultiNamespacedCacheBuilder ["sdi-observer"; "sdi"; ""])).

End MainExamples.

Module ScriptExamples.
Import ObserverTemplate.

(** What [oc process] gets for the shipped configuration on [loggedIn]. *)
Definition shippedPath : string :=
  "https://github.com/redhat-sap/sap-data-intelligence/master/observer/ocp-template.json".

Definition shippedParams : list (string * string) :=
  [("SDI_NAMESPACE", "sdi"); ("NAMESPACE", "sdi-observer"); ("SLCB_NAMESPACE", "sap-slcbridge");
   ("DRY_RUN", "false"); ("OCP_MINOR_RELEASE", "4.6"); ("MANAGE_VSYSTEM_ROUTE", "true");
   ("SDI_NODE_SELECTOR", "node-role.kubernetes.io/sdi="); ("INJECT_CABUNDLE", "false");
   ("CABUNDLE_SECRET_NAME", "openshift-ingress-operator/router-ca");
   ("SDI_OBSERVER_GIT_REVISION", "master"); ("DEPLOY_SDI_REGISTRY", "false");
   ("SDI_REGISTRY_VOLUME_ACCESS_MODE", "ReadWriteMany");
   ("SDI_REGISTRY_VOLUME_CAPACITY", "120Gi"); ("SDI_REGISTRY_AUTHENTICATION", "basic")].

(** The shipped configuration with a local checkout as the repository. *)
Definition localCheckout : gmap string string :=
  <["SDI_OBSERVER_REPOSITORY" := "/home/user/sap-data-intelligence"]> shippedConfiguration.

Definition localPath : string :=
  "/home/user/sap-data-intelligence/observer/ocp-template.json".

Definition localParams : list (string * string) :=
  (take 9 shippedParams ++ ("SDI_OBSERVER_REPOSITORY", gitRepo) :: drop 9 shippedParams)%list.

Definition prebuiltPath : string :=
  "https://github.com/redhat-sap/sap-data-intelligence/master/observer/ocp-prebuilt-image-template.json".

Definition prebuiltParams : list (string * string) :=
  (take 9 shippedParams
   ++ [("IMAGE_PULL_SPEC", "quay.io/miminar/sdi-observer:latest-ocp4.6")])%list.

End ScriptExamples.

(** ** Proof steps for the construction *)

(** Reduce the record projections of controllers and worlds. *)
Ltac proj_construction :=
  cbn [Controller mgr unstartedFactories cancels chanReconcileObs isStarted
       ctrlName ctrlReconciler startWatches chans ctxs trace].

(** Unfold one construction down to the calls into the libraries. *)
Ltac unfold_construction :=
  cbv [NewManagedDhController manageDhNamespace Watch NewForConfigOrDie bind ret emit panic
       makeChan WithCancel callCancel appendCancel appendFactory startFactories];
  proj_construction.


(** * Properties *)

Local Open Scope list_scope.

Section ManagedDhFacts.

Set Default Proof Using "Type".

Context {Cluster : Type}.
Variable vsystemCaBundleSecretName : string.
Variable MkDataHubGvr : GroupVersionResource.
Variable manageVsystemRoute :
  Scheme -> @Client Cluster -> SdiObserver -> SDIObserverSpecRoute -> string ->
  Cluster -> Cluster * option error.
Variable lib : Library.

Implicit Types (c : @dhController Cluster) (w : World) (wt : WatchBinding).

(** ** Basic facts about the world operations *)

Lemma forEach_emit {A} (g : A -> Event) (l : list A) w :
  forEach l (fun x => emit (g x)) w
  = Ret tt (mkWorld (chans w) (ctxs w) (trace w ++ map g l)).
Proof.
  revert w. induction l as [|x l IH]; intros w; simpl.
  - unfold ret. rewrite app_nil_r. by destruct w.
  - unfold bind, emit at 1. rewrite IH. simpl. by rewrite <- app_assoc.
Qed.

Lemma startFactories_unstarted c k w :
  isStarted c = false -> startFactories c k w = Ret c w.
Proof. intros H. unfold startFactories. by rewrite H. Qed.

Lemma startFactories_started c k w :
  isStarted c = true ->
  startFactories c k w
  = Ret (mkDhController (Controller c) (mgr c) [] (cancels c) (chanReconcileObs c) true)
        (mkWorld (chans w) (ctxs w)
                 (trace w ++ map (fun f => EvFactoryStart f k) (unstartedFactories c))).
Proof.
  intros H. unfold startFactories. rewrite H. simpl.
  unfold bind. by rewrite forEach_emit.
Qed.

Lemma Watch_ok c wt w r c' w' :
  Watch lib c wt w = Ret (r, c') w' ->
  (exists err, controller_Watch lib wt = Some err /\ r = Some err /\ c' = c /\ w' = w)
  \/ (controller_Watch lib wt = None /\ r = None
      /\ c' = mkDhController
                (mkUnmanaged (ctrlName (Controller c)) (ctrlReconciler (Controller c))
                             (startWatches (Controller c) ++ [wt]))
                (mgr c) (unstartedFactories c) (cancels c) (chanReconcileObs c) (isStarted c)
      /\ w' = mkWorld (chans w) (ctxs w) (trace w ++ [EvWatch wt])).
Proof.
  unfold Watch. destruct (controller_Watch lib wt) as [e|]; cbv [bind emit ret]; intros H.
  - left. exists e. by simplify_eq.
  - right. by simplify_eq.
Qed.

Lemma manageDhNamespace_ok c k ns w c' w' :
  isStarted c = false ->
  manageDhNamespace vsystemCaBundleSecretName MkDataHubGvr lib c k ns w
  = Ret (None, c') w' ->
  c' = mkDhController
         (mkUnmanaged (ctrlName (Controller c)) (ctrlReconciler (Controller c))
                      (startWatches (Controller c)
                       ++ dhInformerWatches vsystemCaBundleSecretName MkDataHubGvr ns))
         (mgr c) (unstartedFactories c ++ dhFactories ns) (cancels c)
         (chanReconcileObs c) false
  /\ w' = mkWorld (chans w) (ctxs w)
                  (trace w ++ manageDhNamespaceLog
                           :: map EvWatch (dhInformerWatches vsystemCaBundleSecretName
                                                             MkDataHubGvr ns)).
Proof.
  intros Hs H.
  cbv [manageDhNamespace Watch NewForConfigOrDie bind ret emit panic startFactories
       appendFactory] in H.
  cbn [Controller mgr unstartedFactories cancels chanReconcileObs isStarted
       ctrlName ctrlReconciler startWatches chans ctxs trace] in H.
  rewrite Hs in H. cbn [negb] in H.
  repeat (case_match; simplify_eq).
  cbn [Controller mgr unstartedFactories cancels chanReconcileObs isStarted
       ctrlName ctrlReconciler startWatches chans ctxs trace].
  unfold dhFactories, dhInformerWatches, manageDhNamespaceLog.
  by rewrite <- !app_assoc.
Qed.

(** What a successful construction returns and leaves behind. *)
Lemma NewManagedDhController_ok cl sch nm ns m w c w' :
  NewManagedDhController vsystemCaBundleSecretName MkDataHubGvr lib
    cl sch nm ns m w = Ret (inl c) w' ->
  c = mkDhController
        (mkUnmanaged (controllerName nm) (mkReconciler cl sch nm ns)
                     (mkWatch (SourceChannel (length (chans w)) (length (ctxs w))) []
                      :: dhInformerWatches vsystemCaBundleSecretName MkDataHubGvr ns))
        m (dhFactories ns) [length (ctxs w)] (length (chans w)) false
  /\ w' = mkWorld (chans w ++ [mkChan 0 [] false false []]) (ctxs w ++ [false])
                  (trace w ++ EvWatch (mkWatch (SourceChannel (length (chans w))
                                                              (length (ctxs w))) [])
                           :: manageDhNamespaceLog
                           :: map EvWatch (dhInformerWatches vsystemCaBundleSecretName
                                                             MkDataHubGvr ns)).
Proof.
  unfold NewManagedDhController.
  destruct (controller_NewUnmanaged lib (controllerName nm) m); [discriminate|].
  cbv [bind makeChan WithCancel]. cbn [chans ctxs trace chanReconcileObs].
  match goal with |- context [Watch lib ?c0 ?wt ?w0] =>
    destruct (Watch lib c0 wt w0) as [[r c1] w1| |] eqn:HW; [|discriminate..];
    apply Watch_ok in HW as [(e & _ & -> & _)|(_ & -> & -> & ->)]
  end.
  { cbv [callCancel ret]. discriminate. }
  cbv [appendCancel]. cbn [Controller mgr unstartedFactories cancels chanReconcileObs isStarted
                           ctrlName ctrlReconciler startWatches chans ctxs trace].
  match goal with |- context [manageDhNamespace _ _ lib ?c0 ?k0 ns ?w0] =>
    destruct (manageDhNamespace vsystemCaBundleSecretName MkDataHubGvr lib c0 k0 ns w0)
      as [[r c1] w1| |] eqn:HM;
      [|discriminate..]
  end.
  destruct r as [e|]; [cbv [callCancel ret]; discriminate|].
  apply manageDhNamespace_ok in HM as [-> ->]; [|reflexivity].
  cbv [ret]. intros [= <- <-]. cbn. split; [reflexivity|].
  by rewrite <- app_assoc.
Qed.

(** ** [Start] *)

Lemma Start_eq c ctx w :
  Start c ctx w
  = Ret (None,
         mkDhController (Controller c) (mgr c) [] (cancels c ++ [length (ctxs w)])
                        (chanReconcileObs c) true)
        (mkWorld (chans w) (ctxs w ++ [false])
                 (trace w ++ EvGoControllerStart (length (ctxs w))
                          :: map (fun f => EvFactoryStart f (length (ctxs w)))
                                 (unstartedFactories c))).
Proof.
  unfold Start. cbv [bind WithCancel emit].
  rewrite startFactories_started by reflexivity.
  cbv [appendCancel ret]. cbn. by rewrite <- app_assoc.
Qed.

Lemma StartTimes_started n c ctx w :
  unstartedFactories c = [] -> isStarted c = true ->
  StartTimes n c ctx w
  = Ret (mkDhController (Controller c) (mgr c) [] (cancels c ++ seq (length (ctxs w)) n)
                        (chanReconcileObs c) true)
        (mkWorld (chans w) (ctxs w ++ replicate n false)
                 (trace w ++ map EvGoControllerStart (seq (length (ctxs w)) n))).
Proof.
  revert c w. induction n as [|n IH]; intros c w Hf Hs.
  - cbn. unfold ret. rewrite !app_nil_r. destruct c, w; cbn in *. by subst.
  - cbn [StartTimes]. unfold bind at 1. rewrite Start_eq.
    rewrite IH by reflexivity. cbn [Controller mgr cancels chanReconcileObs chans ctxs trace].
    rewrite Hf. cbn [map]. rewrite length_app. cbn [length].
    replace (length (ctxs w) + 1) with (S (length (ctxs w))) by lia.
    rewrite <- !app_assoc. reflexivity.
Qed.

Lemma StartTimes_eq n c ctx w :
  StartTimes (S n) c ctx w
  = Ret (mkDhController (Controller c) (mgr c) [] (cancels c ++ seq (length (ctxs w)) (S n))
                        (chanReconcileObs c) true)
        (mkWorld (chans w) (ctxs w ++ replicate (S n) false)
                 (trace w ++ EvGoControllerStart (length (ctxs w))
                          :: map (fun f => EvFactoryStart f (length (ctxs w)))
                                 (unstartedFactories c)
                          ++ map EvGoControllerStart (seq (S (length (ctxs w))) n))).
Proof.
  cbn [StartTimes]. unfold bind at 1. rewrite Start_eq.
  rewrite StartTimes_started by reflexivity.
  cbn [Controller mgr cancels chanReconcileObs chans ctxs trace].
  rewrite length_app. cbn [length].
  replace (length (ctxs w) + 1) with (S (length (ctxs w))) by lia.
  cbn [seq replicate]. rewrite <- !app_assoc. reflexivity.
Qed.

(** ** Counting events *)

Lemma countEvents_app p tr1 tr2 :
  countEvents p (tr1 ++ tr2) = countEvents p tr1 + countEvents p tr2.
Proof. induction tr1 as [|e tr1 IH]; cbn; [done|]. rewrite IH. lia. Qed.

Lemma countEvents_none {A} p (g : A -> Event) (l : list A) :
  (forall x, p (g x) = false) -> countEvents p (map g l) = 0.
Proof. intros H. induction l as [|x l IH]; cbn; [done|]. by rewrite H, IH. Qed.

Lemma eventsSince_app w0 w tr :
  trace w = trace w0 ++ tr -> eventsSince w0 w = tr.
Proof. intros H. unfold eventsSince. rewrite H. by rewrite drop_app_length. Qed.

Lemma countEvents_starts f k ns :
  f ∈ dhFactories ns ->
  countEvents (isStartOf f) (map (fun f' => EvFactoryStart f' k) (dhFactories ns)) = 1.
Proof.
  unfold dhFactories. intros H.
  repeat (apply elem_of_cons in H as [->|H]); [..|by apply elem_of_nil in H]; cbn;
    repeat (first [rewrite bool_decide_eq_true_2 by reflexivity
                  |rewrite bool_decide_eq_false_2 by discriminate]); reflexivity.
Qed.

(** ** [Stop] *)

Lemma runSteps_cancels (ks : list CancelFunc) w :
  runSteps (map StepCancel ks) w
  = Ret tt (mkWorld (chans w) (cancelAll ks (ctxs w)) (trace w ++ map EvCancel ks)).
Proof.
  revert w. induction ks as [|k ks IH]; intros w; cbn.
  - unfold ret. rewrite app_nil_r. by destruct w.
  - rewrite IH. cbn. by rewrite <- app_assoc.
Qed.

Lemma cancelAll_length ks (cs : list bool) : length (cancelAll ks cs) = length cs.
Proof.
  revert cs. induction ks as [|k ks IH]; intros cs; cbn; [done|].
  unfold cancelAll in IH. by rewrite IH, length_insert.
Qed.

Lemma cancelAll_keeps ks (cs : list bool) k :
  cs !! k = Some true -> cancelAll ks cs !! k = Some true.
Proof.
  revert cs. induction ks as [|k' ks IH]; intros cs H; cbn; [done|].
  apply IH. destruct (decide (k' = k)) as [->|Hne].
  - apply list_lookup_insert_eq. by eapply lookup_lt_Some.
  - by rewrite list_lookup_insert_ne.
Qed.

Lemma cancelAll_cancels ks (cs : list bool) k :
  k ∈ ks -> k < length cs -> cancelAll ks cs !! k = Some true.
Proof.
  revert cs. induction ks as [|k' ks IH]; intros cs Hin Hlt.
  - by apply elem_of_nil in Hin.
  - apply elem_of_cons in Hin as [->|Hin]; cbn.
    + apply cancelAll_keeps. by apply list_lookup_insert_eq.
    + apply IH; [done|]. by rewrite length_insert.
Qed.

Lemma Stop_open c w chn :
  chans w !! chanReconcileObs c = Some chn -> chClosed chn = false ->
  Stop c w
  = Ret tt (mkWorld (<[chanReconcileObs c := closedChan chn]> (chans w))
                    (cancelAll (cancels c) (ctxs w))
                    (trace w ++ EvClose (chanReconcileObs c) :: map EvCancel (cancels c))).
Proof.
  intros Hch Hopen. unfold Stop, StopSteps. cbn [runSteps execStep].
  unfold bind, chanClose at 1. rewrite Hch, Hopen.
  rewrite runSteps_cancels. cbn. by rewrite <- app_assoc.
Qed.

Lemma Stop_closed c w chn :
  chans w !! chanReconcileObs c = Some chn -> chClosed chn = true ->
  Stop c w = Panic PanicCloseOfClosed.
Proof.
  intros Hch Hcl. unfold Stop, StopSteps. cbn [runSteps execStep].
  unfold bind, chanClose. by rewrite Hch, Hcl.
Qed.

Lemma runSteps_reach l w w' : runSteps l w = Ret tt w' -> stepsReach l w = w'.
Proof.
  revert w. induction l as [|s l IH]; intros w; cbn [runSteps stepsReach].
  - by intros [= <-].
  - unfold bind. destruct (execStep s w) as [[] w2| |]; [|discriminate..]. apply IH.
Qed.

Lemma Stop_closed_first_step c w chn :
  chans w !! chanReconcileObs c = Some chn -> chClosed chn = true ->
  stepsReach (StopSteps c) w = w
  /\ runSchedule [0] (mkPool [StopSteps c] w) = Crashed PanicCloseOfClosed.
Proof.
  intros Hch Hcl. unfold StopSteps. cbn [stepsReach runSchedule]. unfold schedule1.
  cbn [threads world lookup list_lookup execStep]. unfold chanClose. by rewrite Hch, Hcl.
Qed.

(** C2, as the code has it.  [Stop] is single-shot, not idempotent: on a
    controller whose notification channel is open, the first call returns,
    closes the channel once and then calls every stored cancel function, in
    order; a second call on the same controller panics with "close of closed
    channel" before any cancel function runs: its first step is the one
    that panics, and it leaves the world exactly as it found it.  So does
    every longer sequence of calls. *)
Theorem Stop_first_call_closes_second_panics c w chn :
  chans w !! chanReconcileObs c = Some chn -> chClosed chn = false ->
  exists w1,
    Stop c w = Ret tt w1
    /\ chans w1 !! chanReconcileObs c = Some (closedChan chn)
    /\ countEvents (isCloseOf (chanReconcileObs c)) (eventsSince w w1) = 1
    /\ (forall k, k ∈ cancels c -> k < length (ctxs w) -> ctxs w1 !! k = Some true)
    /\ Stop c w1 = Panic PanicCloseOfClosed
    /\ (forall n, StopTimes (S (S n)) c w = Panic PanicCloseOfClosed)
    /\ eventsSince w w1 = EvClose (chanReconcileObs c) :: map EvCancel (cancels c)
    /\ stepsReach (StopSteps c) w = w1
    /\ stepsReach (StopSteps c) w1 = w1
    /\ runSchedule [0] (mkPool [StopSteps c] w1) = Crashed PanicCloseOfClosed.
Proof.
  intros Hch Hopen. eexists. split; [by apply Stop_open|].
  assert (Hlook : <[chanReconcileObs c := closedChan chn]> (chans w) !! chanReconcileObs c
                  = Some (closedChan chn)).
  { apply list_lookup_insert_eq. by eapply lookup_lt_Some. }
  assert (Hsnd : Stop c (mkWorld (<[chanReconcileObs c := closedChan chn]> (chans w))
                                 (cancelAll (cancels c) (ctxs w))
                                 (trace w ++ EvClose (chanReconcileObs c)
                                          :: map EvCancel (cancels c)))
                 = Panic PanicCloseOfClosed).
  { eapply Stop_closed; [exact Hlook|reflexivity]. }
  split; [exact Hlook|]. split; [|split; [|split; [|split; [|split; [|split]]]]].
  - erewrite eventsSince_app by reflexivity. cbn.
    rewrite bool_decide_eq_true_2 by reflexivity.
    by rewrite countEvents_none.
  - intros k Hin Hlt. cbn. by apply cancelAll_cancels.
  - exact Hsnd.
  - intros n. cbn [StopTimes]. unfold bind at 1.
    rewrite (Stop_open c w chn Hch Hopen). unfold bind. by rewrite Hsnd.
  - by erewrite eventsSince_app by reflexivity.
  - apply runSteps_reach. by apply Stop_open.
  - eapply Stop_closed_first_step; [exact Hlook|reflexivity].
Qed.

(** ** [ReconcileObs] and the notification channel *)

Lemma NewManagedDhController_channel cl sch nm ns m w c w' :
  NewManagedDhController vsystemCaBundleSecretName MkDataHubGvr lib
    cl sch nm ns m w = Ret (inl c) w' ->
  chans w' !! chanReconcileObs c = Some (mkChan 0 [] false false []).
Proof.
  intros H. apply NewManagedDhController_ok in H as [-> ->]. cbn.
  by rewrite list_lookup_middle.
Qed.

Lemma ReconcileObs_handoff c obs w chn :
  chans w !! chanReconcileObs c = Some chn -> chClosed chn = false -> chConsumer chn = true ->
  ReconcileObs c obs w
  = Ret tt (mkWorld (<[chanReconcileObs c := handedOff chn (mkGenericEvent obs)]> (chans w))
                    (ctxs w) (trace w)).
Proof.
  intros Hch Hopen Hcons. unfold ReconcileObs, ReconcileObsSteps. cbn [runSteps execStep].
  unfold bind, chanSend. by rewrite Hch, Hopen, Hcons.
Qed.

Lemma chanSend_blocked ch ev w chn :
  chans w !! ch = Some chn -> chCap chn = 0 -> chClosed chn = false -> chConsumer chn = false ->
  chanSend ch ev w = Blocked.
Proof.
  intros Hch Hcap Hopen Hcons. unfold chanSend. rewrite Hch, Hopen, Hcons, Hcap.
  rewrite bool_decide_eq_false_2 by lia. reflexivity.
Qed.

Lemma chanSend_closed ch ev w chn :
  chans w !! ch = Some chn -> chClosed chn = true -> chanSend ch ev w = Panic PanicSendOnClosed.
Proof. intros Hch Hcl. unfold chanSend. by rewrite Hch, Hcl. Qed.

Lemma blocked_sender_stays ch ev w chn sched :
  chans w !! ch = Some chn -> chCap chn = 0 -> chClosed chn = false -> chConsumer chn = false ->
  runSchedule sched (mkPool [[StepSend ch ev]] w) = Running (mkPool [[StepSend ch ev]] w).
Proof.
  intros Hch Hcap Hopen Hcons. induction sched as [|i sched IH]; [reflexivity|].
  cbn [runSchedule]. destruct i as [|i]; unfold schedule1; cbn.
  - by rewrite (chanSend_blocked _ _ _ _ Hch Hcap Hopen Hcons).
  - exact IH.
Qed.

(** C1, as the code has it.  [ReconcileObs] is a synchronous send on the
    notification channel, which is made without a buffer: while the channel
    is open, the call returns exactly when a consumer takes the event; with
    no consumer it blocks and stays blocked under every schedule of its own,
    and nothing is dropped, buffered or logged.  The consumer comes with the
    run loop: once a goroutine has started the channel source under
    contexts that are not done, as the run loop launched by [Start] does,
    the waiting send is taken. *)
Theorem ReconcileObs_synchronous_send c obs w chn :
  chans w !! chanReconcileObs c = Some chn -> chCap chn = 0 -> chClosed chn = false ->
  (chConsumer chn = true ->
     ReconcileObs c obs w
     = Ret tt (mkWorld (<[chanReconcileObs c := handedOff chn (mkGenericEvent obs)]> (chans w))
                       (ctxs w) (trace w)))
  /\ (chConsumer chn = false ->
        ReconcileObs c obs w = Blocked
        /\ (forall sched,
             runSchedule sched (mkPool [ReconcileObsSteps c obs] w)
             = Running (mkPool [ReconcileObsSteps c obs] w))
        /\ (forall k stop preds rest,
             ctxs w !! k = Some false -> ctxs w !! stop = Some false ->
             runSchedule [0; 1; 0]
               (mkPool [ReconcileObsSteps c obs;
                        StepStartSource k (mkWatch (SourceChannel (chanReconcileObs c) stop)
                                                   preds) :: rest] w)
             = Running
                 (mkPool [[]; rest]
                    (mkWorld (<[chanReconcileObs c := handedOff chn (mkGenericEvent obs)]>
                                (chans w))
                             (ctxs w)
                             (trace w ++ [EvSourceStart
                                            (mkWatch (SourceChannel (chanReconcileObs c) stop)
                                                     preds)]))))).
Proof.
  intros Hch Hcap Hopen. split; intros Hcons.
  - by apply ReconcileObs_handoff.
  - split; [|split].
    + unfold ReconcileObs, ReconcileObsSteps. cbn [runSteps execStep]. unfold bind.
      by rewrite (chanSend_blocked _ _ _ _ Hch Hcap Hopen Hcons).
    + intros sched. by apply (blocked_sender_stays _ _ _ chn).
    + intros k stop preds rest Hk Hstop.
      assert (Hlt : chanReconcileObs c < length (chans w)) by (by eapply lookup_lt_Some).
      unfold ReconcileObsSteps. cbn [runSchedule]. unfold schedule1 at 1.
      cbn [threads world lookup list_lookup execStep].
      rewrite (chanSend_blocked _ _ _ _ Hch Hcap Hopen Hcons).
      unfold schedule1 at 1. cbn [threads world lookup list_lookup execStep].
      unfold startSource, bind, emit, setConsumer. cbn [wSource].
      rewrite Hk, Hstop, Hch. cbn [chans ctxs trace insert list_insert].
      unfold schedule1. cbn [threads world lookup list_lookup execStep].
      unfold chanSend. cbn [chans ctxs trace].
      rewrite list_lookup_insert_eq by done. cbn [chClosed chConsumer chCap chBuf chDelivered].
      rewrite Hopen. rewrite list_insert_insert_eq. reflexivity.
Qed.

(** ** Interleavings of [ReconcileObs] and [Stop] *)

Lemma pool_stopping_safe sched (ks : list CancelFunc) w :
  exists p', runSchedule sched (mkPool [[]; map StepCancel ks] w) = Running p'.
Proof.
  revert ks w. induction sched as [|i sched IH]; intros ks w; [by eexists|].
  cbn [runSchedule]. destruct i as [|[|i]]; unfold schedule1.
  - cbn. apply IH.
  - destruct ks as [|k ks]; cbn; [apply (IH [])|apply IH].
  - cbn. apply IH.
Qed.

Lemma pool_sent_safe sched ch (ks : list CancelFunc) w chn :
  chans w !! ch = Some chn -> chClosed chn = false ->
  exists p', runSchedule sched (mkPool [[]; StepClose ch :: map StepCancel ks] w) = Running p'.
Proof.
  intros Hch Hopen. induction sched as [|i sched IH]; [by eexists|].
  cbn [runSchedule]. destruct i as [|[|i]]; unfold schedule1.
  - cbn. apply IH.
  - cbn. unfold chanClose. rewrite Hch, Hopen. cbn. apply pool_stopping_safe.
  - cbn. apply IH.
Qed.

Lemma pool_closed_send_pending sched ch ev (ks : list CancelFunc) w chn :
  chans w !! ch = Some chn -> chClosed chn = true ->
  (0 ∈ sched ->
     runSchedule sched (mkPool [[StepSend ch ev]; map StepCancel ks] w)
     = Crashed PanicSendOnClosed)
  /\ (0 ∉ sched ->
        exists p', runSchedule sched (mkPool [[StepSend ch ev]; map StepCancel ks] w)
                   = Running p').
Proof.
  intros Hch Hcl. revert ks w Hch.
  induction sched as [|i sched IH]; intros ks w Hch.
  { split; [intros H; by apply elem_of_nil in H|by eexists]. }
  cbn [runSchedule]. destruct i as [|[|i]]; unfold schedule1.
  - cbn. rewrite (chanSend_closed _ _ _ _ Hch Hcl). split; [done|].
    intros H. exfalso. apply H. left.
  - assert (Hne : forall P : Prop, (0 ∈ sched -> P) -> 0 ∈ 1 :: sched -> P).
    { intros P HP H. apply elem_of_cons in H as [?|?]; [lia|auto]. }
    destruct ks as [|k ks]; cbn.
    + destruct (IH [] w Hch) as [IH1 IH2]. split.
      * apply Hne, IH1.
      * intros H. apply IH2. intros H'. apply H. by right.
    + destruct (IH ks (mkWorld (chans w) (<[k:=true]> (ctxs w)) (trace w ++ [EvCancel k])) Hch)
        as [IH1 IH2]. split.
      * apply Hne, IH1.
      * intros H. apply IH2. intros H'. apply H. by right.
  - cbn. destruct (IH ks w Hch) as [IH1 IH2]. split.
    + intros H. apply elem_of_cons in H as [?|?]; [lia|auto].
    + intros H. apply IH2. intros H'. apply H. by right.
Qed.

Lemma closeBeforeSend_nil b : ~ closeBeforeSend b [].
Proof. intros (s1 & s2 & H & _). by destruct s1. Qed.

Lemma closeBeforeSend_send_consumer sched : ~ closeBeforeSend true (0 :: sched).
Proof.
  intros (s1 & s2 & H & H1 & H0). destruct s1 as [|x s1].
  - by apply elem_of_nil in H1.
  - injection H as <- _. apply (H0 eq_refl). left.
Qed.

Lemma closeBeforeSend_send_blocked sched :
  closeBeforeSend false (0 :: sched) <-> closeBeforeSend false sched.
Proof.
  split.
  - intros (s1 & s2 & H & H1 & _). destruct s1 as [|x s1].
    + by apply elem_of_nil in H1.
    + injection H as <- ->. apply elem_of_cons in H1 as [?|H1]; [lia|].
      exists s1, s2. by repeat split.
  - intros (s1 & s2 & -> & H1 & _). exists (0 :: s1), s2.
    repeat split; [by right|done].
Qed.

Lemma closeBeforeSend_stop b sched : closeBeforeSend b (1 :: sched) <-> 0 ∈ sched.
Proof.
  split.
  - intros (s1 & s2 & H & H1 & _). destruct s1 as [|x s1].
    + by apply elem_of_nil in H1.
    + injection H as _ ->. apply elem_of_app. right. left.
  - intros H. apply list_elem_of_split_l in H as (l1 & l2 & -> & Hnot).
    exists (1 :: l1), l2. repeat split; [left|].
    intros _ H. apply elem_of_cons in H as [?|?]; [lia|done].
Qed.

Lemma closeBeforeSend_other b i sched :
  closeBeforeSend b (S (S i) :: sched) <-> closeBeforeSend b sched.
Proof.
  split.
  - intros (s1 & s2 & H & H1 & H0). destruct s1 as [|x s1].
    + by apply elem_of_nil in H1.
    + injection H as <- ->. apply elem_of_cons in H1 as [?|H1]; [lia|].
      exists s1, s2. repeat split; [done|].
      intros Hb H. apply (H0 Hb). by right.
  - intros (s1 & s2 & -> & H1 & H0). exists (S (S i) :: s1), s2.
    repeat split; [by right|].
    intros Hb H. apply elem_of_cons in H as [?|?]; [lia|by apply (H0 Hb)].
Qed.

Lemma closeBeforeSend_dec b sched :
  closeBeforeSend b sched \/ ~ closeBeforeSend b sched.
Proof.
  induction sched as [|i sched IH].
  - right. apply closeBeforeSend_nil.
  - destruct i as [|[|i]].
    + destruct b.
      * right. apply closeBeforeSend_send_consumer.
      * by rewrite closeBeforeSend_send_blocked.
    + rewrite closeBeforeSend_stop. destruct (decide (0 ∈ sched)); [by left|by right].
    + by rewrite closeBeforeSend_other.
Qed.

Lemma pool_notify_stop sched ch ev (ks : list CancelFunc) w chn :
  chans w !! ch = Some chn -> chCap chn = 0 -> chClosed chn = false ->
  (closeBeforeSend (chConsumer chn) sched ->
     runSchedule sched (mkPool [[StepSend ch ev]; StepClose ch :: map StepCancel ks] w)
     = Crashed PanicSendOnClosed)
  /\ (~ closeBeforeSend (chConsumer chn) sched ->
        exists p', runSchedule sched
                     (mkPool [[StepSend ch ev]; StepClose ch :: map StepCancel ks] w)
                   = Running p').
Proof.
  intros Hch Hcap Hopen.
  assert (Hlt : ch < length (chans w)) by by eapply lookup_lt_Some.
  induction sched as [|i sched IH].
  { split; [intros H; by apply closeBeforeSend_nil in H|by eexists]. }
  cbn [runSchedule]. destruct i as [|[|i]]; unfold schedule1.
  - destruct (chConsumer chn) eqn:Hcons.
    + cbn. unfold chanSend. rewrite Hch, Hopen, Hcons. cbn. split.
      * intros H. by apply closeBeforeSend_send_consumer in H.
      * intros _. eapply pool_sent_safe; cbn.
        -- by apply list_lookup_insert_eq.
        -- reflexivity.
    + cbn. rewrite (chanSend_blocked _ _ _ _ Hch Hcap Hopen Hcons).
      rewrite closeBeforeSend_send_blocked. exact IH.
  - cbn. unfold chanClose. rewrite Hch, Hopen. cbn.
    rewrite closeBeforeSend_stop.
    eapply pool_closed_send_pending; cbn.
    + by apply list_lookup_insert_eq.
    + reflexivity.
  - cbn. rewrite closeBeforeSend_other. exact IH.
Qed.

(** C3, as the code has it.  Nothing in [ReconcileObs] or [Stop] orders the
    two calls.  With goroutine 0 in [ReconcileObs] and goroutine 1 in [Stop]
    on the same controller, a schedule ends in the panic "send on closed
    channel" exactly when it runs the close before the send is performed;
    every other schedule keeps the process running. *)
Theorem notify_stop_send_on_closed c obs w chn sched :
  chans w !! chanReconcileObs c = Some chn -> chCap chn = 0 -> chClosed chn = false ->
  (runSchedule sched (mkPool [ReconcileObsSteps c obs; StopSteps c] w)
   = Crashed PanicSendOnClosed
   <-> closeBeforeSend (chConsumer chn) sched)
  /\ (forall v, runSchedule sched (mkPool [ReconcileObsSteps c obs; StopSteps c] w) = Crashed v ->
                v = PanicSendOnClosed).
Proof.
  intros Hch Hcap Hopen. unfold ReconcileObsSteps, StopSteps.
  destruct (pool_notify_stop sched _ (mkGenericEvent obs) (cancels c) w chn Hch Hcap Hopen)
    as [Hcrash Hsafe].
  pose proof (closeBeforeSend_dec (chConsumer chn) sched) as Hdec.
  split; [split|].
  - intros Hrun. destruct Hdec as [H|H]; [done|].
    destruct (Hsafe H) as [p' Hp]. congruence.
  - exact Hcrash.
  - intros v Hrun. destruct Hdec as [H|H].
    + rewrite (Hcrash H) in Hrun. congruence.
    + destruct (Hsafe H) as [p' Hp]. congruence.
Qed.

(** ** Construction and start of the informer factories *)

(** What the code keeps of C4.  After a successful construction the
    controller is not started, it holds its three informer factories
    unstarted, and its watches have been registered without any factory
    having been started; [startFactories] does nothing on a controller that
    is not started.  One or more calls of [Start] then execute the go
    statement of the run loop, start each factory exactly once, in the first
    call and after that go statement, and leave the list of unstarted
    factories empty, so that later calls start no factory. *)
Theorem factories_started_once_after_Start cl sch nm ns m w c w1 n ctx :
  NewManagedDhController vsystemCaBundleSecretName MkDataHubGvr lib
    cl sch nm ns m w = Ret (inl c) w1 ->
  0 < n ->
  exists cn wn,
    StartTimes n c ctx w1 = Ret cn wn
    /\ isStarted c = false
    /\ unstartedFactories c = dhFactories ns
    /\ (forall wt, wt ∈ startWatches (Controller c) -> EvWatch wt ∈ eventsSince w w1)
    /\ countEvents isFactoryStart (eventsSince w w1) = 0
    /\ (forall c' k w', isStarted c' = false -> startFactories c' k w' = Ret c' w')
    /\ eventsSince w1 wn
        = EvGoControllerStart (length (ctxs w1))
          :: map (fun f => EvFactoryStart f (length (ctxs w1))) (dhFactories ns)
          ++ map EvGoControllerStart (seq (S (length (ctxs w1))) (n - 1))
    /\ (forall f, f ∈ dhFactories ns -> countEvents (isStartOf f) (eventsSince w wn) = 1)
    /\ (forall f k, EvFactoryStart f k ∈ eventsSince w wn -> f ∈ dhFactories ns)
    /\ unstartedFactories cn = []
    /\ isStarted cn = true.
Proof.
  intros Hnew Hn. apply NewManagedDhController_ok in Hnew as [-> ->].
  destruct n as [|n]; [lia|]. rewrite StartTimes_eq.
  eexists _, _. split; [reflexivity|].
  cbn [Controller mgr unstartedFactories cancels chanReconcileObs isStarted
       ctrlName ctrlReconciler startWatches chans ctxs trace].
  replace (S n - 1) with n by lia.
  repeat split.
  - intros wt Hwt. erewrite eventsSince_app by reflexivity.
    apply elem_of_cons in Hwt as [->|Hwt]; [left|].
    right. right. apply list_elem_of_fmap. by exists wt.
  - erewrite eventsSince_app by reflexivity. cbn. reflexivity.
  - intros c' k w'. apply startFactories_unstarted.
  - by erewrite eventsSince_app by reflexivity.
  - intros f Hf. erewrite eventsSince_app by (cbn; rewrite <- app_assoc; reflexivity).
    rewrite countEvents_app.
    match goal with |- ?a + countEvents ?p (EvGoControllerStart _ :: _ :: _ :: _ :: ?l) = 1 =>
      change (a + countEvents p (map (fun f' => EvFactoryStart f' (length (ctxs w ++ [false])))
                                     (dhFactories ns) ++ l) = 1)
    end.
    rewrite countEvents_app, (countEvents_starts f _ ns Hf).
    by rewrite countEvents_none.
  - intros f k Hin. erewrite eventsSince_app in Hin by (cbn; rewrite <- app_assoc; reflexivity).
    apply elem_of_app in Hin as [Hin|Hin].
    + cbn in Hin. repeat (apply elem_of_cons in Hin as [?|Hin]; [discriminate|]).
      by apply elem_of_nil in Hin.
    + apply elem_of_cons in Hin as [?|Hin]; [discriminate|].
      unfold dhFactories.
      repeat (apply elem_of_cons in Hin as [[= -> _]|Hin];
              [repeat first [apply list_elem_of_here|apply list_elem_of_further]|]).
      apply list_elem_of_fmap in Hin as (? & ? & _). discriminate.
Qed.

(** ** The watches of a constructed controller *)

Lemma labelsMatch_vsystem (labels : gmap string string) :
  labelsMatch vsystemLabels labels = true
  <-> labels !! "datahub.sap.com/app-component" = Some "vsystem"
      /\ labels !! "datahub.sap.com/app" = Some "vsystem".
Proof.
  unfold labelsMatch, vsystemLabels. rewrite bool_decide_eq_true.
  rewrite map_Forall_insert by reflexivity.
  by rewrite map_Forall_singleton.
Qed.

(** C5.  A successful construction has registered, next to the watch on
    the notification channel, exactly four informer watches, all scoped to
    the DataHub namespace: the DataHub resource, Services that carry both
    vsystem labels, Secrets whose name is the CA bundle secret name, and
    Routes. *)
Theorem construction_registers_watches cl sch nm ns m w c w1 :
  NewManagedDhController vsystemCaBundleSecretName MkDataHubGvr lib
    cl sch nm ns m w = Ret (inl c) w1 ->
  informerWatches c
  = [mkWatch (SourceInformer (mkInformer (DynamicSharedInformerFactory dhSyncTime ns)
                                         (ResDynamic MkDataHubGvr))) [];
     mkWatch (SourceInformer (mkInformer (KubeSharedInformerFactory coreSyncTime ns)
                                         ResServices))
             [LabelSelectorPredicate vsystemLabels];
     mkWatch (SourceInformer (mkInformer (KubeSharedInformerFactory coreSyncTime ns)
                                         ResSecrets))
             [NameEqualsPredicate vsystemCaBundleSecretName];
     mkWatch (SourceInformer (mkInformer (RouteSharedInformerFactory routeSyncTime ns)
                                         ResRoutes)) []]
  /\ startWatches (Controller c)
      = mkWatch (SourceChannel (chanReconcileObs c) (length (ctxs w))) [] :: informerWatches c
  /\ (forall wt, wt ∈ informerWatches c -> watchNamespace wt = Some ns)
  /\ (forall o, evalPredicate (LabelSelectorPredicate vsystemLabels) o = true
                <-> Labels o !! "datahub.sap.com/app-component" = Some "vsystem"
                    /\ Labels o !! "datahub.sap.com/app" = Some "vsystem")
  /\ (forall o, evalPredicate (NameEqualsPredicate vsystemCaBundleSecretName) o = true
                <-> Name o = vsystemCaBundleSecretName).
Proof.
  intros Hnew. apply NewManagedDhController_ok in Hnew as [-> ->].
  unfold informerWatches. cbn [Controller startWatches chanReconcileObs].
  split; [reflexivity|]. split; [reflexivity|]. split; [|split].
  - intros wt Hwt. cbn in Hwt.
    repeat (apply elem_of_cons in Hwt as [->|Hwt]; [reflexivity|]).
    by apply elem_of_nil in Hwt.
  - intros o. apply labelsMatch_vsystem.
  - intros o. cbn. apply bool_decide_eq_true.
Qed.

(** C8, as the code has it.  The informer watches use three resync
    constants: [dhSyncTime] (3 minutes) for the DataHub watch,
    [coreSyncTime] (10 minutes) for the Service and the Secret watch, which
    share one factory, and [routeSyncTime] (10 minutes) for the Route watch.
    The DataHub interval is strictly shorter than the other two, which are
    equal. *)
Theorem resync_intervals cl sch nm ns m w c w1 :
  NewManagedDhController vsystemCaBundleSecretName MkDataHubGvr lib
    cl sch nm ns m w = Ret (inl c) w1 ->
  map watchResync (informerWatches c)
  = [Some dhSyncTime; Some coreSyncTime; Some coreSyncTime; Some routeSyncTime]
  /\ dhSyncTime = (3 * 60 * 1000000000)%Z
  /\ coreSyncTime = (10 * 60 * 1000000000)%Z
  /\ routeSyncTime = (10 * 60 * 1000000000)%Z
  /\ (dhSyncTime < coreSyncTime)%Z
  /\ (dhSyncTime < routeSyncTime)%Z
  /\ coreSyncTime = routeSyncTime
  /\ (routeSyncTime <= maxInt64)%Z.
Proof.
  intros Hnew. apply NewManagedDhController_ok in Hnew as [-> ->].
  repeat split; done.
Qed.

(** ** Failures during construction *)

Lemma construction_NewUnmanaged_error_returned (cl : @Client Cluster) sch nm ns m w err :
  controller_NewUnmanaged lib (controllerName nm) m = Some err ->
  NewManagedDhController vsystemCaBundleSecretName MkDataHubGvr lib
    cl sch nm ns m w = Ret (inr err) w.
Proof. intros H. unfold NewManagedDhController. by rewrite H. Qed.

Lemma construction_kube_client_error_returned (cl : @Client Cluster) sch nm ns m w err :
  controller_NewUnmanaged lib (controllerName nm) m = None ->
  controller_Watch lib (mkWatch (SourceChannel (length (chans w)) (length (ctxs w))) []) = None ->
  kubernetes_NewForConfig lib (GetConfig m) = Some err ->
  exists w', NewManagedDhController vsystemCaBundleSecretName MkDataHubGvr lib
               cl sch nm ns m w = Ret (inr err) w'
             /\ ctxs w' !! length (ctxs w) = Some true.
Proof.
  intros H1 H2 H3. unfold_construction. rewrite H1, H2. proj_construction.
  rewrite H3. eexists. split; [reflexivity|].
  cbn. apply list_lookup_insert_eq. rewrite length_app. cbn. lia.
Qed.

Lemma construction_route_client_error_panics (cl : @Client Cluster) sch nm ns m w err :
  controller_NewUnmanaged lib (controllerName nm) m = None ->
  controller_Watch lib (mkWatch (SourceChannel (length (chans w)) (length (ctxs w))) []) = None ->
  kubernetes_NewForConfig lib (GetConfig m) = None ->
  csroute_NewForConfig lib (GetConfig m) = Some err ->
  NewManagedDhController vsystemCaBundleSecretName MkDataHubGvr lib
    cl sch nm ns m w = Panic (PanicError err).
Proof.
  intros H1 H2 H3 H4. unfold_construction. rewrite H1, H2. proj_construction.
  by rewrite H3, H4.
Qed.

Lemma construction_dynamic_client_error_panics (cl : @Client Cluster) sch nm ns m w err :
  controller_NewUnmanaged lib (controllerName nm) m = None ->
  controller_Watch lib (mkWatch (SourceChannel (length (chans w)) (length (ctxs w))) []) = None ->
  kubernetes_NewForConfig lib (GetConfig m) = None ->
  csroute_NewForConfig lib (GetConfig m) = None ->
  dynamic_NewForConfig lib (GetConfig m) = Some err ->
  NewManagedDhController vsystemCaBundleSecretName MkDataHubGvr lib
    cl sch nm ns m w = Panic (PanicError err).
Proof.
  intros H1 H2 H3 H4 H5. unfold_construction. rewrite H1, H2. proj_construction.
  by rewrite H3, H4, H5.
Qed.

(** ** [Start] returns nil *)

(** C10.  [Start] returns a nil error in every world and for every
    controller: it launches the embedded controller's run loop in a
    goroutine and returns without waiting for it.  Whatever the run loop
    returns, the goroutine at most logs it; it touches no channel and no
    context. *)
Theorem Start_returns_nil c ctx w :
  exists c' w',
    Start c ctx w = Ret (None, c') w'
    /\ EvGoControllerStart (length (ctxs w)) ∈ eventsSince w w'
    /\ forall runResult w2, exists w3,
         controllerGoroutine runResult w2 = Ret tt w3
         /\ chans w3 = chans w2 /\ ctxs w3 = ctxs w2
         /\ eventsSince w2 w3
             = match runResult with
               | Some err => [EvLog LogError "(*dhController).manageDhs: controller terminated"
                                    (Some err)]
               | None => []
               end.
Proof.
  rewrite Start_eq. eexists _, _. split; [reflexivity|]. split.
  - erewrite eventsSince_app by reflexivity. left.
  - intros [err|] w2; cbv [controllerGoroutine emit ret]; eexists; (split; [reflexivity|]).
    + cbn. repeat split. by erewrite eventsSince_app by reflexivity.
    + repeat split. unfold eventsSince. by rewrite drop_all.
Qed.

(** ** [Reconcile] *)

Lemma Reconcile_other_error_returned (r : @managedDhReconciler Cluster) req cl e :
  Get (client r) (namespacedName r) cl = inr e -> IsNotFound e = false ->
  fst (Reconcile manageVsystemRoute r req cl) = ((zeroResult, Some e), cl).
Proof. intros HG HN. unfold Reconcile. by rewrite HG, HN. Qed.

(** C6.  When [Get] fails with a not-found error, [Reconcile] does not
    return that error: what it returns is the zero result together with
    whatever [manageVsystemRoute] returns, computed without any reference
    to the not-found error.  If the route management succeeds, [Reconcile]
    returns a nil error and the request is not queued again. *)
Theorem Reconcile_not_found_swallowed (r : @managedDhReconciler Cluster) req cl e :
  Get (client r) (namespacedName r) cl = inr e -> IsNotFound e = true ->
  fst (fst (Reconcile manageVsystemRoute r req cl))
  = (zeroResult,
     snd (manageVsystemRoute (scheme r) (client r) zeroSdiObserver
                             (VsystemRoute (Spec zeroSdiObserver)) (dhNamespace r) cl))
  /\ (snd (manageVsystemRoute (scheme r) (client r) zeroSdiObserver
                              (VsystemRoute (Spec zeroSdiObserver)) (dhNamespace r) cl) = None ->
      fst (fst (Reconcile manageVsystemRoute r req cl)) = (zeroResult, None)
      /\ requeues (fst (fst (Reconcile manageVsystemRoute r req cl))) = false).
Proof.
  intros HG HN. unfold Reconcile. rewrite HG, HN. cbn [negb].
  destruct (manageVsystemRoute _ _ _ _ _ _) as [cl' err]. cbn [fst snd].
  split; [reflexivity|]. by intros ->.
Qed.

(** C9.  When [Get] fails with a not-found error, [Reconcile] goes on to
    call [manageVsystemRoute] with the zero-valued observer and its route
    spec; the cluster it leaves and the error it returns are those of that
    call, and the error is logged when there is one. *)
Theorem Reconcile_not_found_runs_route (r : @managedDhReconciler Cluster) req cl e :
  Get (client r) (namespacedName r) cl = inr e -> IsNotFound e = true ->
  Reconcile manageVsystemRoute r req cl
  = (let '(cl', err) :=
       manageVsystemRoute (scheme r) (client r) zeroSdiObserver
                          (VsystemRoute (Spec zeroSdiObserver)) (dhNamespace r) cl in
     ((zeroResult, err), cl',
      EvLog LogInfo ("(*ManagedObsReconciler).Reconcile: running for "
                     +:+ nnNamespace (reqNamespacedName req) +:+ "/"
                     +:+ nnName (reqNamespacedName req)) None
      :: match err with
         | Some e' => [EvLog LogError "failed to reconcile vsystem route" (Some e')]
         | None => []
         end)).
Proof.
  intros HG HN. unfold Reconcile. rewrite HG, HN. cbn [negb].
  by destruct (manageVsystemRoute _ _ _ _ _ _) as [cl' err].
Qed.

End ManagedDhFacts.


(** * The properties at concrete inputs *)

Module ExampleFacts.
Import Examples MoreExamples.

Lemma newC_constructed :
  NewManagedDhController caName gvr okLib emptyClient [] obsKey "sdi" theManager emptyWorld
  = Ret (inl newC) newW.
Proof. reflexivity. Qed.

Lemma startedC_started : Start newC 0 newW = Ret (None, startedC) startedW.
Proof. reflexivity. Qed.

Lemma runningW_consuming : setConsumer 0 true startedW = Ret tt runningW.
Proof. reflexivity. Qed.

(** C1 at a concrete controller: without a consumer the call blocks, with
    one the event is handed over, and the run loop launched by [Start]
    brings the consumer when it starts the channel source. *)
Lemma ReconcileObs_synchronous_send_witness :
  ReconcileObs startedC zeroSdiObserver startedW = Blocked
  /\ ReconcileObs startedC zeroSdiObserver runningW
      = Ret tt (mkWorld [mkChan 0 [] false true [mkGenericEvent zeroSdiObserver]]
                        [false; false] (trace startedW))
  /\ firstStart newC 0 (ReconcileObsSteps startedC zeroSdiObserver) newW
      = Some (startedC,
              mkPool [ReconcileObsSteps startedC zeroSdiObserver;
                      StepMakeQueue 1
                      :: StepStartSource 1 (mkWatch (SourceChannel 0 0) [])
                      :: map (StepStartSource 1) (dhInformerWatches caName gvr "sdi")
                      ++ [StepAwaitDone 1]]
                     startedW)
  /\ runSchedule [0; 1; 0]
       (mkPool [ReconcileObsSteps startedC zeroSdiObserver;
                StepStartSource 1 (mkWatch (SourceChannel 0 0) [])
                :: map (StepStartSource 1) (dhInformerWatches caName gvr "sdi")
                ++ [StepAwaitDone 1]]
               startedW)
     = Running
         (mkPool [[]; map (StepStartSource 1) (dhInformerWatches caName gvr "sdi")
                      ++ [StepAwaitDone 1]]
                 (mkWorld [mkChan 0 [] false true [mkGenericEvent zeroSdiObserver]]
                          [false; false]
                          (trace startedW
                           ++ [EvSourceStart (mkWatch (SourceChannel 0 0) [])]))).
Proof.
  split; [|split; [|split]].
  - apply (ReconcileObs_synchronous_send startedC zeroSdiObserver startedW
             (mkChan 0 [] false false [])); reflexivity.
  - apply (ReconcileObs_synchronous_send startedC zeroSdiObserver runningW
             (mkChan 0 [] false true [])); reflexivity.
  - reflexivity.
  - apply (ReconcileObs_synchronous_send startedC zeroSdiObserver startedW
             (mkChan 0 [] false false [])); reflexivity.
Defined.

(** C1 as stated fails, on either side of the controller's life.  A
    controller that has been constructed and not started has no goroutine
    that receives: [ReconcileObs] blocks, and under every schedule the
    calling goroutine is still in its send, with nothing logged, buffered or
    dropped.  A controller that was started, whose run loop was receiving,
    and that has been stopped is not consuming either: there the call
    panics on the closed channel, again with nothing logged or dropped. *)
Lemma ReconcileObs_blocks_unstarted_panics_stopped :
  NewManagedDhController caName gvr okLib emptyClient [] obsKey "sdi" theManager emptyWorld
  = Ret (inl newC) newW
  /\ ReconcileObs newC zeroSdiObserver newW = Blocked
  /\ (forall sched,
       runSchedule sched (mkPool [ReconcileObsSteps newC zeroSdiObserver] newW)
       = Running (mkPool [ReconcileObsSteps newC zeroSdiObserver] newW)
       /\ finished 0 (runSchedule sched
                        (mkPool [ReconcileObsSteps newC zeroSdiObserver] newW))
          = false)
  /\ firstStart newC 0 [] newW = Some (startedC, mkPool [[]; controllerRun newC 1] startedW)
  /\ runSchedule [1; 1; 1; 1; 1; 1] (mkPool [[]; controllerRun newC 1] startedW)
     = Running (mkPool [[]; [StepAwaitDone 1]] receivingW)
  /\ Stop startedC receivingW = Ret tt stoppedReceivingW
  /\ ReconcileObs startedC zeroSdiObserver stoppedReceivingW = Panic PanicSendOnClosed.
Proof.
  split; [reflexivity|]. split; [reflexivity|]. split.
  - intros sched.
    assert (H : runSchedule sched (mkPool [ReconcileObsSteps newC zeroSdiObserver] newW)
                = Running (mkPool [ReconcileObsSteps newC zeroSdiObserver] newW)).
    { by apply (blocked_sender_stays 0 (mkGenericEvent zeroSdiObserver) newW
                  (mkChan 0 [] false false [])). }
    split; [exact H|]. by rewrite H.
  - repeat split; reflexivity.
Qed.

(** On the started controller the call returns as soon as the run loop has
    reached the channel source. *)
Lemma ReconcileObs_after_Start_returns :
  firstStart newC 0 (ReconcileObsSteps startedC zeroSdiObserver) newW
  = Some (startedC,
          mkPool [ReconcileObsSteps startedC zeroSdiObserver; controllerRun newC 1] startedW)
  /\ finished 0 (runSchedule [0; 1; 1; 0]
                   (mkPool [ReconcileObsSteps startedC zeroSdiObserver; controllerRun newC 1]
                           startedW))
     = true.
Proof. split; reflexivity. Qed.

(** C2 at a concrete controller. *)
Lemma Stop_first_call_closes_second_panics_witness :
  exists w1, Stop startedC runningW = Ret tt w1
             /\ ctxs w1 = [true; true]
             /\ Stop startedC w1 = Panic PanicCloseOfClosed
             /\ stepsReach (StopSteps startedC) w1 = w1.
Proof.
  destruct (Stop_first_call_closes_second_panics startedC runningW (mkChan 0 [] false true []))
    as (w1 & Hstop & _ & _ & _ & Hsnd & _ & _ & _ & Hrest & _); [reflexivity..|].
  exists w1. split; [exact Hstop|]. split; [|split; [exact Hsnd|exact Hrest]].
  cbv in Hstop. by injection Hstop as <-.
Defined.

(** C2 as stated fails: the second [Stop] on the same controller panics. *)
Lemma Stop_twice_panics :
  Start newC 0 newW = Ret (None, startedC) startedW
  /\ StopTimes 2 startedC startedW = Panic PanicCloseOfClosed.
Proof. split; reflexivity. Qed.

(** C3 at a concrete schedule: the close runs first, then the send. *)
Lemma notify_stop_send_on_closed_witness :
  runSchedule [1; 0] (mkPool [ReconcileObsSteps startedC zeroSdiObserver; StopSteps startedC]
                             runningW)
  = Crashed PanicSendOnClosed.
Proof.
  apply (notify_stop_send_on_closed startedC zeroSdiObserver runningW
           (mkChan 0 [] false true []) [1; 0]); [reflexivity..|].
  exists [1], []. split; [reflexivity|]. split; [left|].
  intros _ H. apply elem_of_cons in H as [H|H]; [discriminate|by apply elem_of_nil in H].
Defined.

(** C3 as stated fails: an interleaving of [ReconcileObs] and [Stop] on a
    running controller in which the send finds the channel closed. *)
Lemma send_after_close_panics :
  setConsumer 0 true startedW = Ret tt runningW
  /\ runSchedule [1; 0]
       (mkPool [ReconcileObsSteps startedC zeroSdiObserver; StopSteps startedC] runningW)
     = Crashed PanicSendOnClosed.
Proof. split; reflexivity. Qed.

(** The factories of a concrete controller, started twice. *)
Lemma factories_started_once_after_Start_witness :
  exists cn wn,
    StartTimes 2 newC 0 newW = Ret cn wn
    /\ unstartedFactories cn = []
    /\ (forall f, f ∈ dhFactories "sdi" ->
                  countEvents (isStartOf f) (eventsSince emptyWorld wn) = 1).
Proof.
  destruct (factories_started_once_after_Start caName gvr okLib emptyClient [] obsKey "sdi"
              theManager emptyWorld newC newW 2 0)
    as (cn & wn & H1 & _ & _ & _ & _ & _ & _ & H2 & _ & H3 & _); [reflexivity|lia|].
  by exists cn, wn.
Defined.

(** C4 fails on the code.  [Start] sets [isStarted] and starts the
    factories right after its go statement, without waiting for the
    goroutine: when [Start] returns, the three factories have been started
    and the run loop has not taken a step, so that its work queue does not
    exist yet.  The queue is made, and the sources are started, by the
    goroutine afterwards.  The comment in [startFactories] asks for the
    opposite order: the factories are to start once the controller and its
    queue are prepared. *)
Theorem factories_started_before_queue_ready :
  NewManagedDhController caName gvr okLib emptyClient [] obsKey "sdi" theManager emptyWorld
  = Ret (inl newC) newW
  /\ firstStart newC 0 [] newW = Some (startedC, mkPool [[]; controllerRun newC 1] startedW)
  /\ eventsSince newW startedW
     = EvGoControllerStart 1 :: map (fun f => EvFactoryStart f 1) (dhFactories "sdi")
  /\ countEvents isQueueReady (trace startedW) = 0
  /\ head (controllerRun newC 1) = Some (StepMakeQueue 1)
  /\ runSchedule [1; 1; 1; 1; 1; 1] (mkPool [[]; controllerRun newC 1] startedW)
     = Running (mkPool [[]; [StepAwaitDone 1]] receivingW)
  /\ eventsSince newW receivingW
     = (EvGoControllerStart 1
        :: map (fun f => EvFactoryStart f 1) (dhFactories "sdi")
        ++ EvQueueReady 1 :: map EvSourceStart (startWatches (Controller newC)))%list.
Proof. repeat split; reflexivity. Qed.

(** C5 at a concrete controller. *)
Lemma construction_registers_watches_witness :
  informerWatches newC = dhInformerWatches caName gvr "sdi".
Proof.
  apply (construction_registers_watches caName gvr okLib emptyClient [] obsKey "sdi"
           theManager emptyWorld newC newW).
  reflexivity.
Defined.

(** C6 at a concrete reconciler: the observer is gone, the route management
    succeeds, nothing is queued again. *)
Lemma Reconcile_not_found_swallowed_witness :
  fst (fst (Reconcile routeOk theReconciler theRequest [])) = (zeroResult, None)
  /\ requeues (fst (fst (Reconcile routeOk theReconciler theRequest []))) = false.
Proof.
  apply (Reconcile_not_found_swallowed routeOk theReconciler theRequest [] notFound);
    reflexivity.
Defined.

(** C7 fails on the code: when the route client cannot be built the
    construction panics, although the failure of the kubernetes client,
    one call earlier and with the same configuration, is returned as an
    error. *)
Theorem construction_route_client_failure_panics :
  NewManagedDhController caName gvr routeClientFails emptyClient [] obsKey "sdi" theManager
                         emptyWorld
  = Panic (PanicError brokenConfig)
  /\ NewManagedDhController caName gvr kubeClientFails emptyClient [] obsKey "sdi" theManager
                            emptyWorld
     = Ret (inr brokenConfig)
           (mkWorld [mkChan 0 [] false false []] [true]
                    [EvWatch (mkWatch (SourceChannel 0 0) []); EvCancel 0]).
Proof. split; reflexivity. Qed.

(** C8 at a concrete controller. *)
Lemma resync_intervals_witness :
  map watchResync (informerWatches newC)
  = [Some dhSyncTime; Some coreSyncTime; Some coreSyncTime; Some routeSyncTime]
  /\ (dhSyncTime < coreSyncTime)%Z.
Proof.
  destruct (resync_intervals caName gvr okLib emptyClient [] obsKey "sdi" theManager
              emptyWorld newC newW) as (H1 & _ & _ & _ & H2 & _); [reflexivity|].
  by split.
Defined.

(** C8 as stated fails: the resync intervals of the watches are not
    pairwise distinct; the Service, Secret and Route watches all resync
    every ten minutes. *)
Lemma resync_intervals_not_distinct :
  NewManagedDhController caName gvr okLib emptyClient [] obsKey "sdi" theManager emptyWorld
  = Ret (inl newC) newW
  /\ map watchResync (informerWatches newC)
     = [Some 180000000000%Z; Some 600000000000%Z; Some 600000000000%Z; Some 600000000000%Z]
  /\ ~ NoDup (map watchResync (informerWatches newC)).
Proof.
  split; [reflexivity|]. split; [reflexivity|].
  intros H. apply NoDup_cons in H as [_ H]. apply NoDup_cons in H as [Hnot _].
  apply Hnot. left.
Qed.

(** C9 at a concrete reconciler. *)
Lemma Reconcile_not_found_runs_route_witness :
  Reconcile routeOk theReconciler theRequest []
  = ((zeroResult, None), ["sdi"],
     [EvLog LogInfo "(*ManagedObsReconciler).Reconcile: running for sdi-observer/sdi" None]).
Proof.
  apply (Reconcile_not_found_runs_route routeOk theReconciler theRequest [] notFound);
    reflexivity.
Defined.

End ExampleFacts.


(** * Further properties of the sub-controller *)

Section ManagedDhMore.

Set Default Proof Using "Type".

Context {Cluster : Type}.
Variable vsystemCaBundleSecretName : string.
Variable MkDataHubGvr : GroupVersionResource.
Variable manageVsystemRoute :
  Scheme -> @Client Cluster -> SdiObserver -> SDIObserverSpecRoute -> string ->
  Cluster -> Cluster * option error.
Variable lib : Library.

Implicit Types (c : @dhController Cluster) (w : World) (wt : WatchBinding).

Ltac unfold_in H :=
  cbv [NewManagedDhController manageDhNamespace Watch NewForConfigOrDie bind ret emit panic
       makeChan WithCancel callCancel appendCancel appendFactory] in H;
  cbn [Controller mgr unstartedFactories cancels chanReconcileObs isStarted
       ctrlName ctrlReconciler startWatches chans ctxs trace] in H.

(** The innermost scrutinee at the head of a term. *)
Ltac head_scrutinee t :=
  lazymatch t with
  | match ?x with _ => _ end => head_scrutinee x
  | (match ?x with _ => _ end) _ => head_scrutinee x
  | _ => t
  end.

(** Case analysis on the results of the library calls in [H], in the order
    in which the code makes them. *)
Ltac split_calls H :=
  repeat (lazymatch type of H with
          | ?lhs = _ =>
              let y := head_scrutinee lhs in
              lazymatch y with
              | lhs => fail
              | startFactories _ _ _ => fail
              | _ => destruct y eqn:?
              end
          end; cbv beta iota in H; try discriminate H).

(** ** Registration of the watches *)

Lemma startFactories_ret c k w c' w' :
  startFactories c k w = Ret c' w' ->
  startWatches (Controller c') = startWatches (Controller c)
  /\ chans w' = chans w /\ ctxs w' = ctxs w.
Proof.
  destruct (isStarted c) eqn:Hs.
  - rewrite startFactories_started by done. by intros [= <- <-].
  - rewrite startFactories_unstarted by done. by intros [= <- <-].
Qed.

Lemma startFactories_not_stuck c k w :
  exists c' w', startFactories c k w = Ret c' w'.
Proof.
  destruct (isStarted c) eqn:Hs.
  - rewrite startFactories_started by done. by eexists _, _.
  - rewrite startFactories_unstarted by done. by eexists _, _.
Qed.

(** X1.  The informer watches are registered in the order DataHub, Services,
    Secrets, Routes, and registration stops at the first call that fails:
    whenever [manageDhNamespace] returns, the controller has gained a prefix
    of the four watches, the whole of it exactly when no error is returned;
    a returned error is that of the kubernetes client (then no watch was
    added) or that of the first watch that was not added. *)
Theorem manageDhNamespace_registers_prefix c k ns w r c' w' :
  manageDhNamespace vsystemCaBundleSecretName MkDataHubGvr lib c k ns w = Ret (r, c') w' ->
  exists n,
    startWatches (Controller c') = startWatches (Controller c) ++ take n (dhInformerWatches vsystemCaBundleSecretName MkDataHubGvr ns)
    /\ Forall (fun wt => controller_Watch lib wt = None) (take n (dhInformerWatches vsystemCaBundleSecretName MkDataHubGvr ns))
    /\ (r = None <-> n = 4)
    /\ (forall e, r = Some e ->
          (n = 0 /\ kubernetes_NewForConfig lib (GetConfig (mgr c)) = Some e)
          \/ (exists wt, dhInformerWatches vsystemCaBundleSecretName MkDataHubGvr ns !! n = Some wt /\ controller_Watch lib wt = Some e)).
Proof.
  intros H. unfold_in H. split_calls H.
  1-5: injection H as <- <- <-; cbn [Controller startWatches mgr].
  - exists 0. cbn. rewrite app_nil_r. repeat split; try done. intros e' [= <-]. by left.
  - exists 0. cbn. rewrite app_nil_r. repeat split; try done. intros e' [= <-].
    right. eexists. split; [reflexivity|assumption].
  - exists 1. cbn. rewrite <- ?app_assoc. repeat split; try done.
    + repeat constructor; assumption.
    + intros e' [= <-]. right. eexists. split; [reflexivity|assumption].
  - exists 2. cbn. rewrite <- ?app_assoc. repeat split; try done.
    + repeat constructor; assumption.
    + intros e' [= <-]. right. eexists. split; [reflexivity|assumption].
  - exists 3. cbn. rewrite <- ?app_assoc. repeat split; try done.
    + repeat constructor; assumption.
    + intros e' [= <-]. right. eexists. split; [reflexivity|assumption].
  - match type of H with context [startFactories ?c0 ?k0 ?w0] =>
      destruct (startFactories_not_stuck c0 k0 w0) as (cS & wS & Hsf);
      rewrite Hsf in H; apply startFactories_ret in Hsf as (Hw & _ & _)
    end.
    injection H as <- <- <-. exists 4. rewrite Hw. cbn.
    rewrite <- ?app_assoc. split; [reflexivity|]. split; [|split; [done|done]].
    repeat constructor; assumption.
Qed.

(** ** Outcomes of [manageDhNamespace] *)

Lemma manageDhNamespace_not_blocked c k ns w :
  manageDhNamespace vsystemCaBundleSecretName MkDataHubGvr lib c k ns w <> Blocked.
Proof.
  intros H. unfold_in H. split_calls H.
  match type of H with context [startFactories ?c0 ?k0 ?w0] =>
    destruct (startFactories_not_stuck c0 k0 w0) as (cS & wS & Hsf); rewrite Hsf in H
  end.
  discriminate.
Qed.

Lemma manageDhNamespace_panic c k ns w p :
  manageDhNamespace vsystemCaBundleSecretName MkDataHubGvr lib c k ns w = Panic p ->
  exists e, p = PanicError e
            /\ kubernetes_NewForConfig lib (GetConfig (mgr c)) = None
            /\ (csroute_NewForConfig lib (GetConfig (mgr c)) = Some e
                \/ (csroute_NewForConfig lib (GetConfig (mgr c)) = None
                    /\ dynamic_NewForConfig lib (GetConfig (mgr c)) = Some e)).
Proof.
  intros H. unfold_in H. split_calls H.
  - injection H as <-. eauto 8.
  - injection H as <-. eauto 8.
  - match type of H with context [startFactories ?c0 ?k0 ?w0] =>
      destruct (startFactories_not_stuck c0 k0 w0) as (cS & wS & Hsf); rewrite Hsf in H
    end.
    discriminate.
Qed.

Lemma manageDhNamespace_error c k ns w e c' w' :
  manageDhNamespace vsystemCaBundleSecretName MkDataHubGvr lib c k ns w = Ret (Some e, c') w' ->
  (kubernetes_NewForConfig lib (GetConfig (mgr c)) = Some e
   \/ Exists (fun wt => controller_Watch lib wt = Some e)
             (dhInformerWatches vsystemCaBundleSecretName MkDataHubGvr ns))
  /\ chans w' = chans w /\ ctxs w' = ctxs w
  /\ exists tr, trace w' = trace w ++ tr /\ countEvents isFactoryStart tr = 0.
Proof.
  intros H. unfold dhInformerWatches. unfold_in H. split_calls H.
  1-5: injection H as <- <- <-; cbn [chans ctxs trace]; rewrite <- ?app_assoc.
  - split; [by left|]. repeat split. exists []. by rewrite app_nil_r.
  - split; [right; by apply Exists_cons_hd|]. repeat split. by eexists.
  - split; [right; by apply Exists_cons_tl, Exists_cons_hd|]. repeat split. by eexists.
  - split; [right; by apply Exists_cons_tl, Exists_cons_tl, Exists_cons_hd|].
    repeat split. by eexists.
  - split; [right; by apply Exists_cons_tl, Exists_cons_tl, Exists_cons_tl, Exists_cons_hd|].
    repeat split. by eexists.
  - match type of H with context [startFactories ?c0 ?k0 ?w0] =>
      destruct (startFactories_not_stuck c0 k0 w0) as (cS & wS & Hsf); rewrite Hsf in H
    end.
    discriminate.
Qed.

Lemma manageDhNamespace_success c k ns w c' w' :
  manageDhNamespace vsystemCaBundleSecretName MkDataHubGvr lib c k ns w = Ret (None, c') w' ->
  kubernetes_NewForConfig lib (GetConfig (mgr c)) = None
  /\ csroute_NewForConfig lib (GetConfig (mgr c)) = None
  /\ dynamic_NewForConfig lib (GetConfig (mgr c)) = None
  /\ Forall (fun wt => controller_Watch lib wt = None)
            (dhInformerWatches vsystemCaBundleSecretName MkDataHubGvr ns).
Proof.
  intros H. unfold dhInformerWatches. unfold_in H. split_calls H.
  repeat split; try assumption. repeat constructor; assumption.
Qed.

Lemma manageDhNamespace_runs c k ns w :
  kubernetes_NewForConfig lib (GetConfig (mgr c)) = None ->
  csroute_NewForConfig lib (GetConfig (mgr c)) = None ->
  dynamic_NewForConfig lib (GetConfig (mgr c)) = None ->
  Forall (fun wt => controller_Watch lib wt = None)
         (dhInformerWatches vsystemCaBundleSecretName MkDataHubGvr ns) ->
  exists c' w',
    manageDhNamespace vsystemCaBundleSecretName MkDataHubGvr lib c k ns w = Ret (None, c') w'.
Proof.
  intros H1 H2 H3 HF. unfold dhInformerWatches in HF.
  repeat (apply Forall_cons in HF as [? HF]).
  cbv [manageDhNamespace Watch NewForConfigOrDie bind ret emit panic appendFactory].
  cbn [Controller mgr unstartedFactories cancels chanReconcileObs isStarted
       ctrlName ctrlReconciler startWatches chans ctxs trace].
  rewrite H1, H2, H3.
  repeat match goal with Hw : controller_Watch lib _ = None |- _ => rewrite Hw; clear Hw end.
  match goal with |- context [startFactories ?c0 ?k0 ?w0] =>
    destruct (startFactories_not_stuck c0 k0 w0) as (cS & wS & Hsf); rewrite Hsf
  end.
  by eexists _, _.
Qed.

(** ** Outcomes of a construction *)

Lemma insert_last {A} (l : list A) (x y : A) : <[length l := y]> (l ++ [x]) = l ++ [y].
Proof. rewrite insert_app_r_alt by lia. by rewrite Nat.sub_diag. Qed.

(** The construction, as far as it does not depend on what
    [manageDhNamespace] does. *)
Lemma NewManagedDhController_unfold (cl : @Client Cluster) sch nm ns m w :
  NewManagedDhController vsystemCaBundleSecretName MkDataHubGvr lib cl sch nm ns m w
  = match controller_NewUnmanaged lib (controllerName nm) m with
    | Some err => Ret (inr err) w
    | None =>
      match controller_Watch lib
              (mkWatch (SourceChannel (length (chans w)) (length (ctxs w))) []) with
      | Some err =>
          Ret (inr err)
              (mkWorld (chans w ++ [mkChan 0 [] false false []]) (ctxs w ++ [true])
                       (trace w ++ [EvCancel (length (ctxs w))]))
      | None =>
        match manageDhNamespace vsystemCaBundleSecretName MkDataHubGvr lib
                (mkDhController
                   (mkUnmanaged (controllerName nm) (mkReconciler cl sch nm ns)
                      [mkWatch (SourceChannel (length (chans w)) (length (ctxs w))) []])
                   m [] [length (ctxs w)] (length (chans w)) false)
                (length (ctxs w)) ns
                (mkWorld (chans w ++ [mkChan 0 [] false false []]) (ctxs w ++ [false])
                   (trace w ++ [EvWatch (mkWatch (SourceChannel (length (chans w))
                                                                (length (ctxs w))) [])]))
        with
        | Ret (Some err, _) w2 =>
            Ret (inr err)
                (mkWorld (chans w2) (<[length (ctxs w) := true]> (ctxs w2))
                         (trace w2 ++ [EvCancel (length (ctxs w))]))
        | Ret (None, c) w2 => Ret (inl c) w2
        | Panic p => Panic p
        | Blocked => Blocked
        end
      end
    end.
Proof.
  unfold NewManagedDhController.
  destruct (controller_NewUnmanaged lib (controllerName nm) m); [reflexivity|].
  cbv [bind makeChan WithCancel Watch emit ret callCancel appendCancel].
  cbn [Controller mgr unstartedFactories cancels chanReconcileObs isStarted
       ctrlName ctrlReconciler startWatches chans ctxs trace].
  destruct (controller_Watch lib _).
  - cbn. by rewrite insert_last.
  - cbn [app]. destruct (manageDhNamespace _ _ _ _ _ _ _) as [[[e|] c1] w1| |]; reflexivity.
Qed.

(** X2.  A construction succeeds exactly when every library call it makes
    succeeds: making the unmanaged controller, the watch on the notification
    channel, the three clients and the four informer watches. *)
Theorem construction_succeeds_iff (cl : @Client Cluster) sch nm ns m w :
  (exists c w',
     NewManagedDhController vsystemCaBundleSecretName MkDataHubGvr lib cl sch nm ns m w
     = Ret (inl c) w')
  <-> constructionCallsSucceed vsystemCaBundleSecretName MkDataHubGvr lib nm ns m w.
Proof.
  rewrite NewManagedDhController_unfold. unfold constructionCallsSucceed. split.
  - intros (c & w' & H).
    destruct (controller_NewUnmanaged lib _ m); [discriminate|].
    destruct (controller_Watch lib (mkWatch (SourceChannel _ _) [])); [discriminate|].
    destruct (manageDhNamespace _ _ _ _ _ _ _) as [[[e|] c1] w1| |] eqn:HM; try discriminate.
    apply manageDhNamespace_success in HM as (? & ? & ? & ?). by repeat split.
  - intros (H1 & H2 & H3 & H4 & H5 & HF). rewrite H1, H2.
    match goal with |- context [manageDhNamespace _ _ lib ?c0 ?k0 ns ?w0] =>
      destruct (manageDhNamespace_runs c0 k0 ns w0 H3 H4 H5 HF) as (c' & w' & HM); rewrite HM
    end.
    by eexists _, _.
Qed.

(** X3.  A construction never blocks, and it panics only with the error of the
    route client or of the dynamic client, whose construction is the one
    that dies on an error. *)
Theorem construction_never_blocks (cl : @Client Cluster) sch nm ns m w :
  NewManagedDhController vsystemCaBundleSecretName MkDataHubGvr lib cl sch nm ns m w <> Blocked
  /\ forall p,
       NewManagedDhController vsystemCaBundleSecretName MkDataHubGvr lib cl sch nm ns m w
       = Panic p ->
       exists e, p = PanicError e
                 /\ kubernetes_NewForConfig lib (GetConfig m) = None
                 /\ (csroute_NewForConfig lib (GetConfig m) = Some e
                     \/ (csroute_NewForConfig lib (GetConfig m) = None
                         /\ dynamic_NewForConfig lib (GetConfig m) = Some e)).
Proof.
  rewrite NewManagedDhController_unfold.
  destruct (controller_NewUnmanaged lib _ m); [by split|].
  destruct (controller_Watch lib (mkWatch (SourceChannel _ _) [])); [by split|].
  destruct (manageDhNamespace _ _ _ _ _ _ _) as [[[e|] c1] w1| |] eqn:HM; try by split.
  - split; [done|]. intros p' [= <-]. by apply manageDhNamespace_panic in HM.
  - by apply manageDhNamespace_not_blocked in HM.
Qed.

(** X4.  A construction that returns an error returns an error of one of its
    library calls and leaves nothing running: either the unmanaged
    controller could not be made and the world is as before, or the channel
    and the context made for the controller are left behind with the
    context cancelled, as the last thing done, and no informer factory
    started. *)
Theorem construction_error_cleans_up (cl : @Client Cluster) sch nm ns m w err w' :
  NewManagedDhController vsystemCaBundleSecretName MkDataHubGvr lib cl sch nm ns m w
  = Ret (inr err) w' ->
  libraryError vsystemCaBundleSecretName MkDataHubGvr lib nm ns m w err
  /\ ((controller_NewUnmanaged lib (controllerName nm) m = Some err /\ w' = w)
      \/ (chans w' = chans w ++ [mkChan 0 [] false false []]
          /\ ctxs w' = ctxs w ++ [true]
          /\ countEvents isFactoryStart (eventsSince w w') = 0
          /\ last (trace w') = Some (EvCancel (length (ctxs w))))).
Proof.
  rewrite NewManagedDhController_unfold. unfold libraryError.
  destruct (controller_NewUnmanaged lib _ m) eqn:H1.
  { intros [= <- <-]. split; [by left|]. by left. }
  destruct (controller_Watch lib (mkWatch (SourceChannel _ _) [])) eqn:H2.
  { intros [= <- <-]. split; [right; by left|]. right. cbn [chans ctxs trace].
    repeat split.
    - by erewrite eventsSince_app by reflexivity.
    - by rewrite last_snoc. }
  destruct (manageDhNamespace _ _ _ _ _ _ _) as [[[e|] c1] w1| |] eqn:HM; try discriminate.
  intros [= <- <-].
  apply manageDhNamespace_error in HM as (Herr & Hch & Hctx & tr & Htr & Hcount).
  cbn [mgr chans ctxs trace] in *. split.
  { right. right. destruct Herr as [?|?]; [by left|by right]. }
  right. rewrite Hch, Hctx, insert_last. repeat split.
  - erewrite eventsSince_app by (cbn [trace]; rewrite Htr, <- !app_assoc; reflexivity).
    rewrite !countEvents_app, Hcount. reflexivity.
  - by rewrite last_snoc.
Qed.

(** ** Several controllers in one world *)

Lemma manageDhNamespace_frame c k ns w r c' w' :
  manageDhNamespace vsystemCaBundleSecretName MkDataHubGvr lib c k ns w = Ret (r, c') w' ->
  chans w' = chans w /\ ctxs w' = ctxs w.
Proof.
  intros H. unfold_in H. split_calls H.
  1-5: by injection H as <- <- <-.
  match type of H with context [startFactories ?c0 ?k0 ?w0] =>
    destruct (startFactories_not_stuck c0 k0 w0) as (cS & wS & Hsf);
    rewrite Hsf in H; apply startFactories_ret in Hsf as (_ & Hch & Hctx)
  end.
  injection H as <- <- <-. by rewrite Hch, Hctx.
Qed.

Lemma NewManagedDhController_frame (cl : @Client Cluster) sch nm ns m w r w' :
  NewManagedDhController vsystemCaBundleSecretName MkDataHubGvr lib cl sch nm ns m w
  = Ret r w' ->
  w' = w
  \/ (chans w' = chans w ++ [mkChan 0 [] false false []]
      /\ exists b, ctxs w' = ctxs w ++ [b]).
Proof.
  rewrite NewManagedDhController_unfold.
  destruct (controller_NewUnmanaged lib _ m); [intros [= <- <-]; by left|].
  destruct (controller_Watch lib (mkWatch (SourceChannel _ _) [])).
  { intros [= <- <-]. right. split; [reflexivity|by eexists]. }
  destruct (manageDhNamespace _ _ _ _ _ _ _) as [[[e|] c1] w1| |] eqn:HM; try discriminate.
  all: apply manageDhNamespace_frame in HM as [Hch Hctx]; cbn [chans ctxs] in *.
  all: intros [= <- <-]; right; cbn [chans ctxs]; rewrite Hch, Hctx.
  - rewrite insert_last. split; [reflexivity|by eexists].
  - split; [reflexivity|by eexists].
Qed.

(** X5.  A later construction, whether it succeeds or fails, leaves an earlier
    controller as it was: the earlier notification channel is still open and
    empty, its context is not cancelled, and a new controller gets a channel
    and a cancel function of its own. *)
Theorem constructions_do_not_interfere (cl1 cl2 : @Client Cluster)
    sch1 nm1 ns1 m1 sch2 nm2 ns2 m2 w0 c1 w1 r2 w2 :
  NewManagedDhController vsystemCaBundleSecretName MkDataHubGvr lib cl1 sch1 nm1 ns1 m1 w0
  = Ret (inl c1) w1 ->
  NewManagedDhController vsystemCaBundleSecretName MkDataHubGvr lib cl2 sch2 nm2 ns2 m2 w1
  = Ret r2 w2 ->
  chans w2 !! chanReconcileObs c1 = Some (mkChan 0 [] false false [])
  /\ (forall k, k ∈ cancels c1 -> ctxs w2 !! k = Some false)
  /\ (forall c2, r2 = inl c2 ->
        chanReconcileObs c2 <> chanReconcileObs c1
        /\ forall k, k ∈ cancels c2 -> k ∉ cancels c1).
Proof.
  intros H1 H2.
  pose proof (NewManagedDhController_frame _ _ _ _ _ _ _ _ H2) as Hframe.
  pose proof H1 as Hok. apply NewManagedDhController_ok in Hok as [-> ->].
  cbn [chanReconcileObs cancels chans ctxs] in *.
  assert (Hc1 : (chans w0 ++ [mkChan 0 [] false false []]) !! length (chans w0)
                = Some (mkChan 0 [] false false [])) by by rewrite list_lookup_middle.
  assert (Hk1 : (ctxs w0 ++ [false]) !! length (ctxs w0) = Some false)
    by by rewrite list_lookup_middle.
  split; [|split].
  - destruct Hframe as [->|[-> _]]; [exact Hc1|].
    by rewrite lookup_app_l by (rewrite length_app; cbn; lia).
  - intros k Hk. apply list_elem_of_singleton in Hk as ->.
    destruct Hframe as [->|[_ [b ->]]]; [exact Hk1|].
    by rewrite lookup_app_l by (rewrite length_app; cbn; lia).
  - intros c2 ->. apply NewManagedDhController_ok in H2 as [-> _].
    cbn [chanReconcileObs cancels chans ctxs]. rewrite !length_app. cbn [length].
    split; [lia|]. intros k Hk Hk'.
    apply list_elem_of_singleton in Hk, Hk'. lia.
Qed.

Lemma cancelAll_other ks (cs : list bool) k :
  k ∉ ks -> cancelAll ks cs !! k = cs !! k.
Proof.
  revert cs. induction ks as [|k' ks IH]; intros cs Hk; [done|].
  apply not_elem_of_cons in Hk as [Hne Hk]. cbn.
  unfold cancelAll in IH. rewrite IH by done. by rewrite list_lookup_insert_ne.
Qed.

Lemma Stop_ret c w w' :
  Stop c w = Ret tt w' ->
  exists chn,
    chans w !! chanReconcileObs c = Some chn /\ chClosed chn = false
    /\ w' = mkWorld (<[chanReconcileObs c := closedChan chn]> (chans w))
                    (cancelAll (cancels c) (ctxs w))
                    (trace w ++ EvClose (chanReconcileObs c) :: map EvCancel (cancels c)).
Proof.
  intros H. destruct (chans w !! chanReconcileObs c) as [chn|] eqn:Hch.
  - destruct (chClosed chn) eqn:Hcl.
    + by rewrite (Stop_closed c w chn Hch Hcl) in H.
    + rewrite (Stop_open c w chn Hch Hcl) in H. injection H as <-. by exists chn.
  - unfold Stop, StopSteps in H. cbn [runSteps execStep] in H.
    unfold bind, chanClose in H. by rewrite Hch in H.
Qed.

(** X6.  [Stop] touches nothing but its own controller's channel and contexts:
    every other channel and every context that is not among the
    controller's cancel functions is as before, and no channel or context
    appears or disappears. *)
Theorem Stop_leaves_the_rest c w w' :
  Stop c w = Ret tt w' ->
  (forall ch, ch <> chanReconcileObs c -> chans w' !! ch = chans w !! ch)
  /\ (forall k, k ∉ cancels c -> ctxs w' !! k = ctxs w !! k)
  /\ length (chans w') = length (chans w)
  /\ length (ctxs w') = length (ctxs w).
Proof.
  intros H. apply Stop_ret in H as (chn & Hch & Hopen & ->). cbn [chans ctxs].
  split; [|split; [|split]].
  - intros ch Hne. by rewrite list_lookup_insert_ne.
  - intros k Hk. by apply cancelAll_other.
  - apply length_insert.
  - apply cancelAll_length.
Qed.

(** ** The whole life of a controller *)

Lemma StartTimes_ret n c ctx w :
  exists cn wn,
    StartTimes n c ctx w = Ret cn wn
    /\ cancels cn = cancels c ++ seq (length (ctxs w)) n
    /\ chanReconcileObs cn = chanReconcileObs c
    /\ chans wn = chans w
    /\ ctxs wn = ctxs w ++ replicate n false
    /\ exists tr, trace wn = trace w ++ tr
                  /\ forall f k, EvFactoryStart f k ∈ tr -> k = length (ctxs w) /\ 0 < n.
Proof.
  destruct n as [|n].
  - exists c, w. cbn. rewrite !app_nil_r. repeat split. exists [].
    rewrite app_nil_r. split; [done|]. intros f k H. by apply elem_of_nil in H.
  - rewrite StartTimes_eq. eexists _, _. split; [reflexivity|].
    cbn [cancels chanReconcileObs chans ctxs trace]. repeat split.
    eexists. split; [reflexivity|]. intros f k H.
    apply elem_of_cons in H as [?|H]; [discriminate|].
    apply elem_of_app in H as [H|H].
    + apply list_elem_of_fmap in H as (f' & [= _ ->] & _). split; [done|lia].
    + apply list_elem_of_fmap in H as (? & ? & _). discriminate.
Qed.

(** X7.  [Stop] undoes what the construction and any number of [Start] calls
    have set up: it returns, the notification channel is closed, every
    context made for the controller (the one of the channel source and one
    per [Start]) is cancelled, so is the stop channel of every informer
    factory that was started, and the contexts that existed before are as
    they were. *)
Theorem Stop_cancels_all_contexts (cl : @Client Cluster) sch nm ns m w c w1 n ctx cn wn :
  NewManagedDhController vsystemCaBundleSecretName MkDataHubGvr lib cl sch nm ns m w
  = Ret (inl c) w1 ->
  StartTimes n c ctx w1 = Ret cn wn ->
  exists wf,
    Stop cn wn = Ret tt wf
    /\ length (ctxs wf) = length (ctxs w) + 1 + n
    /\ (forall k, length (ctxs w) <= k < length (ctxs wf) -> ctxs wf !! k = Some true)
    /\ (forall k, k < length (ctxs w) -> ctxs wf !! k = ctxs w !! k)
    /\ (forall f k, EvFactoryStart f k ∈ eventsSince w wf -> ctxs wf !! k = Some true)
    /\ exists chn, chans wf !! chanReconcileObs cn = Some chn /\ chClosed chn = true.
Proof.
  intros Hnew Hstart. apply NewManagedDhController_ok in Hnew as [-> ->].
  match type of Hstart with StartTimes n ?c0 ctx ?w0 = _ =>
    destruct (StartTimes_ret n c0 ctx w0) as
      (cn' & wn' & Hst & Hcancels & Hchan & Hchans & Hctxs & tr & Htr & Hstarts)
  end.
  rewrite Hst in Hstart. injection Hstart as <- <-.
  cbn [cancels chanReconcileObs chans ctxs trace] in Hcancels, Hchan, Hchans, Hctxs, Htr, Hstarts.
  rewrite length_app in Hcancels. cbn [length] in Hcancels.
  setoid_rewrite length_app in Hstarts. cbn [length] in Hstarts.
  assert (Hlook : chans wn' !! chanReconcileObs cn' = Some (mkChan 0 [] false false [])).
  { rewrite Hchans, Hchan. by rewrite list_lookup_middle. }
  rewrite (Stop_open cn' wn' _ Hlook eq_refl). eexists. split; [reflexivity|].
  cbn [chans ctxs trace].
  assert (Hlen : length (ctxs wn') = length (ctxs w) + 1 + n).
  { rewrite Hctxs, !length_app, length_replicate. cbn. lia. }
  assert (Hall : forall k, length (ctxs w) <= k < length (ctxs w) + 1 + n ->
                           cancelAll (cancels cn') (ctxs wn') !! k = Some true).
  { intros k Hk. apply cancelAll_cancels; [|lia].
    rewrite Hcancels. change ([length (ctxs w)] ++ ?l) with (length (ctxs w) :: l).
    destruct (decide (k = length (ctxs w))) as [->|Hne]; [left|right].
    apply elem_of_seq. lia. }
  split; [by rewrite cancelAll_length|]. split; [|split; [|split]].
  - intros k Hk. rewrite cancelAll_length in Hk. apply Hall. lia.
  - intros k Hk. rewrite cancelAll_other.
    + rewrite Hctxs, <- app_assoc. by rewrite lookup_app_l.
    + rewrite Hcancels. intros Hin. apply elem_of_app in Hin as [Hin|Hin].
      * apply list_elem_of_singleton in Hin. lia.
      * apply elem_of_seq in Hin. lia.
  - intros f k Hin.
    erewrite eventsSince_app in Hin by (cbn [trace]; rewrite Htr, <- !app_assoc; reflexivity).
    repeat (apply elem_of_cons in Hin as [?|Hin]; [discriminate|]).
    apply elem_of_app in Hin as [Hin|Hin].
    + destruct (Hstarts f k Hin) as [-> Hn]. apply Hall. lia.
    + apply elem_of_cons in Hin as [?|Hin]; [discriminate|].
      apply list_elem_of_fmap in Hin as (? & ? & _). discriminate.
  - eexists. split; [apply list_lookup_insert_eq; by eapply lookup_lt_Some|reflexivity].
Qed.

(** X8.  A stopped controller can still be started: after [Stop], [Start]
    returns nil, executes its go statement under a fresh context that is not
    cancelled and keeps the cancel function of that context.  No further
    [Stop] can call that cancel function: every further [Stop] panics on the
    closed channel in its first step, before it calls any cancel function,
    and leaves the world, with the fresh context not cancelled, as it found
    it. *)
Theorem Start_after_Stop c ctx w w1 :
  Stop c w = Ret tt w1 ->
  exists c2 w2,
    Start c ctx w1 = Ret (None, c2) w2
    /\ EvGoControllerStart (length (ctxs w)) ∈ eventsSince w1 w2
    /\ ctxs w2 !! length (ctxs w) = Some false
    /\ length (ctxs w) ∈ cancels c2
    /\ Stop c2 w2 = Panic PanicCloseOfClosed
    /\ stepsReach (StopSteps c2) w2 = w2
    /\ runSchedule [0] (mkPool [StopSteps c2] w2) = Crashed PanicCloseOfClosed
    /\ (forall n, StopTimes (S n) c2 w2 = Panic PanicCloseOfClosed).
Proof.
  intros H. apply Stop_ret in H as (chn & Hch & Hopen & ->).
  rewrite Start_eq. eexists _, _. split; [reflexivity|].
  cbn [chans ctxs trace cancels chanReconcileObs]. rewrite cancelAll_length.
  assert (Hlook : <[chanReconcileObs c := closedChan chn]> (chans w) !! chanReconcileObs c
                  = Some (closedChan chn)).
  { apply list_lookup_insert_eq. by eapply lookup_lt_Some. }
  split; [|split; [|split; [|split; [|split; [|split]]]]].
  - erewrite eventsSince_app by reflexivity. left.
  - rewrite <- (cancelAll_length (cancels c) (ctxs w)). by rewrite list_lookup_middle.
  - apply elem_of_app. right. left.
  - eapply Stop_closed; cbn [chans chanReconcileObs]; [exact Hlook|reflexivity].
  - eapply Stop_closed_first_step; cbn [chans chanReconcileObs]; [exact Hlook|reflexivity].
  - eapply Stop_closed_first_step; cbn [chans chanReconcileObs]; [exact Hlook|reflexivity].
  - intros n. cbn [StopTimes]. unfold bind.
    erewrite Stop_closed; [reflexivity| |]; cbn [chans chanReconcileObs];
      [exact Hlook|reflexivity].
Qed.

(** ** Notifications in a row *)

(** X9.  With a consumer on the open notification channel, a series of
    [ReconcileObs] calls hands the observers over in the order of the calls,
    each exactly once, and changes nothing else in the world. *)
Theorem ReconcileObsAll_in_order c (objs : list SdiObserver) w chn :
  chans w !! chanReconcileObs c = Some chn -> chClosed chn = false -> chConsumer chn = true ->
  ReconcileObsAll c objs w
  = Ret tt (mkWorld (<[chanReconcileObs c :=
                        mkChan (chCap chn) (chBuf chn) false true
                               (chDelivered chn ++ map mkGenericEvent objs)]> (chans w))
                    (ctxs w) (trace w)).
Proof.
  revert w chn. induction objs as [|obs objs IH]; intros w chn Hch Hopen Hcons.
  - cbn. unfold ret. rewrite app_nil_r. rewrite list_insert_id.
    + by destruct w.
    + transitivity (Some chn); [exact Hch|]. destruct chn; cbn in *. by subst.
  - unfold ReconcileObsAll in *. cbn [forEach]. unfold bind at 1.
    rewrite (ReconcileObs_handoff c obs w chn Hch Hopen Hcons).
    rewrite (IH _ (handedOff chn (mkGenericEvent obs))); cbn [chans ctxs trace].
    + rewrite list_insert_insert_eq. unfold handedOff. cbn.
      by rewrite <- app_assoc.
    + apply list_lookup_insert_eq. by eapply lookup_lt_Some.
    + reflexivity.
    + reflexivity.
Qed.

(** ** [manageDhNamespace] on a started controller *)

(** X10.  On a controller that has been started, [manageDhNamespace] that returns
    no error has registered the four watches and then started every pending
    informer factory at once, the older ones first, with the stop channel of
    the context it was given; no factory is left unstarted. *)
Theorem manageDhNamespace_started_starts_factories c k ns w c' w' :
  isStarted c = true ->
  manageDhNamespace vsystemCaBundleSecretName MkDataHubGvr lib c k ns w = Ret (None, c') w' ->
  unstartedFactories c' = []
  /\ isStarted c' = true
  /\ startWatches (Controller c')
     = startWatches (Controller c)
       ++ dhInformerWatches vsystemCaBundleSecretName MkDataHubGvr ns
  /\ eventsSince w w'
     = manageDhNamespaceLog
       :: map EvWatch (dhInformerWatches vsystemCaBundleSecretName MkDataHubGvr ns)
       ++ map (fun f => EvFactoryStart f k) (unstartedFactories c ++ dhFactories ns).
Proof.
  intros Hs H. unfold_in H. split_calls H.
  rewrite startFactories_started in H by (cbn [isStarted]; exact Hs).
  injection H as <- <-.
  cbn [Controller mgr unstartedFactories cancels chanReconcileObs isStarted
       ctrlName ctrlReconciler startWatches chans ctxs trace].
  split; [reflexivity|]. split; [reflexivity|]. split.
  - by rewrite <- !app_assoc.
  - erewrite eventsSince_app; [reflexivity|].
    cbn [trace]. rewrite <- !app_assoc. reflexivity.
Qed.

(** ** The other paths of [Reconcile] *)

(** X11.  On every path [Reconcile] returns the zero result: it never asks for a
    requeue by itself, and the request is queued again exactly when an
    error is returned. *)
Theorem Reconcile_requeues_iff_error (r : @managedDhReconciler Cluster) req cl :
  fst (fst (fst (Reconcile manageVsystemRoute r req cl))) = zeroResult
  /\ (requeues (fst (fst (Reconcile manageVsystemRoute r req cl))) = true
      <-> snd (fst (fst (Reconcile manageVsystemRoute r req cl))) <> None).
Proof.
  assert (Hcase : forall (err : option error),
            requeues (zeroResult, err) = true <-> err <> None).
  { intros [e'|]; split.
    - discriminate.
    - reflexivity.
    - vm_compute. discriminate.
    - by intros []. }
  unfold Reconcile.
  destruct (Get (client r) (namespacedName r) cl) as [obs|e].
  - destruct (manageVsystemRoute _ _ _ _ _ _) as [cl' err]. cbn [fst snd].
    split; [reflexivity|apply Hcase].
  - destruct (IsNotFound e); cbn [negb].
    + destruct (manageVsystemRoute _ _ _ _ _ _) as [cl' err]. cbn [fst snd].
      split; [reflexivity|apply Hcase].
    + cbn [fst snd]. split; [reflexivity|apply Hcase].
Qed.

(** X12.  [Reconcile] does not look at the request: whatever object triggered it,
    it reads the observer named at construction and returns the same result
    and the same cluster; the request only shows in the first log line. *)
Theorem Reconcile_ignores_request (r : @managedDhReconciler Cluster) req1 req2 cl :
  fst (Reconcile manageVsystemRoute r req1 cl) = fst (Reconcile manageVsystemRoute r req2 cl)
  /\ tail (snd (Reconcile manageVsystemRoute r req1 cl))
     = tail (snd (Reconcile manageVsystemRoute r req2 cl)).
Proof.
  unfold Reconcile.
  destruct (Get (client r) (namespacedName r) cl) as [obs|e].
  - by destruct (manageVsystemRoute _ _ _ _ _ _) as [cl' err].
  - destruct (IsNotFound e); cbn [negb]; [|done].
    by destruct (manageVsystemRoute _ _ _ _ _ _) as [cl' err].
Qed.

End ManagedDhMore.


(** * Properties of the operator's entry point *)

Module OperatorMainFacts.
Import OperatorMain.

Lemma length_zero_iff_empty (s : string) : Nat.eqb (String.length s) 0 = true <-> s = "".
Proof. destruct s; cbn; split; congruence. Qed.

Lemma length_zero_false_iff (s : string) : Nat.eqb (String.length s) 0 = false <-> s <> "".
Proof. destruct s; cbn; split; congruence. Qed.

(** X13.  [main] logs the missing namespace as fatal and exits with status 1
    before it asks for a configuration or creates a manager exactly when
    there is no namespace, neither from the [-namespace] flag nor from the
    NAMESPACE variable; the other flags and variables play no part. *)
Theorem main_requires_namespace env args rt :
  main env args rt = ([LogError missingNamespace "fatal"], Exited 1)
  <-> flagVar (argNamespace args) (Getenv env namespaceEnvVar) = "".
Proof.
  unfold main.
  destruct (Nat.eqb (String.length (flagVar (argNamespace args) (Getenv env namespaceEnvVar))) 0)
    eqn:Hn.
  - apply length_zero_iff_empty in Hn. by split.
  - apply length_zero_false_iff in Hn. split; [|done].
    intros H. exfalso. revert H. repeat case_match; discriminate.
Qed.

(** X14.  A namespace flag given on the command line overrides its environment
    variable: two environments that agree on the variables whose flags are
    not given lead to the same run. *)
Theorem main_flags_override_environment env1 env2 args rt :
  sameWhereUnset args env1 env2 -> main env1 args rt = main env2 args rt.
Proof.
  intros (Hns & Hsdi & Hslcb). unfold main, flagVar.
  destruct (argNamespace args), (argSdiNamespace args), (argSlcbNamespace args); cbn [default];
    rewrite ?Hns, ?Hsdi, ?Hslcb by reflexivity; reflexivity.
Qed.

(** X15.  When [main] gets as far as creating the manager, the namespace is not
    empty; the manager gets the default cache exactly when both the SDI and
    the SLCB namespace are given, and otherwise a multi-namespace cache over
    the three namespaces, one of which is then the empty namespace. *)
Theorem main_cache_namespaces env args rt opts :
  managerOptions (main env args rt) = Some opts ->
  flagVar (argNamespace args) (Getenv env namespaceEnvVar) <> ""
  /\ (NewCache opts = None
      <-> flagVar (argSdiNamespace args) (Getenv env sdiNamespaceEnvVar) <> ""
          /\ flagVar (argSlcbNamespace args) (Getenv env slcbNamespaceEnvVar) <> "")
  /\ (forall l, NewCache opts = Some (MultiNamespacedCacheBuilder l) ->
        l = [flagVar (argNamespace args) (Getenv env namespaceEnvVar);
             flagVar (argSdiNamespace args) (Getenv env sdiNamespaceEnvVar);
             flagVar (argSlcbNamespace args) (Getenv env slcbNamespaceEnvVar)]
        /\ "" ∈ l).
Proof.
  unfold managerOptions, main.
  set (ns := flagVar (argNamespace args) (Getenv env namespaceEnvVar)).
  set (sdi := flagVar (argSdiNamespace args) (Getenv env sdiNamespaceEnvVar)).
  set (slcb := flagVar (argSlcbNamespace args) (Getenv env slcbNamespaceEnvVar)).
  destruct (Nat.eqb (String.length ns) 0) eqn:Hns; [discriminate|].
  apply length_zero_false_iff in Hns.
  intros H.
  assert (Hopts : NewCache opts
                  = if Nat.eqb (String.length sdi) 0 || Nat.eqb (String.length slcb) 0
                    then Some (MultiNamespacedCacheBuilder [ns; sdi; slcb]) else None).
  { repeat case_match; simplify_eq/=; reflexivity. }
  clear H. split; [exact Hns|]. rewrite Hopts.
  destruct (Nat.eqb (String.length sdi) 0) eqn:Hsdi;
    [apply length_zero_iff_empty in Hsdi|apply length_zero_false_iff in Hsdi];
    (destruct (Nat.eqb (String.length slcb) 0) eqn:Hslcb;
     [apply length_zero_iff_empty in Hslcb|apply length_zero_false_iff in Hslcb]);
    cbn [orb].
  - split; [split; [discriminate|intros [H _]; destruct (H Hsdi)]|].
    intros l [= <-]. split; [reflexivity|]. rewrite Hsdi. right. left.
  - split; [split; [discriminate|intros [H _]; destruct (H Hsdi)]|].
    intros l [= <-]. split; [reflexivity|]. rewrite Hsdi. right. left.
  - split; [split; [discriminate|intros [_ H]; destruct (H Hslcb)]|].
    intros l [= <-]. split; [reflexivity|]. rewrite Hslcb. right. right. left.
  - split; [by split|]. discriminate.
Qed.

(** X16.  Once the command line is parsed, [main] either returns or exits
    with status 1, never with another status.  It returns exactly when the
    namespace is given and every step succeeds: the configuration, the
    manager, the set-up of the reconciler, the two health checks and the run
    of the manager. *)
Theorem main_exit_status env args rt :
  (snd (main env args rt) = Returned \/ snd (main env args rt) = Exited 1)
  /\ (snd (main env args rt) = Returned
      <-> flagVar (argNamespace args) (Getenv env namespaceEnvVar) <> ""
          /\ ctrl_GetConfig rt = None
          /\ (exists opts, managerOptions (main env args rt) = Some opts
                           /\ ctrl_NewManager rt opts = None)
          /\ reconciler_SetupWithManager rt = None
          /\ mgr_AddHealthzCheck rt "healthz" = None
          /\ mgr_AddReadyzCheck rt "readyz" = None
          /\ mgr_Start rt = None).
Proof.
  unfold managerOptions, main.
  set (ns := flagVar (argNamespace args) (Getenv env namespaceEnvVar)).
  destruct (Nat.eqb (String.length ns) 0) eqn:Hns.
  { apply length_zero_iff_empty in Hns. cbn. split; [by right|].
    split; [discriminate|]. by intros [? _]. }
  apply length_zero_false_iff in Hns.
  destruct (ctrl_GetConfig rt) eqn:H1.
  { cbn. split; [by right|]. split; [discriminate|]. by intros (_ & ? & _). }
  destruct (ctrl_NewManager rt _) eqn:H2.
  { cbn. split; [by right|]. split; [discriminate|].
    intros (_ & _ & (opts & [= <-] & Hn) & _). congruence. }
  destruct (reconciler_SetupWithManager rt) eqn:H3.
  { cbn. split; [by right|]. split; [discriminate|]. by intros (_ & _ & _ & ? & _). }
  destruct (mgr_AddHealthzCheck rt "healthz") eqn:H4.
  { cbn. split; [by right|]. split; [discriminate|]. by intros (_ & _ & _ & _ & ? & _). }
  destruct (mgr_AddReadyzCheck rt "readyz") eqn:H5.
  { cbn. split; [by right|]. split; [discriminate|]. by intros (_ & _ & _ & _ & _ & ? & _). }
  destruct (mgr_Start rt) eqn:H6.
  { cbn. split; [by right|]. split; [discriminate|]. by intros (_ & _ & _ & _ & _ & _ & ?). }
  cbn. split; [by left|]. split; [|done]. intros _.
  repeat split; try done. by eexists.
Qed.

(** X17.  The calls of [main] come in one order and stop at the first failure:
    what it calls is an initial part of creating the manager, setting up the
    reconciler, adding the health check, adding the ready check and starting
    the manager.  So the manager is started only after all four set-up
    steps have succeeded. *)
Theorem main_calls_in_order env args rt :
  List.filter isCall (fst (main env args rt)) = []
  \/ exists opts,
       managerOptions (main env args rt) = Some opts
       /\ List.filter isCall (fst (main env args rt))
          `prefix_of` [CallNewManager opts; CallSetupWithManager; CallAddHealthzCheck "healthz";
                       CallAddReadyzCheck "readyz"; CallStart]
       /\ (existsb isStartCall (fst (main env args rt)) = true ->
           ctrl_NewManager rt opts = None
           /\ reconciler_SetupWithManager rt = None
           /\ mgr_AddHealthzCheck rt "healthz" = None
           /\ mgr_AddReadyzCheck rt "readyz" = None).
Proof.
  unfold managerOptions, main.
  destruct (Nat.eqb (String.length _) 0); [by left|].
  destruct (ctrl_GetConfig rt); [by left|].
  right. eexists.
  destruct (ctrl_NewManager rt _) eqn:H2; cbn [fst List.filter isCall existsb isStartCall orb];
    [split; [reflexivity|]; split; [by eexists [_; _; _; _]|discriminate]|].
  destruct (reconciler_SetupWithManager rt) eqn:H3;
    cbn [fst List.filter isCall existsb isStartCall orb];
    [split; [reflexivity|]; split; [by eexists [_; _; _]|discriminate]|].
  destruct (mgr_AddHealthzCheck rt "healthz") eqn:H4;
    cbn [fst List.filter isCall existsb isStartCall orb];
    [split; [reflexivity|]; split; [by eexists [_; _]|discriminate]|].
  destruct (mgr_AddReadyzCheck rt "readyz") eqn:H5;
    cbn [fst List.filter isCall existsb isStartCall orb];
    [split; [reflexivity|]; split; [by eexists [_]|discriminate]|].
  destruct (mgr_Start rt) eqn:H6; cbn [fst List.filter isCall existsb isStartCall orb];
    (split; [reflexivity|]; split; [by eexists []|done]).
Qed.

End OperatorMainFacts.


(** * Properties of the template runner *)

Module ObserverTemplateFacts.
Import Stdlib.Strings.Ascii.
Import ObserverTemplate.

(** ** Shell strings *)

Lemma append_cons (x : ascii) (a b : string) :
  (String x a ++ b)%string = String x (a ++ b)%string.
Proof. reflexivity. Qed.

Lemma append_assoc (a b c : string) : ((a ++ b) ++ c = a ++ (b ++ c))%string.
Proof. induction a as [|x a IH]; [done|]. rewrite !append_cons. by f_equal. Qed.

Lemma append_empty_r (a : string) : (a ++ "")%string = a.
Proof. induction a as [|x a IH]; [done|]. rewrite append_cons. by f_equal. Qed.

Lemma append_eq_empty (a b : string) : (a ++ b)%string = "" -> a = "" /\ b = "".
Proof. destruct a; [done|]. rewrite append_cons. discriminate. Qed.

Lemma lastChar_app (a b : string) : b <> "" -> lastChar (a ++ b) = lastChar b.
Proof.
  intros Hb. induction a as [|x a IH]; [done|].
  rewrite append_cons. cbn [lastChar]. rewrite IH.
  destruct (a ++ b)%string eqn:Heq; [|done].
  by apply append_eq_empty in Heq as [_ ?].
Qed.

Lemma strip_app (a b : string) :
  stripTrailingNewlines b <> "" ->
  stripTrailingNewlines (a ++ b) = (a ++ stripTrailingNewlines b)%string.
Proof.
  intros Hb. induction a as [|x a IH]; [done|].
  rewrite !append_cons. cbn [stripTrailingNewlines]. rewrite IH.
  destruct (a ++ stripTrailingNewlines b)%string eqn:Heq; [|done].
  apply append_eq_empty in Heq as [_ ?]. done.
Qed.

Lemma strip_newline (s : string) :
  stripTrailingNewlines (s ++ String newline "") = stripTrailingNewlines s.
Proof.
  induction s as [|x s IH]; [done|].
  rewrite append_cons. cbn [stripTrailingNewlines]. by rewrite IH.
Qed.

Lemma strip_templateFile (a template : string) :
  stripTrailingNewlines (a ++ templateFile template) = (a ++ templateFile template)%string.
Proof.
  assert (H1 : stripTrailingNewlines (template ++ ".json") = (template ++ ".json")%string).
  { by rewrite strip_app. }
  assert (H2 : stripTrailingNewlines (templateFile template) = templateFile template).
  { unfold templateFile. rewrite strip_app; rewrite H1; [done|].
    intros [_ ?]%append_eq_empty. done. }
  rewrite strip_app; rewrite H2; [done|]. unfold templateFile. discriminate.
Qed.

Lemma allChars_app p (a : string) (x : ascii) (b : string) :
  allChars p (a ++ String x b) = true -> p x = true.
Proof.
  induction a as [|y a IH].
  - cbn. by intros [? _]%andb_prop.
  - rewrite append_cons. cbn [allChars]. intros [_ ?]%andb_prop. auto.
Qed.

Lemma isEchoOption_slash (a b : string) : isEchoOption (a ++ String "/" b) = false.
Proof.
  destruct a as [|x a]; [reflexivity|].
  rewrite append_cons. unfold isEchoOption.
  destruct (Ascii.eqb_spec x "-") as [->|Hx].
  - destruct (a ++ String "/" b)%string as [|y t] eqn:Heq; [reflexivity|].
    destruct (allChars isEchoFlag (String y t)) eqn:Hall; [|reflexivity].
    rewrite <- Heq in Hall. by apply allChars_app in Hall.
  - revert Hx. destruct x as [[] [] [] [] [] [] [] []]; try reflexivity. by intros [].
Qed.

Lemma join_two (a template : string) :
  stripTrailingNewlines (join "/" [a; templateFile template])
  = (a ++ "/" ++ templateFile template)%string.
Proof.
  unfold join, echo. cbn [String.concat].
  change (a ++ "/" ++ templateFile template)%string
    with (a ++ String "/" (templateFile template))%string.
  rewrite (isEchoOption_slash a (templateFile template)).
  rewrite strip_newline.
  change (String "/" (templateFile template)) with ("/" ++ templateFile template)%string.
  rewrite <- append_assoc. by rewrite strip_templateFile.
Qed.

Lemma join_three (a b template : string) :
  stripTrailingNewlines (join "/" [a; b; templateFile template])
  = (a ++ "/" ++ b ++ "/" ++ templateFile template)%string.
Proof.
  unfold join, echo. cbn [String.concat].
  change (a ++ "/" ++ b ++ "/" ++ templateFile template)%string
    with (a ++ String "/" (b ++ "/" ++ templateFile template))%string.
  rewrite (isEchoOption_slash a (b ++ "/" ++ templateFile template)).
  rewrite strip_newline.
  change (a ++ String "/" (b ++ "/" ++ templateFile template))%string
    with (a ++ ("/" ++ (b ++ ("/" ++ templateFile template))))%string.
  rewrite <- !append_assoc. by rewrite strip_templateFile.
Qed.


(** ** Variables *)

Lemma param_insert (vars : gmap string string) (k v : string) :
  param (<[k := v]> vars) k = v.
Proof. unfold param. by rewrite lookup_insert_eq. Qed.

Lemma param_insert_ne (vars : gmap string string) (k k' v : string) :
  k <> k' -> param (<[k := v]> vars) k' = param vars k'.
Proof. intros. unfold param. by rewrite lookup_insert_ne. Qed.

Lemma param_lookup (vars : gmap string string) (k v : string) :
  param vars k = v -> v <> "" -> vars !! k = Some v.
Proof. unfold param. destruct (vars !! k); cbn; congruence. Qed.

Lemma determineRelease_inl vars sys vars' :
  determineRelease vars sys = inl vars' ->
  param vars' "OCP_MINOR_RELEASE" <> ""
  /\ (vars' = vars
      \/ exists v, param vars "OCP_MINOR_RELEASE" = ""
                   /\ ocServerVersion sys = CmdOk v
                   /\ vars' = <["OCP_MINOR_RELEASE" := v]> vars).
Proof.
  unfold determineRelease.
  destruct (String.eqb_spec (param vars "OCP_MINOR_RELEASE") "") as [He|Hne].
  - destruct (ocServerVersion sys) as [v|]; [|discriminate].
    destruct (String.eqb_spec v "") as [|Hv]; cbn; [discriminate|].
    intros [= <-]. rewrite param_insert. split; [done|]. right. by exists v.
  - intros [= <-]. auto.
Qed.

Lemma determineRelease_other vars sys vars' k :
  determineRelease vars sys = inl vars' -> k <> "OCP_MINOR_RELEASE" ->
  vars' !! k = vars !! k.
Proof.
  intros [_ [->|(v & _ & _ & ->)]]%determineRelease_inl Hk; [done|].
  by rewrite lookup_insert_ne.
Qed.

Lemma determineRelease_failure vars sys failure :
  determineRelease vars sys = inr failure ->
  param vars "OCP_MINOR_RELEASE" = ""
  /\ ((exists status, ocServerVersion sys = CmdFailed status /\ failure = ScriptExit status [])
      \/ (ocServerVersion sys = CmdOk "" /\ failure = ScriptExit 1 noServerVersion)).
Proof.
  unfold determineRelease.
  destruct (String.eqb_spec (param vars "OCP_MINOR_RELEASE") "") as [He|Hne]; [|discriminate].
  destruct (ocServerVersion sys) as [v|status].
  - destruct (String.eqb_spec v "") as [->|Hv]; cbn; [|discriminate].
    intros [= <-]. auto.
  - intros [= <-]. split; [done|]. left. by exists status.
Qed.

Lemma chooseAccessMode_other vars sys k :
  k <> "SDI_REGISTRY_VOLUME_ACCESS_MODE" -> chooseAccessMode vars sys !! k = vars !! k.
Proof.
  intros Hk. unfold chooseAccessMode.
  repeat case_match; rewrite ?lookup_insert_ne; done.
Qed.

Lemma checkClient_inl mismatch client release warnings :
  checkClient mismatch client release = inl warnings ->
  ((mismatch = "0" \/ mismatch = "1") /\ warnings = [])
  \/ (mismatch = "2" /\ warnings = clientWarning client release).
Proof.
  unfold checkClient.
  destruct (String.eqb_spec mismatch "0") as [->|]; [intros [= <-]; auto|].
  destruct (String.eqb_spec mismatch "1") as [->|]; [intros [= <-]; auto|].
  destruct (String.eqb_spec mismatch "2") as [->|]; [intros [= <-]; auto|].
  discriminate.
Qed.

Lemma checkClient_inr mismatch client release failure :
  checkClient mismatch client release = inr failure ->
  failure = ScriptExit 1 (clientError client release).
Proof. unfold checkClient. repeat case_match; congruence. Qed.

(** ** The loop over the variables *)

Lemma passedValue_plain sys vars var value :
  var <> "SDI_OBSERVER_REPOSITORY" -> contains "IMAGE_PULL_SPEC" var = false ->
  passedValue sys vars var value = value.
Proof.
  intros Hvar Hc. unfold passedValue.
  destruct (String.eqb_spec var "SDI_OBSERVER_REPOSITORY"); [done|]. by rewrite Hc.
Qed.

Lemma envParam_key sys vars var kv : envParam sys vars var = Some kv -> fst kv = var.
Proof. unfold envParam. repeat case_match; by intros [= <-]. Qed.

Lemma envParam_keys sys vars (envVars : list string) :
  map fst (omap (envParam sys vars) envVars) `sublist_of` envVars.
Proof.
  induction envVars as [|var envVars IH]; cbn; [constructor|].
  destruct (envParam sys vars var) as [kv|] eqn:He; cbn.
  - rewrite (envParam_key _ _ _ _ He). by constructor.
  - by constructor.
Qed.

Lemma replaceFrom_nonempty pat rep s :
  rep <> "" -> s <> "" -> replaceFrom pat rep 0 s <> "".
Proof.
  intros Hrep Hs. destruct s as [|a s]; [done|]. cbn [replaceFrom].
  destruct (String.prefix pat (String a s)); [|discriminate].
  intros [? _]%append_eq_empty. done.
Qed.

Lemma replaceAll_nonempty pat rep s : rep <> "" -> s <> "" -> replaceAll pat rep s <> "".
Proof. intros. unfold replaceAll. destruct pat; [done|]. by apply replaceFrom_nonempty. Qed.

Lemma expandReplacement_nonempty matched rep :
  matched <> "" -> rep <> "" -> expandReplacement matched rep <> "".
Proof.
  intros Hm Hrep. destruct rep as [|a rest]; [done|]. cbn [expandReplacement].
  destruct (Ascii.eqb a ampersand).
  { intros [? _]%append_eq_empty. done. }
  destruct (Ascii.eqb a backslash); [|discriminate].
  destruct rest as [|b rest']; [discriminate|].
  destruct (Ascii.eqb b ampersand || Ascii.eqb b backslash); discriminate.
Qed.

Lemma expandReplacement_plain matched rep :
  isPlain rep = true -> expandReplacement matched rep = rep.
Proof.
  unfold isPlain. induction rep as [|a rest IH]; [done|].
  cbn [allChars expandReplacement]. intros [Ha Hrest]%andb_prop.
  apply negb_true_iff, orb_false_iff in Ha as [-> ->]. by rewrite IH.
Qed.

Lemma substituteAll_nonempty patsub pat rep s :
  pat <> "" -> rep <> "" -> s <> "" -> substituteAll patsub pat rep s <> "".
Proof.
  intros Hpat Hrep Hs. unfold substituteAll. apply replaceAll_nonempty; [|done].
  destruct patsub; [by apply expandReplacement_nonempty|done].
Qed.

Lemma substituteAll_plain patsub pat rep s :
  isPlain rep = true -> substituteAll patsub pat rep s = replaceAll pat rep s.
Proof.
  intros Hplain. unfold substituteAll. destruct patsub; [|done].
  by rewrite expandReplacement_plain.
Qed.

Lemma passedValue_nonempty sys vars var value :
  param vars "OCP_MINOR_RELEASE" <> "" -> value <> "" -> passedValue sys vars var value <> "".
Proof.
  intros Hrel Hv. unfold passedValue. repeat case_match; try done.
  by apply substituteAll_nonempty.
Qed.

Lemma envParam_nonempty sys vars var kv :
  param vars "OCP_MINOR_RELEASE" <> "" -> envParam sys vars var = Some kv -> snd kv <> "".
Proof.
  intros Hrel. unfold envParam.
  destruct (String.eqb_spec (param vars var) "").
  - destruct (String.eqb_spec (param envVarDefaults var) ""); [done|].
    intros [= <-]. by apply passedValue_nonempty.
  - intros [= <-]. by apply passedValue_nonempty.
Qed.

Lemma contains_self_IMAGE_PULL_SPEC : contains "IMAGE_PULL_SPEC" "IMAGE_PULL_SPEC" = true.
Proof. reflexivity. Qed.

Lemma envParam_plain sys vars var kv :
  var <> "SDI_OBSERVER_REPOSITORY" -> contains "IMAGE_PULL_SPEC" var = false ->
  envParam sys vars var = Some kv -> vars !! var = Some (snd kv).
Proof.
  intros Hvar Hc. unfold envParam.
  destruct (String.eqb_spec (param vars var) "") as [|Hne].
  - assert (param envVarDefaults var = "") as ->; [|done].
    unfold param, envVarDefaults. rewrite lookup_singleton_ne; [done|].
    intros <-. by rewrite contains_self_IMAGE_PULL_SPEC in Hc.
  - intros [= <-]. cbn. rewrite passedValue_plain by done. by apply param_lookup.
Qed.

Lemma envParam_repository sys vars kv :
  envParam sys vars "SDI_OBSERVER_REPOSITORY" = Some kv -> isUrl (snd kv) = true.
Proof.
  unfold envParam.
  assert (param envVarDefaults "SDI_OBSERVER_REPOSITORY" = "") as -> by reflexivity.
  destruct (String.eqb_spec (param vars "SDI_OBSERVER_REPOSITORY") ""); [done|].
  intros [= <-]. cbn [snd]. unfold passedValue.
  change ("SDI_OBSERVER_REPOSITORY" =? "SDI_OBSERVER_REPOSITORY")%string with true.
  cbv iota. destruct (isUrl (param vars "SDI_OBSERVER_REPOSITORY")) eqn:Hu; cbn; done.
Qed.

Lemma default_image patsub release :
  substituteAll patsub releaseMacro release
                "quay.io/miminar/sdi-observer:latest-ocp%%OCP_MINOR_RELEASE%%"
  = ("quay.io/miminar/sdi-observer:latest-ocp"
     ++ (if patsub then expandReplacement releaseMacro release else release))%string.
Proof.
  unfold substituteAll.
  set (text := if patsub then expandReplacement releaseMacro release else release).
  rewrite <- (append_empty_r text) at 2. reflexivity.
Qed.

(** ** The run *)

Lemma selectFlavour_supported vars envVars template :
  selectFlavour vars = Some (envVars, template) ->
  exists rest, envVars = (commonEnvVars ++ rest)%list.
Proof. unfold selectFlavour. repeat case_match; intros [= <- <-]; eauto. Qed.

Lemma selectFlavour_None vars :
  selectFlavour vars = None
  <-> param vars "FLAVOUR" ∉ [""; "ubi-build"; "ubi-prebuilt"; "custom-build"].
Proof.
  unfold selectFlavour. rewrite !not_elem_of_cons.
  destruct (param vars "FLAVOUR") as [|a f] eqn:Hf.
  { cbn. split; [discriminate|]. by intros [? _]. }
  destruct (String.eqb_spec (String a f) "ubi-build") as [->|].
  { split; [discriminate|]. by intros (_ & ? & _). }
  destruct (String.eqb_spec (String a f) "ubi-prebuilt") as [->|].
  { split; [discriminate|]. by intros (_ & _ & ? & _). }
  destruct (String.eqb_spec (String a f) "custom-build") as [->|].
  { split; [discriminate|]. by intros (_ & _ & _ & ? & _). }
  split; [|done]. intros _. repeat split; try done. apply not_elem_of_nil.
Qed.

Lemma run_process vars sys extra path params extra' out warnings :
  run vars sys extra = OcProcess path params extra' out warnings ->
  exists envVars template vars' client mismatch,
    selectFlavour vars = Some (envVars, template)
    /\ determineRelease vars sys = inl vars'
    /\ ocClientVersion sys = CmdOk client
    /\ bcAbsDiff sys (stripThroughDot (param vars' "OCP_MINOR_RELEASE"))
                     (stripThroughDot client) = CmdOk mismatch
    /\ checkClient mismatch client (param vars' "OCP_MINOR_RELEASE") = inl warnings
    /\ path = templatePath vars' (sourceLocation vars' sys template) template
    /\ params = omap (envParam sys (chooseAccessMode vars' sys)) envVars
    /\ extra' = extra.
Proof.
  unfold run.
  destruct (selectFlavour vars) as [[envVars template]|]; [|discriminate].
  destruct (determineRelease vars sys) as [vars'|failure] eqn:Hrel.
  2:{ apply determineRelease_failure in Hrel as [_ [(st & _ & ->)|[_ ->]]]; discriminate. }
  destruct (ocClientVersion sys) as [client|]; [|discriminate].
  destruct (bcAbsDiff sys _ _) as [mismatch|] eqn:Hbc; [|discriminate].
  destruct (checkClient mismatch client _) as [warn|failure] eqn:Hcheck.
  2:{ apply checkClient_inr in Hcheck as ->. discriminate. }
  destruct (unboundNamespace _); [discriminate|].
  intros [= <- <- <- _ <-]. by exists envVars, template, vars', client, mismatch.
Qed.


Lemma selectFlavour_NoDup vars envVars template :
  selectFlavour vars = Some (envVars, template) -> NoDup envVars.
Proof.
  unfold selectFlavour.
  repeat case_match; intros [= <- <-]; apply (bool_decide_unpack _); vm_compute; reflexivity.
Qed.

Lemma selectFlavour_insert vars k v :
  k <> "FLAVOUR" -> selectFlavour (<[k := v]> vars) = selectFlavour vars.
Proof. intros. unfold selectFlavour. by rewrite param_insert_ne. Qed.

Lemma envParam_release sys vars :
  param vars "OCP_MINOR_RELEASE" <> "" ->
  envParam sys vars "OCP_MINOR_RELEASE"
  = Some ("OCP_MINOR_RELEASE", param vars "OCP_MINOR_RELEASE").
Proof.
  intros Hrel. unfold envParam.
  destruct (String.eqb_spec (param vars "OCP_MINOR_RELEASE") ""); [done|].
  by rewrite passedValue_plain.
Qed.

Lemma release_passed vars sys envVars template vars' :
  selectFlavour vars = Some (envVars, template) ->
  param vars' "OCP_MINOR_RELEASE" <> "" ->
  ("OCP_MINOR_RELEASE", param vars' "OCP_MINOR_RELEASE")
    ∈ omap (envParam sys (chooseAccessMode vars' sys)) envVars.
Proof.
  intros [rest ->]%selectFlavour_supported Hrel.
  apply list_elem_of_omap. exists "OCP_MINOR_RELEASE". split.
  - apply elem_of_app. left. unfold commonEnvVars.
    do 4 apply list_elem_of_further. apply list_elem_of_here.
  - assert (Hp : param (chooseAccessMode vars' sys) "OCP_MINOR_RELEASE"
                 = param vars' "OCP_MINOR_RELEASE").
    { unfold param. by rewrite chooseAccessMode_other. }
    rewrite <- Hp. apply envParam_release. by rewrite Hp.
Qed.

Lemma sourceLocation_release vars sys vars' template :
  determineRelease vars sys = inl vars' ->
  sourceLocation vars' sys template = sourceLocation vars sys template.
Proof.
  intros Hrel. unfold sourceLocation, param.
  by rewrite (determineRelease_other _ _ _ "SDI_OBSERVER_REPOSITORY" Hrel).
Qed.

(** X18.  A flavour other than the three is refused before any command is
    run: whatever the system answers, the script exits with status 1 and the
    message that names the flavour.  No other run ends like this: a
    supported flavour never leads to that exit. *)
Theorem run_unsupported_flavour vars sys extra :
  run vars sys extra = ScriptExit 1 (unsupportedFlavour vars)
  <-> param vars "FLAVOUR" ∉ [""; "ubi-build"; "ubi-prebuilt"; "custom-build"].
Proof.
  rewrite <- selectFlavour_None. unfold run.
  destruct (selectFlavour vars) as [[envVars template]|]; [|done].
  split; [|done]. intros H. exfalso. revert H.
  destruct (determineRelease vars sys) as [vars'|failure] eqn:Hrel.
  2:{ apply determineRelease_failure in Hrel as [_ [(st & _ & ->)|[_ ->]]]; discriminate. }
  destruct (ocClientVersion sys) as [client|]; [|discriminate].
  destruct (bcAbsDiff sys _ _) as [mismatch|]; [|discriminate].
  destruct (checkClient mismatch client _) as [warn|failure] eqn:Hcheck.
  2:{ apply checkClient_inr in Hcheck as ->. discriminate. }
  destruct (unboundNamespace _) as [name|]; [|discriminate].
  apply checkClient_inl in Hcheck as [[_ ->]|[_ ->]]; [|discriminate].
  unfold unsupportedFlavour, unboundVariable. intros [= H].
  apply (f_equal lastChar) in H. revert H.
  rewrite (lastChar_app (scriptName sys)) by discriminate.
  rewrite (lastChar_app ": line 269: ") by (by intros [_ ?]%append_eq_empty).
  rewrite (lastChar_app name) by discriminate.
  rewrite (lastChar_app "Unsupported FLAVOUR=") by discriminate.
  rewrite (lastChar_app dquote) by (by intros [_ [? _]%append_eq_empty]%append_eq_empty).
  rewrite (lastChar_app (param vars "FLAVOUR")) by discriminate.
  rewrite (lastChar_app dquote) by discriminate.
  discriminate.
Qed.

(** X19.  When OCP_MINOR_RELEASE is left unset and the server answers with
    a release, the script goes on exactly as if that release had been
    configured. *)
Theorem run_release_from_server vars sys extra release :
  param vars "OCP_MINOR_RELEASE" = "" ->
  ocServerVersion sys = CmdOk release -> release <> "" ->
  run vars sys extra = run (<["OCP_MINOR_RELEASE" := release]> vars) sys extra.
Proof.
  intros Hunset Hserver Hrel. unfold run.
  rewrite selectFlavour_insert by done.
  assert (determineRelease vars sys = inl (<["OCP_MINOR_RELEASE" := release]> vars)) as ->.
  { unfold determineRelease. rewrite Hunset, Hserver. cbn.
    by destruct (String.eqb_spec release ""). }
  assert (determineRelease (<["OCP_MINOR_RELEASE" := release]> vars) sys
          = inl (<["OCP_MINOR_RELEASE" := release]> vars)) as ->.
  { unfold determineRelease. rewrite param_insert.
    by destruct (String.eqb_spec release ""). }
  destruct (selectFlavour vars) as [[envVars template]|]; [done|].
  unfold unsupportedFlavour. by rewrite param_insert_ne.
Qed.

(** X20.  With OCP_MINOR_RELEASE configured the server is not asked for its
    version: the outcome is the same whatever that query would answer. *)
Theorem run_release_given_ignores_server vars sys extra answer :
  param vars "OCP_MINOR_RELEASE" <> "" ->
  run vars (withServerVersion answer sys) extra = run vars sys extra.
Proof.
  intros Hset. unfold run, determineRelease.
  by destruct (String.eqb_spec (param vars "OCP_MINOR_RELEASE") "").
Qed.

(** X21.  With a supported flavour and no release configured, a server
    version that cannot be read stops the script: status 1 and the three
    lines of advice when the query prints nothing, the status of the query
    and nothing printed when the query fails. *)
Theorem run_release_unknown vars sys extra :
  param vars "FLAVOUR" ∈ [""; "ubi-build"; "ubi-prebuilt"; "custom-build"] ->
  param vars "OCP_MINOR_RELEASE" = "" ->
  (ocServerVersion sys = CmdOk "" -> run vars sys extra = ScriptExit 1 noServerVersion)
  /\ (forall status, ocServerVersion sys = CmdFailed status ->
                     run vars sys extra = ScriptExit status []).
Proof.
  intros Hf Hunset.
  destruct (selectFlavour vars) as [[envVars template]|] eqn:Hsel.
  2:{ by apply selectFlavour_None in Hsel. }
  unfold run, determineRelease. rewrite Hsel, Hunset.
  split; [intros ->|intros status ->]; reflexivity.
Qed.

(** X22.  [oc process] is reached only past the client check: the release
    passed to the template is not empty, the client version was read, and bc
    printed 0, 1 or 2 for the minor parts of the two; the warning is printed
    exactly for 2. *)
Theorem run_client_check vars sys extra path params extra' out warnings :
  run vars sys extra = OcProcess path params extra' out warnings ->
  exists release client mismatch,
    ("OCP_MINOR_RELEASE", release) ∈ params /\ release <> ""
    /\ ocClientVersion sys = CmdOk client
    /\ bcAbsDiff sys (stripThroughDot release) (stripThroughDot client) = CmdOk mismatch
    /\ (((mismatch = "0" \/ mismatch = "1") /\ warnings = [])
        \/ (mismatch = "2" /\ warnings = clientWarning client release)).
Proof.
  intros (envVars & template & vars' & client & mismatch
          & Hsel & Hrel & Hclient & Hbc & Hcheck & _ & -> & _)%run_process.
  exists (param vars' "OCP_MINOR_RELEASE"), client, mismatch.
  apply determineRelease_inl in Hrel as [Hne _].
  split; [by eapply release_passed|].
  split; [done|]. split; [done|]. split; [done|].
  by apply checkClient_inl.
Qed.

(** X23.  Whatever SDI_OBSERVER_REPOSITORY is set to, the value passed to
    the template starts with http://, ftp:// or https://. *)
Theorem run_repository_is_url vars sys extra path params extra' out warnings value :
  run vars sys extra = OcProcess path params extra' out warnings ->
  ("SDI_OBSERVER_REPOSITORY", value) ∈ params -> isUrl value = true.
Proof.
  intros (envVars & template & vars' & _ & _ & _ & _ & _ & _ & _ & _ & -> & _)%run_process.
  intros (var & _ & He)%list_elem_of_omap.
  pose proof (envParam_key _ _ _ _ He) as Hk. cbn in Hk. subst var.
  by apply envParam_repository in He.
Qed.

(** X24.  The parameters passed are variables of the flavour, in the
    flavour's order and each at most once; none has an empty value; and a
    variable other than the release, the access mode, the repository and the
    image pull specs is passed with the very value it was configured with. *)
Theorem run_passes_configured_values vars sys extra path params extra' out warnings
    envVars template :
  run vars sys extra = OcProcess path params extra' out warnings ->
  selectFlavour vars = Some (envVars, template) ->
  map fst params `sublist_of` envVars /\ NoDup (map fst params)
  /\ forall k v, (k, v) ∈ params ->
       v <> ""
       /\ (k ∉ ["OCP_MINOR_RELEASE"; "SDI_REGISTRY_VOLUME_ACCESS_MODE"; "SDI_OBSERVER_REPOSITORY"] ->
           contains "IMAGE_PULL_SPEC" k = false ->
           vars !! k = Some v).
Proof.
  intros (envVars' & template' & vars' & _ & _ & Hsel' & Hrel & _ & _ & _ & _ & -> & _)%run_process
         Hsel.
  rewrite Hsel in Hsel'. injection Hsel' as <- <-.
  split; [apply envParam_keys|].
  split.
  { apply (sublist_NoDup _ envVars); [by eapply selectFlavour_NoDup|apply envParam_keys]. }
  intros k v (var & _ & He)%list_elem_of_omap.
  pose proof (envParam_key _ _ _ _ He) as Hk. cbn in Hk. subst var.
  pose proof (determineRelease_inl _ _ _ Hrel) as [Hne _].
  split.
  - apply (envParam_nonempty _ _ _ _) in He; [done|].
    unfold param. by rewrite chooseAccessMode_other.
  - intros Hk Hc. rewrite !not_elem_of_cons in Hk. destruct Hk as (Hk1 & Hk2 & Hk3 & _).
    apply envParam_plain in He; [|done..]. cbn in He.
    rewrite chooseAccessMode_other in He by done.
    by rewrite (determineRelease_other _ _ _ k Hrel) in He.
Qed.


(** X25.  The template is read from [location/observer/<template>.json],
    with the git revision (master unless configured) between the location
    and [observer] exactly when the location starts with https://; the
    location is the configured repository, else the script's own checkout
    when it has the template, else the repository on GitHub. *)
Theorem run_template_path vars sys extra path params extra' out warnings envVars template :
  run vars sys extra = OcProcess path params extra' out warnings ->
  selectFlavour vars = Some (envVars, template) ->
  let location := sourceLocation vars sys template in
  path = if String.prefix "https://" location
         then (location ++ "/" ++ revision vars ++ "/observer/" ++ template ++ ".json")%string
         else (location ++ "/observer/" ++ template ++ ".json")%string.
Proof.
  intros (envVars' & template' & vars' & _ & _ & Hsel' & Hrel & _ & _ & _ & -> & _)%run_process
         Hsel location.
  rewrite Hsel in Hsel'. injection Hsel' as <- <-.
  unfold templatePath. rewrite (sourceLocation_release _ _ _ _ Hrel). fold location.
  assert (Hrev : param vars' "SDI_OBSERVER_GIT_REVISION" = param vars "SDI_OBSERVER_GIT_REVISION").
  { unfold param. by rewrite (determineRelease_other _ _ _ _ Hrel). }
  rewrite Hrev. fold (revision vars).
  destruct (String.prefix "https://" location).
  - apply join_three.
  - apply join_two.
Qed.

(** X26.  The script never passes an access mode of its own choice other
    than ReadWriteMany: the value passed for SDI_REGISTRY_VOLUME_ACCESS_MODE
    is the configured one, or, when none is configured, ReadWriteMany, and
    then the configured storage class or a default storage class of the
    cluster is one of those known to support it. *)
Theorem run_access_mode vars sys extra path params extra' out warnings mode :
  run vars sys extra = OcProcess path params extra' out warnings ->
  ("SDI_REGISTRY_VOLUME_ACCESS_MODE", mode) ∈ params ->
  (vars !! "SDI_REGISTRY_VOLUME_ACCESS_MODE" = Some mode /\ mode <> "")
  \/ (param vars "SDI_REGISTRY_VOLUME_ACCESS_MODE" = ""
      /\ mode = "ReadWriteMany"
      /\ (grepFixedLine rwxStorageClasses
            (param vars "SDI_REGISTRY_STORAGE_CLASS_NAME" ++ String newline "") = true
          \/ grepFixedLine rwxStorageClasses (defaultStorageClasses sys) = true)).
Proof.
  intros (envVars & template & vars' & _ & _ & _ & Hrel & _ & _ & _ & _ & -> & _)%run_process.
  intros (var & _ & He)%list_elem_of_omap.
  pose proof (envParam_key _ _ _ _ He) as Hk. cbn in Hk. subst var.
  pose proof (determineRelease_inl _ _ _ Hrel) as [Hne _].
  assert (Hmode : mode <> "").
  { apply (envParam_nonempty _ _ _ _) in He; [done|].
    unfold param. by rewrite chooseAccessMode_other. }
  apply envParam_plain in He; [|done..]. cbn in He.
  assert (Hacc : vars' !! "SDI_REGISTRY_VOLUME_ACCESS_MODE"
                 = vars !! "SDI_REGISTRY_VOLUME_ACCESS_MODE").
  { by apply (determineRelease_other _ _ _ _ Hrel). }
  assert (Hsc : param vars' "SDI_REGISTRY_STORAGE_CLASS_NAME"
                = param vars "SDI_REGISTRY_STORAGE_CLASS_NAME").
  { unfold param. by rewrite (determineRelease_other _ _ _ _ Hrel). }
  unfold chooseAccessMode in He. rewrite Hsc in He.
  assert (Hp : param vars' "SDI_REGISTRY_VOLUME_ACCESS_MODE"
               = param vars "SDI_REGISTRY_VOLUME_ACCESS_MODE").
  { unfold param. by rewrite Hacc. }
  rewrite Hp in He.
  destruct (String.eqb_spec (param vars "SDI_REGISTRY_VOLUME_ACCESS_MODE") "") as [Hunset|Hset].
  - right. split; [done|].
    destruct (grepFixedLine rwxStorageClasses
                (param vars "SDI_REGISTRY_STORAGE_CLASS_NAME" ++ String newline "")) eqn:Hg1;
      destruct (grepFixedLine rwxStorageClasses (defaultStorageClasses sys)) eqn:Hg2;
      rewrite ?lookup_insert_eq in He.
    + injection He as <-. auto.
    + injection He as <-. auto.
    + injection He as <-. auto.
    + exfalso. rewrite Hacc in He. unfold param in Hunset. rewrite He in Hunset.
      cbn in Hunset. done.
  - left. by rewrite <- Hacc.
Qed.

(** X27.  With the flavour ubi-prebuilt and no IMAGE_PULL_SPEC configured,
    the last parameter passed is the image of the observer on quay.io whose
    tag ends in the release that is passed as OCP_MINOR_RELEASE, provided
    the release has neither [&] nor a backslash; a release with one of them
    goes into the tag as the shell's pattern substitution expands it. *)
Theorem run_prebuilt_default_image vars sys extra path params extra' out warnings :
  run vars sys extra = OcProcess path params extra' out warnings ->
  param vars "FLAVOUR" = "ubi-prebuilt" ->
  param vars "IMAGE_PULL_SPEC" = "" ->
  exists release,
    ("OCP_MINOR_RELEASE", release) ∈ params
    /\ last params
       = Some ("IMAGE_PULL_SPEC",
               ("quay.io/miminar/sdi-observer:latest-ocp"
                ++ (if patsubReplacement sys then expandReplacement releaseMacro release
                    else release))%string)
    /\ (isPlain release = true ->
        last params
        = Some ("IMAGE_PULL_SPEC",
                ("quay.io/miminar/sdi-observer:latest-ocp" ++ release)%string)).
Proof.
  intros (envVars & template & vars' & _ & _ & Hsel & Hrel & _ & _ & _ & _ & -> & _)%run_process
         Hflavour Himage.
  pose proof (determineRelease_inl _ _ _ Hrel) as [Hne _].
  exists (param vars' "OCP_MINOR_RELEASE").
  split; [by eapply release_passed|].
  assert (Hpre : selectFlavour vars
                 = Some ((commonEnvVars ++ ["IMAGE_PULL_SPEC"])%list,
                         "ocp-prebuilt-image-template")).
  { unfold selectFlavour. by rewrite Hflavour. }
  assert (envVars = (commonEnvVars ++ ["IMAGE_PULL_SPEC"])%list) as -> by congruence.
  rewrite omap_app. cbn [omap list_omap].
  assert (envParam sys (chooseAccessMode vars' sys) "IMAGE_PULL_SPEC"
          = Some ("IMAGE_PULL_SPEC",
                  ("quay.io/miminar/sdi-observer:latest-ocp"
                   ++ (if patsubReplacement sys
                       then expandReplacement releaseMacro (param vars' "OCP_MINOR_RELEASE")
                       else param vars' "OCP_MINOR_RELEASE"))%string)) as ->.
  { unfold envParam.
    assert (param (chooseAccessMode vars' sys) "IMAGE_PULL_SPEC" = "") as ->.
    { unfold param. rewrite chooseAccessMode_other by done.
      by rewrite (determineRelease_other _ _ _ _ Hrel). }
    change (param envVarDefaults "IMAGE_PULL_SPEC")
      with "quay.io/miminar/sdi-observer:latest-ocp%%OCP_MINOR_RELEASE%%".
    cbn [String.eqb Ascii.eqb Bool.eqb].
    unfold passedValue.
    change ("IMAGE_PULL_SPEC" =? "SDI_OBSERVER_REPOSITORY")%string with false.
    change (contains "IMAGE_PULL_SPEC" "IMAGE_PULL_SPEC") with true.
    cbv iota. rewrite default_image.
    assert (param (chooseAccessMode vars' sys) "OCP_MINOR_RELEASE"
            = param vars' "OCP_MINOR_RELEASE") as ->; [|done].
    unfold param. by rewrite chooseAccessMode_other. }
  rewrite last_snoc. split; [done|].
  intros Hplain. rewrite expandReplacement_plain by done. by destruct (patsubReplacement sys).
Qed.

End ObserverTemplateFacts.


(** * The properties at the examples *)

Module MoreExampleFacts.
Import Examples MoreExamples.

Lemma manageDhNamespace_registers_prefix_witness :
  exists n,
    startWatches (Controller newC)
    = startWatches (Controller halfC) ++ take n (dhInformerWatches caName gvr "sdi")
    /\ Forall (fun wt => controller_Watch okLib wt = None)
              (take n (dhInformerWatches caName gvr "sdi"))
    /\ (@None error = None <-> n = 4)
    /\ (forall e, None = Some e ->
          (n = 0 /\ kubernetes_NewForConfig okLib (GetConfig (mgr halfC)) = Some e)
          \/ (exists wt, dhInformerWatches caName gvr "sdi" !! n = Some wt
                         /\ controller_Watch okLib wt = Some e)).
Proof.
  apply (manageDhNamespace_registers_prefix caName gvr okLib halfC 0 "sdi" halfW None newC newW).
  reflexivity.
Defined.

Lemma construction_error_cleans_up_witness :
  libraryError caName gvr kubeClientFails obsKey "sdi" theManager emptyWorld brokenConfig
  /\ ((controller_NewUnmanaged kubeClientFails (controllerName obsKey) theManager
       = Some brokenConfig /\ failedW = emptyWorld)
      \/ (chans failedW = chans emptyWorld ++ [mkChan 0 [] false false []]
          /\ ctxs failedW = ctxs emptyWorld ++ [true]
          /\ countEvents isFactoryStart (eventsSince emptyWorld failedW) = 0
          /\ last (trace failedW) = Some (EvCancel (length (ctxs emptyWorld))))).
Proof.
  apply (construction_error_cleans_up caName gvr kubeClientFails emptyClient [] obsKey "sdi"
           theManager emptyWorld brokenConfig failedW).
  reflexivity.
Defined.

Lemma constructions_do_not_interfere_witness :
  chans otherW !! chanReconcileObs newC = Some (mkChan 0 [] false false [])
  /\ (forall k, k ∈ cancels newC -> ctxs otherW !! k = Some false)
  /\ (forall c2, @inl _ error otherC = inl c2 ->
        chanReconcileObs c2 <> chanReconcileObs newC
        /\ forall k, k ∈ cancels c2 -> k ∉ cancels newC).
Proof.
  apply (constructions_do_not_interfere caName gvr okLib emptyClient emptyClient
           [] obsKey "sdi" theManager [] otherKey "sdi-test" theManager
           emptyWorld newC newW (inl otherC) otherW); reflexivity.
Defined.

Lemma Stop_leaves_the_rest_witness :
  (forall ch, ch <> chanReconcileObs startedC -> chans stoppedW !! ch = chans startedW !! ch)
  /\ (forall k, k ∉ cancels startedC -> ctxs stoppedW !! k = ctxs startedW !! k)
  /\ length (chans stoppedW) = length (chans startedW)
  /\ length (ctxs stoppedW) = length (ctxs startedW).
Proof. apply (Stop_leaves_the_rest startedC startedW stoppedW). reflexivity. Defined.

Lemma Stop_cancels_all_contexts_witness :
  exists wf,
    Stop startedC startedW = Ret tt wf
    /\ length (ctxs wf) = length (ctxs emptyWorld) + 1 + 1
    /\ (forall k, length (ctxs emptyWorld) <= k < length (ctxs wf) -> ctxs wf !! k = Some true)
    /\ (forall k, k < length (ctxs emptyWorld) -> ctxs wf !! k = ctxs emptyWorld !! k)
    /\ (forall f k, EvFactoryStart f k ∈ eventsSince emptyWorld wf -> ctxs wf !! k = Some true)
    /\ exists chn, chans wf !! chanReconcileObs startedC = Some chn /\ chClosed chn = true.
Proof.
  apply (Stop_cancels_all_contexts caName gvr okLib emptyClient [] obsKey "sdi" theManager
           emptyWorld newC newW 1 0 startedC startedW); reflexivity.
Defined.

Lemma Start_after_Stop_witness :
  exists c2 w2,
    Start startedC 0 stoppedW = Ret (None, c2) w2
    /\ EvGoControllerStart (length (ctxs startedW)) ∈ eventsSince stoppedW w2
    /\ ctxs w2 !! length (ctxs startedW) = Some false
    /\ length (ctxs startedW) ∈ cancels c2
    /\ Stop c2 w2 = Panic PanicCloseOfClosed
    /\ stepsReach (StopSteps c2) w2 = w2
    /\ runSchedule [0] (mkPool [StopSteps c2] w2) = Crashed PanicCloseOfClosed
    /\ (forall n, StopTimes (S n) c2 w2 = Panic PanicCloseOfClosed).
Proof. apply (Start_after_Stop startedC 0 startedW stoppedW). reflexivity. Defined.

Lemma ReconcileObsAll_in_order_witness :
  ReconcileObsAll startedC [zeroSdiObserver; renamedObserver] runningW
  = Ret tt (mkWorld (<[chanReconcileObs startedC :=
                        mkChan 0 [] false true
                               ([] ++ map mkGenericEvent [zeroSdiObserver; renamedObserver])]>
                       (chans runningW))
                    (ctxs runningW) (trace runningW)).
Proof.
  apply (ReconcileObsAll_in_order startedC [zeroSdiObserver; renamedObserver] runningW
           (mkChan 0 [] false true [])); reflexivity.
Defined.

Lemma manageDhNamespace_started_starts_factories_witness :
  unstartedFactories widenedC = []
  /\ isStarted widenedC = true
  /\ startWatches (Controller widenedC)
     = startWatches (Controller startedC) ++ dhInformerWatches caName gvr "sdi-test"
  /\ eventsSince startedW widenedW
     = manageDhNamespaceLog
       :: map EvWatch (dhInformerWatches caName gvr "sdi-test")
       ++ map (fun f => EvFactoryStart f 1) (unstartedFactories startedC ++ dhFactories "sdi-test").
Proof.
  apply (manageDhNamespace_started_starts_factories caName gvr okLib startedC 1 "sdi-test"
           startedW widenedC widenedW); reflexivity.
Defined.

End MoreExampleFacts.

Module MainExampleFacts.
Import OperatorMain OperatorMainFacts MainExamples.

Lemma main_flags_override_environment_witness :
  main deployedEnv namespaceFlag okRuntime = main otherEnv namespaceFlag okRuntime.
Proof.
  apply (main_flags_override_environment deployedEnv otherEnv namespaceFlag okRuntime).
  repeat split; first [discriminate | reflexivity].
Defined.

Lemma main_cache_namespaces_witness :
  flagVar (argNamespace noFlags) (Getenv deployedEnv namespaceEnvVar) <> ""
  /\ (NewCache deployedOptions = None
      <-> flagVar (argSdiNamespace noFlags) (Getenv deployedEnv sdiNamespaceEnvVar) <> ""
          /\ flagVar (argSlcbNamespace noFlags) (Getenv deployedEnv slcbNamespaceEnvVar) <> "")
  /\ (forall l, NewCache deployedOptions = Some (MultiNamespacedCacheBuilder l) ->
        l = [flagVar (argNamespace noFlags) (Getenv deployedEnv namespaceEnvVar);
             flagVar (argSdiNamespace noFlags) (Getenv deployedEnv sdiNamespaceEnvVar);
             flagVar (argSlcbNamespace noFlags) (Getenv deployedEnv slcbNamespaceEnvVar)]
        /\ "" ∈ l).
Proof.
  apply (main_cache_namespaces deployedEnv noFlags okRuntime deployedOptions). reflexivity.
Defined.

End MainExampleFacts.

Module ScriptExampleFacts.
Import ObserverTemplate ObserverTemplateFacts ScriptExamples.

Lemma run_release_from_server_witness :
  run shippedConfiguration loggedIn [] = run releaseGiven loggedIn [].
Proof.
  apply (run_release_from_server shippedConfiguration loggedIn [] "4.6");
    [reflexivity | reflexivity | discriminate].
Defined.

Lemma run_release_given_ignores_server_witness :
  run releaseGiven (withServerVersion (CmdFailed 1) loggedIn) [] = run releaseGiven loggedIn [].
Proof.
  apply (run_release_given_ignores_server releaseGiven loggedIn [] (CmdFailed 1)).
  vm_compute. discriminate.
Defined.

Lemma run_release_unknown_witness :
  (ocServerVersion loggedOut = CmdOk "" ->
   run shippedConfiguration loggedOut [] = ScriptExit 1 noServerVersion)
  /\ (forall status, ocServerVersion loggedOut = CmdFailed status ->
                     run shippedConfiguration loggedOut [] = ScriptExit status []).
Proof.
  apply (run_release_unknown shippedConfiguration loggedOut []).
  - apply (bool_decide_unpack _). vm_compute. reflexivity.
  - reflexivity.
Defined.

Lemma run_client_check_witness :
  exists release client mismatch,
    ("OCP_MINOR_RELEASE", release) ∈ shippedParams /\ release <> ""
    /\ ocClientVersion loggedIn = CmdOk client
    /\ bcAbsDiff loggedIn (stripThroughDot release) (stripThroughDot client) = CmdOk mismatch
    /\ (((mismatch = "0" \/ mismatch = "1") /\ @nil string = [])
        \/ (mismatch = "2" /\ [] = clientWarning client release)).
Proof.
  apply (run_client_check shippedConfiguration loggedIn [] shippedPath shippedParams []
           (map printedParam shippedParams ++ [""]) []).
  vm_compute. reflexivity.
Defined.

Lemma run_repository_is_url_witness : isUrl gitRepo = true.
Proof.
  apply (run_repository_is_url localCheckout loggedIn [] localPath localParams []
           (map printedParam localParams ++ [""]) [] gitRepo).
  - vm_compute. reflexivity.
  - apply (bool_decide_unpack _). vm_compute. reflexivity.
Defined.

Lemma run_passes_configured_values_witness :
  map fst shippedParams
    `sublist_of` (commonEnvVars ++ ["REDHAT_REGISTRY_SECRET_NAME"] ++ buildEnvVars
                  ++ registryEnvVars)
  /\ NoDup (map fst shippedParams)
  /\ forall k v, (k, v) ∈ shippedParams ->
       v <> ""
       /\ (k ∉ ["OCP_MINOR_RELEASE"; "SDI_REGISTRY_VOLUME_ACCESS_MODE"; "SDI_OBSERVER_REPOSITORY"] ->
           contains "IMAGE_PULL_SPEC" k = false ->
           shippedConfiguration !! k = Some v).
Proof.
  apply (run_passes_configured_values shippedConfiguration loggedIn [] shippedPath shippedParams
           [] (map printedParam shippedParams ++ [""]) [] _ "ocp-template").
  - vm_compute. reflexivity.
  - reflexivity.
Defined.

Lemma run_template_path_witness :
  shippedPath
  = if String.prefix "https://" (sourceLocation shippedConfiguration loggedIn "ocp-template")
    then (sourceLocation shippedConfiguration loggedIn "ocp-template" ++ "/"
          ++ revision shippedConfiguration ++ "/observer/" ++ "ocp-template" ++ ".json")%string
    else (sourceLocation shippedConfiguration loggedIn "ocp-template"
          ++ "/observer/" ++ "ocp-template" ++ ".json")%string.
Proof.
  apply (run_template_path shippedConfiguration loggedIn [] shippedPath shippedParams []
           (map printedParam shippedParams ++ [""]) []
           (commonEnvVars ++ ["REDHAT_REGISTRY_SECRET_NAME"] ++ buildEnvVars ++ registryEnvVars)
           "ocp-template").
  - vm_compute. reflexivity.
  - reflexivity.
Defined.

Lemma run_access_mode_witness :
  (shippedConfiguration !! "SDI_REGISTRY_VOLUME_ACCESS_MODE" = Some "ReadWriteMany"
   /\ "ReadWriteMany" <> "")
  \/ (param shippedConfiguration "SDI_REGISTRY_VOLUME_ACCESS_MODE" = ""
      /\ "ReadWriteMany" = "ReadWriteMany"
      /\ (grepFixedLine rwxStorageClasses
            (param shippedConfiguration "SDI_REGISTRY_STORAGE_CLASS_NAME" ++ String newline "")
          = true
          \/ grepFixedLine rwxStorageClasses (defaultStorageClasses loggedIn) = true)).
Proof.
  apply (run_access_mode shippedConfiguration loggedIn [] shippedPath shippedParams []
           (map printedParam shippedParams ++ [""]) [] "ReadWriteMany").
  - vm_compute. reflexivity.
  - apply (bool_decide_unpack _). vm_compute. reflexivity.
Defined.

Lemma run_prebuilt_default_image_witness :
  exists release,
    ("OCP_MINOR_RELEASE", release) ∈ prebuiltParams
    /\ last prebuiltParams
       = Some ("IMAGE_PULL_SPEC",
               ("quay.io/miminar/sdi-observer:latest-ocp"
                ++ (if patsubReplacement loggedIn then expandReplacement releaseMacro release
                    else release))%string)
    /\ (isPlain release = true ->
        last prebuiltParams
        = Some ("IMAGE_PULL_SPEC",
                ("quay.io/miminar/sdi-observer:latest-ocp" ++ release)%string)).
Proof.
  apply (run_prebuilt_default_image prebuiltConfiguration loggedIn [] prebuiltPath prebuiltParams
           [] (map printedParam prebuiltParams ++ [""]) []).
  - vm_compute. reflexivity.
  - reflexivity.
  - reflexivity.
Defined.

End ScriptExampleFacts.
